(** * wootMath/vector.py: the [Vector] class, embedded and verified

    The class is a thin layer over the Python runtime: tuples of numbers,
    [zip], [sum], [math.sqrt], [math.acos], tuple unpacking, and exceptions
    that the methods catch and re-label by comparing [str(e)] with fixed
    messages.  The embedding therefore has two layers:

    - [Module Py]: the fragment of the runtime the class relies on.  Values
      are Python ints (unbounded, [Z]), Python floats (IEEE 754 binary64,
      [spec_float] with the operations of the standard library at precision
      53 and maximal exponent 1024, rounding to nearest even) and strings (the
      class itself puts the string ['0'] into a coordinate tuple).  Evaluation
      either returns a value or raises an exception, which is a class and the
      text [str(e)] gives.
    - [Module Vec]: the methods of the class, one definition per method, in
      the order of the source. *)

From Stdlib Require Import ZArith List String Ascii Bool Lia.
From Stdlib Require Import Floats.SpecFloat.
Import ListNotations.

Local Open Scope string_scope.
Local Open Scope Z_scope.

(* ================================================================= *)
(** ** The Python runtime fragment *)

Module Py.

(** The interpreter the file is run under.  The only place where the two
    dialects differ for this class is the text of the [ValueError] raised by
    a failed tuple unpacking, which [Vector.cross] compares with literals. *)
Inductive pyversion : Type := Py2 | Py3.

(** Exception classes that can occur while the methods run.  Every one of
    them derives from [Exception]. *)
Inductive exn_class : Type :=
| ValueError
| TypeError
| ZeroDivisionError
| OverflowError
| RuntimeError
| Exception.

Definition exn_class_eqb (c d : exn_class) : bool :=
  match c, d with
  | ValueError, ValueError
  | TypeError, TypeError
  | ZeroDivisionError, ZeroDivisionError
  | OverflowError, OverflowError
  | RuntimeError, RuntimeError
  | Exception, Exception => true
  | _, _ => false
  end.

(** An exception instance: its class and [str(e)]. *)
Record exn : Type := mkExn { exn_cls : exn_class; exn_str : string }.

(** [except C:] catches [e] when [e] is an instance of [C]. *)
Definition isinstance (e : exn) (c : exn_class) : bool :=
  match c with
  | Exception => true
  | _ => exn_class_eqb (exn_cls e) c
  end.

(** Outcome of evaluating an expression or a method body. *)
Inductive result (A : Type) : Type :=
| Return (a : A)
| Raise (e : exn).

Arguments Return {A} a.
Arguments Raise {A} e.

Definition bind {A B : Type} (c : result A) (k : A -> result B) : result B :=
  match c with
  | Return a => k a
  | Raise e => Raise e
  end.

(** [try: body  except ...: handler]: the handler sees every exception of
    the body and re-raises the ones no clause matches. *)
Definition try_except {A : Type} (body : result A) (handler : exn -> result A)
  : result A :=
  match body with
  | Return a => Return a
  | Raise e => handler e
  end.

Declare Scope py_scope.
Delimit Scope py_scope with py.

Notation "x <- c ;; k" := (bind c (fun x => k))
  (at level 61, c at next level, right associativity) : py_scope.
Notation "' pat <- c ;; k" := (bind c (fun x => match x with pat => k end))
  (at level 61, pat pattern, c at next level, right associativity) : py_scope.

Local Open Scope py_scope.

(** Evaluation of a comprehension: element by element, left to right, the
    first exception aborts it. *)
Fixpoint mapM {A B : Type} (f : A -> result B) (l : list A) : result (list B) :=
  match l with
  | [] => Return []
  | x :: l' => y <- f x ;; ys <- mapM f l' ;; Return (y :: ys)
  end.

(* ----------------------------------------------------------------- *)
(** *** Values *)

Inductive value : Type :=
| VInt (z : Z)
| VFloat (f : spec_float)
| VStr (s : string).

Definition type_name (v : value) : string :=
  match v with
  | VInt _ => "int"
  | VFloat _ => "float"
  | VStr _ => "str"
  end.

(** binary64 *)
Definition prec : Z := 53.
Definition emax : Z := 1024.

Definition fadd := SFadd prec emax.
Definition fsub := SFsub prec emax.
Definition fmul := SFmul prec emax.
Definition fdiv := SFdiv prec emax.
Definition fsqrt := SFsqrt prec emax.

Definition fzero : spec_float := S754_zero false.
(** [1.] *)
Definition fone : spec_float := S754_finite false 4503599627370496 (-52).
(** [180.] *)
Definition f180 : spec_float := S754_finite false 6333186975989760 (-45).
(** [math.pi], 0x1.921fb54442d18p+1 *)
Definition pi : spec_float := S754_finite false 7074237752028440 (-51).
(** the default [tolerance=1e-10], 0x1.b7cdfd9d7bdbbp-34 *)
Definition default_tolerance : spec_float :=
  S754_finite false 7737125245533627 (-86).

Definition is_nan (f : spec_float) : bool :=
  match f with S754_nan => true | _ => false end.

Definition is_infinite (f : spec_float) : bool :=
  match f with S754_infinity _ => true | _ => false end.

(** [x == 0.0] on floats: both signed zeros, and nothing else. *)
Definition feq_zero (f : spec_float) : bool := SFeqb f fzero.

(** Conversion of an int to a float rounds to nearest even and raises when
    the int is beyond the largest float. *)
Definition float_of_int (z : Z) : result spec_float :=
  match binary_normalize prec emax z 0 false with
  | S754_infinity _ =>
      Raise (mkExn OverflowError "long int too large to convert to float")
  | f => Return f
  end.

Definition unsupported (op : string) (a b : value) : exn :=
  mkExn TypeError
    ("unsupported operand type(s) for " ++ op ++ ": '" ++ type_name a
       ++ "' and '" ++ type_name b ++ "'").

(** [a + b] *)
Definition py_add (a b : value) : result value :=
  match a, b with
  | VInt x, VInt y => Return (VInt (x + y))
  | VFloat x, VFloat y => Return (VFloat (fadd x y))
  | VInt x, VFloat y => fx <- float_of_int x ;; Return (VFloat (fadd fx y))
  | VFloat x, VInt y => fy <- float_of_int y ;; Return (VFloat (fadd x fy))
  | VStr s, VStr t => Return (VStr (s ++ t))
  | VStr _, _ =>
      Raise (mkExn TypeError
               ("cannot concatenate 'str' and '" ++ type_name b ++ "' objects"))
  | _, VStr _ => Raise (unsupported "+" a b)
  end.

(** [a - b] *)
Definition py_sub (a b : value) : result value :=
  match a, b with
  | VInt x, VInt y => Return (VInt (x - y))
  | VFloat x, VFloat y => Return (VFloat (fsub x y))
  | VInt x, VFloat y => fx <- float_of_int x ;; Return (VFloat (fsub fx y))
  | VFloat x, VInt y => fy <- float_of_int y ;; Return (VFloat (fsub x fy))
  | _, _ => Raise (unsupported "-" a b)
  end.

(** [sys.maxsize] on a 64-bit build: the largest repetition count. *)
Definition sys_maxsize : Z := 9223372036854775807.

Fixpoint str_repeat (s : string) (n : nat) : string :=
  match n with
  | O => EmptyString
  | S n' => s ++ str_repeat s n'
  end.

(** [s * n] and [n * s] for a string [s] and an int [n]: the count has to
    fit the index type, in either direction; a count that is not positive
    gives the empty string.  (Memory is not modelled: a count that fits is
    carried out.) *)
Definition py_repeat (s : string) (n : Z) : result value :=
  if (sys_maxsize <? n) || (n <? - sys_maxsize - 1)
  then Raise (mkExn OverflowError "cannot fit 'long' into an index-sized integer")
  else Return (VStr (str_repeat s (Z.to_nat n))).

Definition cant_multiply (v : value) : exn :=
  mkExn TypeError
    ("can't multiply sequence by non-int of type '" ++ type_name v ++ "'").

(** [a * b] *)
Definition py_mul (a b : value) : result value :=
  match a, b with
  | VInt x, VInt y => Return (VInt (x * y))
  | VFloat x, VFloat y => Return (VFloat (fmul x y))
  | VInt x, VFloat y => fx <- float_of_int x ;; Return (VFloat (fmul fx y))
  | VFloat x, VInt y => fy <- float_of_int y ;; Return (VFloat (fmul x fy))
  | VStr s, VInt n => py_repeat s n
  | VInt n, VStr s => py_repeat s n
  | VStr _, _ => Raise (cant_multiply b)
  | _, VStr _ => Raise (cant_multiply a)
  end.

(** [-a] *)
Definition py_neg (a : value) : result value :=
  match a with
  | VInt x => Return (VInt (- x))
  | VFloat x => Return (VFloat (SFopp x))
  | VStr _ => Raise (mkExn TypeError "bad operand type for unary -: 'str'")
  end.

(** [x ** 2] on a float: the special cases CPython decides itself (NaN,
    infinities, zeros), then the C [pow], taken here as the correctly rounded
    square; a finite operand with an infinite result is an [OverflowError],
    an underflow to zero is not an error.  (The C library promises a result
    within one unit in the last place, not the correctly rounded one; the
    two agree whenever the square is exact.) *)
Definition float_pow2 (x : spec_float) : result spec_float :=
  match x with
  | S754_nan => Return S754_nan
  | S754_infinity _ => Return (S754_infinity false)
  | S754_zero _ => Return fzero
  | S754_finite _ _ _ =>
      let r := fmul (SFabs x) (SFabs x) in
      if is_infinite r
      then Raise (mkExn OverflowError "(34, 'Numerical result out of range')")
      else Return r
  end.

(** [a ** 2] *)
Definition py_pow2 (a : value) : result value :=
  match a with
  | VInt x => Return (VInt (x ^ 2))
  | VFloat x => r <- float_pow2 x ;; Return (VFloat r)
  | VStr _ =>
      Raise (mkExn TypeError
               "unsupported operand type(s) for ** or pow(): 'str' and 'int'")
  end.

(** [sum(l)]: starts from the int [0] and adds from the left. *)
Fixpoint sum_from (acc : value) (l : list value) : result value :=
  match l with
  | [] => Return acc
  | x :: l' => acc' <- py_add acc x ;; sum_from acc' l'
  end.

Definition py_sum (l : list value) : result value := sum_from (VInt 0) l.

(** Argument conversion of the [math] functions. *)
Definition as_double (v : value) : result spec_float :=
  match v with
  | VInt z => float_of_int z
  | VFloat f => Return f
  | VStr _ => Raise (mkExn TypeError "a float is required")
  end.

Definition math_domain_error : exn := mkExn ValueError "math domain error".

(** [math.sqrt]: a NaN result for an argument that is not NaN is a domain
    error. *)
Definition math_sqrt (v : value) : result spec_float :=
  x <- as_double v ;;
  let r := fsqrt x in
  if is_nan r && negb (is_nan x) then Raise math_domain_error else Return r.

(** [1. / m] and the like: true division of a float by a float. *)
Definition float_truediv (x y : spec_float) : result spec_float :=
  if feq_zero y
  then Raise (mkExn ZeroDivisionError "float division by zero")
  else Return (fdiv x y).

(** [x] lies in the domain [-1, 1] of the arccosine. *)
Definition in_acos_domain (x : spec_float) : bool :=
  SFleb (SFabs x) fone.

(** Tuple unpacking into three names. *)
Definition unpack3_error (ver : pyversion) (n : nat) : exn :=
  mkExn ValueError
    match ver, n with
    | Py2, 0%nat => "need more than 0 values to unpack"
    | Py2, 1%nat => "need more than 1 value to unpack"
    | Py2, 2%nat => "need more than 2 values to unpack"
    | Py2, _ => "too many values to unpack"
    | Py3, 0%nat => "not enough values to unpack (expected 3, got 0)"
    | Py3, 1%nat => "not enough values to unpack (expected 3, got 1)"
    | Py3, 2%nat => "not enough values to unpack (expected 3, got 2)"
    | Py3, _ => "too many values to unpack (expected 3)"
    end.

Definition unpack3 (ver : pyversion) (t : list value)
  : result (value * value * value) :=
  match t with
  | [x; y; z] => Return (x, y, z)
  | _ => Raise (unpack3_error ver (List.length t))
  end.

(** What a constructor argument can be.  [PIter l] is an iterator or a
    generator that yields the elements of [l]: such an object is always
    true, also when it yields nothing. *)
Inductive pyobj : Type :=
| PNone
| PBool (b : bool)
| PScalar (v : value)
| PTuple (l : list value)
| PList (l : list value)
| PIter (l : list value).

Definition is_empty {A : Type} (l : list A) : bool :=
  match l with [] => true | _ => false end.

(** Truth value of an object, as [not coordinates] tests it. *)
Definition truthy (o : pyobj) : bool :=
  match o with
  | PNone => false
  | PBool b => b
  | PScalar (VInt z) => negb (z =? 0)
  | PScalar (VFloat f) => negb (feq_zero f)
  | PScalar (VStr s) => negb (String.eqb s EmptyString)
  | PTuple l => negb (is_empty l)
  | PList l => negb (is_empty l)
  | PIter _ => true
  end.

Definition pyobj_type_name (o : pyobj) : string :=
  match o with
  | PNone => "NoneType"
  | PBool _ => "bool"
  | PScalar v => type_name v
  | PTuple _ => "tuple"
  | PList _ => "list"
  | PIter _ => "generator"
  end.

Definition iterable (o : pyobj) : bool :=
  match o with
  | PTuple _ | PList _ | PIter _ | PScalar (VStr _) => true
  | _ => false
  end.

Definition chars (s : string) : list value :=
  map (fun c => VStr (String c EmptyString)) (list_ascii_of_string s).

(** [tuple(o)] *)
Definition tuple (o : pyobj) : result (list value) :=
  match o with
  | PTuple l => Return l
  | PList l => Return l
  | PIter l => Return l
  | PScalar (VStr s) => Return (chars s)
  | _ =>
      Raise (mkExn TypeError
               ("'" ++ pyobj_type_name o ++ "' object is not iterable"))
  end.

(** [abs(a)] *)
Definition py_abs (a : value) : result value :=
  match a with
  | VInt x => Return (VInt (Z.abs x))
  | VFloat x => Return (VFloat (SFabs x))
  | VStr _ => Raise (mkExn TypeError "bad operand type for abs(): 'str'")
  end.

(** [z < f] for an int [z] and a float [f]: the two are compared as exact
    numbers, the int is not rounded to a float first. *)
Definition int_lt_float (z : Z) (f : spec_float) : bool :=
  match f with
  | S754_nan => false
  | S754_infinity s => negb s
  | S754_zero _ => z <? 0
  | S754_finite s m e =>
      let v := if s then Z.neg m else Z.pos m in
      if 0 <=? e then z <? v * 2 ^ e else z * 2 ^ (- e) <? v
  end.

(** [a < f] for a float [f].  Python 2 orders every number before every
    string, so a string is never below a float (Python 3 raises instead; the
    class never gets there, [abs] has no string result). *)
Definition py_lt_float (a : value) (f : spec_float) : result bool :=
  match a with
  | VInt z => Return (int_lt_float z f)
  | VFloat x => Return (SFltb x f)
  | VStr _ => Return false
  end.

(** [x / n] for a float [x] and an int [n]: the int is converted, then the
    floats are divided. *)
Definition float_div_int (x : spec_float) (n : Z) : result spec_float :=
  d <- float_of_int n ;; float_truediv x d.

End Py.

(* ================================================================= *)
(** ** The class [Vector] *)

Module Vec.
Import Py.
Local Open Scope py_scope.

Definition CANNOT_NORMALIZE_ZERO_VECTOR_MSG : string :=
  "Cannot normalize the zero vector".
Definition NO_UNIQUE_PARALLEL_COMPONENT_MSG : string :=
  "No unique parallel component".
Definition NO_UNIQUE_ORTHOGONAL_COMPONENT_MSG : string :=
  "No unique orthogonal component".
Definition ONLY_DEFINED_IN_TWO_THREE_DIMS_MSG : string :=
  "Only two or three dimensional vectors can be processed".

(** An instance: the two attributes [__init__] sets. *)
Record Vector : Type := mkVector {
  coordinates : list value;
  dimension : nat
}.

(** [sys.getrecursionlimit()]: how deep [cross] may call itself. *)
Definition recursion_limit : nat := 1000.

Definition recursion_error : exn :=
  mkExn RuntimeError "maximum recursion depth exceeded".

Section Methods.

(** The C library's arccosine on its domain [-1, 1]. *)
Variable libm_acos : spec_float -> spec_float.

(** [math.acos]: NaN goes through; outside [-1, 1] the C function returns
    NaN, which [math] reports as a domain error. *)
Definition math_acos (v : value) : result spec_float :=
  x <- as_double v ;;
  if is_nan x then Return S754_nan
  else if in_acos_domain x then Return (libm_acos x)
  else Raise math_domain_error.

Definition __init__ (coords : pyobj) : result Vector :=
  try_except
    (if negb (truthy coords) then Raise (mkExn ValueError EmptyString)
     else
       t <- tuple coords ;;
       Return {| coordinates := t; dimension := List.length t |})
    (fun e =>
       if isinstance e ValueError
       then Raise (mkExn ValueError "The coordinates must be nonempty")
       else if isinstance e TypeError
       then Raise (mkExn TypeError "The coordinates must be iterable")
       else Raise e).

Definition __add__ (self v : Vector) : result Vector :=
  t <- mapM (fun '(x, y) => py_add x y)
            (combine (coordinates self) (coordinates v)) ;;
  __init__ (PTuple t).

Definition __sub__ (self v : Vector) : result Vector :=
  t <- mapM (fun '(x, y) => py_sub x y)
            (combine (coordinates self) (coordinates v)) ;;
  __init__ (PTuple t).

Definition __mul__ (self : Vector) (times : value) : result Vector :=
  t <- mapM (fun coordinate => py_mul coordinate times) (coordinates self) ;;
  __init__ (PTuple t).

Definition magnitude (self : Vector) : result spec_float :=
  squares <- mapM py_pow2 (coordinates self) ;;
  s <- py_sum squares ;;
  math_sqrt s.

Definition normalized (self : Vector) : result Vector :=
  try_except
    (m <- magnitude self ;;
     q <- float_truediv fone m ;;
     __mul__ self (VFloat q))
    (fun e =>
       if isinstance e ZeroDivisionError
       then Raise (mkExn Exception "Cannot normalize the zero vector")
       else Raise e).

Definition dot (self v : Vector) : result value :=
  products <- mapM (fun '(x, y) => py_mul x y)
                   (combine (coordinates self) (coordinates v)) ;;
  py_sum products.

Definition angle_with (self v : Vector) (in_degrees : bool)
  : result spec_float :=
  try_except
    (unit1 <- normalized self ;;
     unit2 <- normalized v ;;
     d <- dot unit1 unit2 ;;
     angle_in_radians <- math_acos d ;;
     if in_degrees
     then
       degrees_per_radian <- float_truediv f180 pi ;;
       Return (fmul angle_in_radians degrees_per_radian)
     else Return angle_in_radians)
    (fun e =>
       if String.eqb (exn_str e) CANNOT_NORMALIZE_ZERO_VECTOR_MSG
       then Raise (mkExn Exception
                     "Cannot compute an angle with the zero vector")
       else Raise e).

Definition is_zero (self : Vector) (tolerance : spec_float) : result bool :=
  m <- magnitude self ;;
  Return (SFltb m tolerance).

Definition is_orthogonal_to (self v : Vector) (tolerance : spec_float)
  : result bool :=
  d <- dot self v ;;
  a <- py_abs d ;;
  py_lt_float a tolerance.

(** [a or b or c or d] evaluates from the left and stops at the first true
    operand. *)
Definition is_parallel_to (self v : Vector) : result bool :=
  z1 <- is_zero self default_tolerance ;;
  if z1 then Return true else
  z2 <- is_zero v default_tolerance ;;
  if z2 then Return true else
  a1 <- angle_with self v false ;;
  if feq_zero a1 then Return true else
  a2 <- angle_with self v false ;;
  Return (SFeqb a2 pi).

Definition component_parallel_to (self basis : Vector) : result Vector :=
  try_except
    (u <- normalized basis ;;
     weight <- dot self u ;;
     __mul__ u weight)
    (fun e =>
       if String.eqb (exn_str e) CANNOT_NORMALIZE_ZERO_VECTOR_MSG
       then Raise (mkExn Exception NO_UNIQUE_PARALLEL_COMPONENT_MSG)
       else Raise e).

Definition component_orthogonal_to (self basis : Vector) : result Vector :=
  try_except
    (projection <- component_parallel_to self basis ;;
     __sub__ self projection)
    (fun e =>
       if String.eqb (exn_str e) NO_UNIQUE_PARALLEL_COMPONENT_MSG
       then Raise (mkExn Exception NO_UNIQUE_ORTHOGONAL_COMPONENT_MSG)
       else Raise e).

(** [cross] calls itself from its [except] clause; [depth] is the number of
    nested calls the interpreter still allows. *)
Fixpoint cross_depth (depth : nat) (ver : pyversion) (self v : Vector)
  : result Vector :=
  match depth with
  | O => Raise recursion_error
  | S depth' =>
      try_except
        ('(x_1, y_1, z_1) <- unpack3 ver (coordinates self) ;;
         '(x_2, y_2, z_2) <- unpack3 ver (coordinates v) ;;
         c1 <- (a <- py_mul y_1 z_2 ;; b <- py_mul y_2 z_1 ;; py_sub a b) ;;
         c2 <- (a <- py_mul x_1 z_2 ;; b <- py_mul x_2 z_1 ;;
                d <- py_sub a b ;; py_neg d) ;;
         c3 <- (a <- py_mul x_1 y_2 ;; b <- py_mul x_2 y_1 ;; py_sub a b) ;;
         __init__ (PList [c1; c2; c3]))
        (fun e =>
           if isinstance e ValueError then
             let msg := exn_str e in
             if String.eqb msg "need more than 2 values to unpack" then
               self_embedded_in_R3 <-
                 __init__ (PTuple (coordinates self ++ [VStr "0"])%list) ;;
               v_embedded_in_R3 <-
                 __init__ (PTuple (coordinates v ++ [VStr "0"])%list) ;;
               cross_depth depth' ver self_embedded_in_R3 v_embedded_in_R3
             else if String.eqb msg "too many values to unpack"
                     || String.eqb msg "need more than 1 value to unpack"
             then Raise (mkExn Exception ONLY_DEFINED_IN_TWO_THREE_DIMS_MSG)
             else Raise e
           else Raise e)
  end.

Definition cross (ver : pyversion) (self v : Vector) : result Vector :=
  cross_depth recursion_limit ver self v.

Definition area_of_parallelogram_with (ver : pyversion) (self v : Vector)
  : result spec_float :=
  cross_product <- cross ver self v ;;
  magnitude cross_product.

Definition area_of_triangle_with (ver : pyversion) (self v : Vector)
  : result spec_float :=
  area <- area_of_parallelogram_with ver self v ;;
  float_div_int area 2.

End Methods.

End Vec.

(* ================================================================= *)
(** ** Vocabulary of the specification *)

Import Py Vec.
Local Open Scope py_scope.

(** The error kinds of the specification. *)
Inductive error_kind : Type :=
| InvalidArgument
| DimensionMismatch
| ZeroVectorError
| NoUniqueParallelComponent
| NoUniqueOrthogonalComponent
| UnsupportedDimension.

(** The exceptions of the class that stand for each kind: the class raises
    the builtin [ValueError] and [TypeError] from the constructor and the
    plain [Exception] elsewhere, and only the message tells the kinds apart.
    No exception of the class stands for [DimensionMismatch]. *)
Definition kind_of (e : exn) : option error_kind :=
  let msg := exn_str e in
  match exn_cls e with
  | ValueError =>
      if String.eqb msg "The coordinates must be nonempty"
      then Some InvalidArgument else None
  | TypeError =>
      if String.eqb msg "The coordinates must be iterable"
      then Some InvalidArgument else None
  | Exception =>
      if String.eqb msg CANNOT_NORMALIZE_ZERO_VECTOR_MSG
         || String.eqb msg "Cannot compute an angle with the zero vector"
      then Some ZeroVectorError
      else if String.eqb msg NO_UNIQUE_PARALLEL_COMPONENT_MSG
      then Some NoUniqueParallelComponent
      else if String.eqb msg NO_UNIQUE_ORTHOGONAL_COMPONENT_MSG
      then Some NoUniqueOrthogonalComponent
      else if String.eqb msg ONLY_DEFINED_IN_TWO_THREE_DIMS_MSG
      then Some UnsupportedDimension
      else None
  | _ => None
  end.

(** The exception [normalized] raises for a vector of magnitude zero. *)
Definition zero_vector_error : exn :=
  mkExn Exception CANNOT_NORMALIZE_ZERO_VECTOR_MSG.

(** The exception [cross] raises for operands it does not handle. *)
Definition unsupported_dimension_error : exn :=
  mkExn Exception ONLY_DEFINED_IN_TWO_THREE_DIMS_MSG.

(** [c] raises only exceptions whose class satisfies [P]. *)
Definition raises_only {A : Type} (P : exn_class -> bool) (c : result A)
  : Prop :=
  forall e, c = Raise e -> P (exn_cls e) = true.

(** Classes of the exceptions the arithmetic of the runtime raises. *)
Definition runtime_class (c : exn_class) : bool :=
  match c with
  | TypeError | OverflowError | ValueError => true
  | _ => false
  end.

(** Classes of the exceptions [+], [-], [*] and [**] raise. *)
Definition arith_class (c : exn_class) : bool :=
  match c with
  | TypeError | OverflowError => true
  | _ => false
  end.

Definition is_int (v : value) : bool :=
  match v with VInt _ => true | _ => false end.

Definition is_float (v : value) : bool :=
  match v with VFloat _ => true | _ => false end.

(** Both vectors hold ints only, or both hold floats only. *)
Definition same_number_type (a b : Vector) : bool :=
  (forallb is_int (coordinates a) && forallb is_int (coordinates b))
  || (forallb is_float (coordinates a) && forallb is_float (coordinates b)).

(** A coordinate that is the number zero: the int [0], or a float zero of
    either sign. *)
Definition zero_coordinate (v : value) : bool :=
  match v with
  | VInt z => z =? 0
  | VFloat (S754_zero _) => true
  | _ => false
  end.

Definition zero_vector (v : Vector) : bool :=
  forallb zero_coordinate (coordinates v).

(** The vector of the first [n] coordinates. *)
Definition prefix (n : nat) (v : Vector) : Vector :=
  {| coordinates := firstn n (coordinates v);
     dimension := List.length (firstn n (coordinates v)) |}.

(** A vector as the constructor builds it from a tuple. *)
Definition vec (l : list value) : Vector :=
  {| coordinates := l; dimension := List.length l |}.

Definition ints (l : list Z) : Vector := vec (map VInt l).
Definition floats (l : list spec_float) : Vector := vec (map VFloat l).

(** [pi / 2], 0x1.921fb54442d18p+0 *)
Definition half_pi : spec_float := S754_finite false 7074237752028440 (-52).

(** The values of the arccosine that are the same in every C library: it is
    exact at [1], and the correctly rounded quotients of [pi] at [0] and
    [-1].  Elsewhere this sample is the chord of the curve and only stands in
    for the library. *)
Definition acos_sample (x : spec_float) : spec_float :=
  if SFeqb x fone then fzero
  else if SFeqb x (SFopp fone) then pi
  else if feq_zero x then half_pi
  else fsub half_pi (fmul half_pi x).

(** The smallest float above [1.]: 0x1.0000000000001p+0 *)
Definition one_plus_ulp : spec_float :=
  S754_finite false 4503599627370497 (-52).

(** [1. / sqrt(3)] as [normalized] computes it: 0x1.279a74590331dp-1 *)
Definition inv_sqrt3 : spec_float := S754_finite false 5200308914369309 (-53).

(** 0x1.e42d130773b76p+1023, the float nearest to [1.7e308] *)
Definition f1_7e308 : spec_float := S754_finite false 8517715530038134 971.

(** [1e17], exactly 10^17 *)
Definition f1e17 : spec_float := S754_finite false 6250000000000000 4.

(** [3.] and [4.] *)
Definition f3 : spec_float := S754_finite false 6755399441055744 (-51).
Definition f4 : spec_float := S754_finite false 4503599627370496 (-50).

(** [|x - y| <= tol] on floats; false as soon as a NaN is involved. *)
Definition close (tol x y : spec_float) : bool :=
  SFleb (SFabs (fsub x y)) tol.

Definition value_close (tol : spec_float) (a b : value) : bool :=
  match a, b with
  | VFloat x, VFloat y => close tol x y
  | _, _ => false
  end.

(** Two vectors agree up to [tol] in every coordinate. *)
Definition vector_close (tol : spec_float) (a b : Vector) : bool :=
  (List.length (coordinates a) =? List.length (coordinates b))%nat
  && forallb (fun '(x, y) => value_close tol x y)
             (combine (coordinates a) (coordinates b)).

(** One coordinate of [p + (v - p)]. *)
Definition recombine (pv : value * value) : result value :=
  let '(p, v) := pv in
  d <- py_sub v p ;; py_add p d.

(** The invariant of the instances the class builds: at least one
    coordinate, and [dimension] is their number. *)
Definition well_formed (v : Vector) : Prop :=
  coordinates v <> [] /\ dimension v = List.length (coordinates v).

(** [c] raises only exceptions that satisfy [P]. *)
Definition raises_exn {A : Type} (P : exn -> bool) (c : result A) : Prop :=
  forall e, c = Raise e -> P e = true.

(** An exception as the interpreter raises it from arithmetic, [math] or
    the constructor: one of the builtin classes, with a message that none of
    the handlers of the class looks for. *)
Definition from_runtime (e : exn) : bool :=
  runtime_class (exn_cls e)
  && negb (String.eqb (exn_str e) CANNOT_NORMALIZE_ZERO_VECTOR_MSG)
  && negb (String.eqb (exn_str e) NO_UNIQUE_PARALLEL_COMPONENT_MSG).

(** The exception [angle_with] raises for an operand of magnitude zero. *)
Definition zero_angle_error : exn :=
  mkExn Exception "Cannot compute an angle with the zero vector".

Definition no_parallel_error : exn :=
  mkExn Exception NO_UNIQUE_PARALLEL_COMPONENT_MSG.

Definition no_orthogonal_error : exn :=
  mkExn Exception NO_UNIQUE_ORTHOGONAL_COMPONENT_MSG.

(** A coordinate that is a number. *)
Definition is_number (v : value) : bool := is_int v || is_float v.

(** A float that is not below zero: not a negative finite number and not
    minus infinity. *)
Definition not_negative (f : spec_float) : bool :=
  match f with
  | S754_infinity true | S754_finite true _ _ => false
  | _ => true
  end.

(** A value [sum] can reach by adding squares: an int that is not negative
    or a float that is not negative. *)
Definition not_negative_value (v : value) : bool :=
  match v with
  | VInt z => 0 <=? z
  | VFloat f => not_negative f
  | VStr _ => false
  end.

(** [2.] *)
Definition f2 : spec_float := S754_finite false 4503599627370496 (-51).

(** [180. / math.pi], 0x1.ca5dc1a63c1f8p+5 *)
Definition degrees_per_radian : spec_float :=
  S754_finite false 8063664102031864 (-47).

(** The class of the exception an int too large for a float raises. *)
Definition is_overflow (c : exn_class) : bool :=
  match c with OverflowError => true | _ => false end.

(** 2^1024, the first int that no float can hold. *)
Definition two_1024 : Z := 2 ^ 1024.

(** A float that is a number: a zero or a finite number. *)
Definition is_finite (f : spec_float) : bool :=
  match f with
  | S754_zero _ | S754_finite _ _ _ => true
  | _ => false
  end.

(** A coordinate that is a binary64 float, as every Python float is. *)
Definition is_binary64 (c : value) : bool :=
  match c with
  | VFloat f => valid_binary prec emax f
  | _ => false
  end.

(** The exponent of the smallest positive float, 2^-1074. *)
Definition emin64 : Z := -1074.

(** A finite float whose exponent is not below [emin64] is a whole number
    of units of 2^-1074; every binary64 float and every result of a float
    operation is one. *)
Definition representable (f : spec_float) : bool :=
  match f with
  | S754_finite _ _ e => emin64 <=? e
  | _ => true
  end.

(** The value of a finite float in units of 2^-1074. *)
Definition units (f : spec_float) : Z :=
  match f with
  | S754_finite s m e => (if s then Z.neg m else Z.pos m) * 2 ^ (e - emin64)
  | _ => 0
  end.

(** A coordinate [s_i] of the sum of the two components is within rounding
    of the coordinate [v_i] of the vector: all three coordinates are floats,
    [o_i] (the coordinate of the orthogonal component) and [s_i] are whole
    numbers of units and, when [s_i] is finite,
    [|s_i - v_i| <= 2^-53 * (|o_i| + |s_i|)]. *)
Definition within_rounding (v_i o_i s_i : value) : Prop :=
  match v_i, o_i, s_i with
  | VFloat x, VFloat o, VFloat s =>
      representable o = true
      /\ representable s = true
      /\ (is_finite s = true ->
          2 ^ 53 * Z.abs (units s - units x)
          <= Z.abs (units o) + Z.abs (units s))
  | _, _, _ => False
  end.

(** [1. / math.sqrt(2.)], 0x1.6a09e667f3bccp-1 *)
Definition inv_sqrt2 : spec_float := S754_finite false 6369051672525772 (-53).

(** The state of the rounding shifter after [j] shifts of the mantissa [m]:
    the mantissa that is left, the last bit shifted out, and whether any bit
    before it was set. *)
Definition shr_inv (m : Z) (j : nat) (mrs : shr_record) : Prop :=
  match j with
  | O => mrs = Build_shr_record m false false
  | S j0 =>
      exists low,
        0 <= low < 2 ^ Z.of_nat j0
        /\ (shr_s mrs = false -> low = 0)
        /\ 0 <= shr_m mrs
        /\ m = 2 ^ Z.of_nat (S j0) * shr_m mrs
               + (if shr_r mrs then 2 ^ Z.of_nat j0 else 0) + low
  end.

(* ================================================================= *)
(** ** Construction *)

Lemma init_nonempty_tuple (l : list value) :
  l <> [] -> __init__ (PTuple l) = Return (vec l).
Proof.
  destruct l as [|x l]; [congruence|]. reflexivity.
Qed.

Lemma init_nonempty_list (l : list value) :
  l <> [] -> __init__ (PList l) = Return (vec l).
Proof.
  destruct l as [|x l]; [congruence|]. reflexivity.
Qed.

Lemma init_falsy (o : pyobj) :
  truthy o = false ->
  __init__ o = Raise (mkExn ValueError "The coordinates must be nonempty").
Proof.
  intros H. unfold __init__. rewrite H. reflexivity.
Qed.

Lemma init_truthy_not_iterable (o : pyobj) :
  truthy o = true -> iterable o = false ->
  __init__ o = Raise (mkExn TypeError "The coordinates must be iterable").
Proof.
  intros Ht Hi. unfold __init__. rewrite Ht.
  destruct o as [|b|[z|f|s]|l|l|l]; simpl in *; try discriminate; reflexivity.
Qed.

(** C9: constructing from a non-empty list or tuple [c] returns the vector
    whose [coordinates] are [c], in order, and whose [dimension] is the
    length of [c]; constructing from the empty list, the empty tuple or the
    empty string raises [ValueError('The coordinates must be nonempty')],
    the exception of kind [InvalidArgument]. *)
Theorem init_from_sequence (c : list value) :
  c <> [] ->
  (exists v,
      __init__ (PList c) = Return v /\ __init__ (PTuple c) = Return v
      /\ dimension v = List.length c /\ coordinates v = c)
  /\ (exists e,
         __init__ (PList []) = Raise e /\ __init__ (PTuple []) = Raise e
         /\ __init__ (PScalar (VStr EmptyString)) = Raise e
         /\ e = mkExn ValueError "The coordinates must be nonempty"
         /\ kind_of e = Some InvalidArgument).
Proof.
  intros Hc. split.
  - exists (vec c). rewrite init_nonempty_list, init_nonempty_tuple by assumption.
    repeat split.
  - eexists. repeat split.
Qed.

Lemma init_from_sequence_witness :
  [VInt 3; VFloat fone] <> []
  /\ __init__ (PList [VInt 3; VFloat fone])
     = Return (mkVector [VInt 3; VFloat fone] 2).
Proof.
  assert (H : [VInt 3; VFloat fone] <> []) by discriminate.
  split; [exact H|].
  destruct (init_from_sequence [VInt 3; VFloat fone] H)
    as [[v (Hl & _ & Hd & Hc)] _].
  rewrite Hl. destruct v as [cs d]. simpl in Hd, Hc. subst. reflexivity.
Defined.

(** C10: the constructor tests the truth value of its argument before it
    iterates over it: an argument that is not iterable and is falsy (as the
    int [0] and [False] are) raises the [ValueError] about emptiness, and
    only a truthy one raises the [TypeError] about iterability. *)
Theorem init_tests_emptiness_first (o : pyobj) :
  iterable o = false ->
  __init__ o
  = Raise (if truthy o
           then mkExn TypeError "The coordinates must be iterable"
           else mkExn ValueError "The coordinates must be nonempty").
Proof.
  intros Hi. destruct (truthy o) eqn:Ht.
  - now apply init_truthy_not_iterable.
  - now apply init_falsy.
Qed.

Lemma init_tests_emptiness_first_witness :
  __init__ (PScalar (VInt 0))
  = Raise (mkExn ValueError "The coordinates must be nonempty")
  /\ __init__ (PBool false)
     = Raise (mkExn ValueError "The coordinates must be nonempty")
  /\ __init__ (PScalar (VInt 5))
     = Raise (mkExn TypeError "The coordinates must be iterable").
Proof.
  split; [|split].
  - exact (init_tests_emptiness_first (PScalar (VInt 0)) eq_refl).
  - exact (init_tests_emptiness_first (PBool false) eq_refl).
  - exact (init_tests_emptiness_first (PScalar (VInt 5)) eq_refl).
Defined.

(* ================================================================= *)
(** ** Cross product *)

Lemma recursion_limit_eq : recursion_limit = S (S (S 997)).
Proof. reflexivity. Qed.

Lemma repeat_minus_repeat (s t : string) (m n : Z) :
  exists e,
    (a <- py_repeat s m ;; b <- py_repeat t n ;; py_sub a b) = Raise e
    /\ arith_class (exn_cls e) = true.
Proof.
  unfold py_repeat.
  destruct ((sys_maxsize <? m) || (m <? - sys_maxsize - 1));
    cbn [bind]; [eexists; split; reflexivity|].
  destruct ((sys_maxsize <? n) || (n <? - sys_maxsize - 1));
    cbn [bind]; eexists; split; reflexivity.
Qed.

(** The first coordinate of the cross product of two embedded vectors,
    [y_1 * '0' - y_2 * '0'], has no value. *)
Lemma embedded_first_coordinate (y_1 y_2 : value) :
  exists e,
    (a <- py_mul y_1 (VStr "0") ;; b <- py_mul y_2 (VStr "0") ;; py_sub a b)
    = Raise e
    /\ arith_class (exn_cls e) = true.
Proof.
  destruct y_1 as [m|f|s]; simpl;
    try (eexists; split; reflexivity).
  destruct y_2 as [n|g|t].
  - apply repeat_minus_repeat.
  - unfold py_repeat.
    destruct ((sys_maxsize <? m) || (m <? - sys_maxsize - 1)); cbn;
      eexists; split; reflexivity.
  - unfold py_repeat.
    destruct ((sys_maxsize <? m) || (m <? - sys_maxsize - 1)); cbn;
      eexists; split; reflexivity.
Qed.

(** Two 2-dimensional operands: the first unpacking fails, both operands
    get the string ['0'] appended, and the nested call fails on the
    arithmetic with that string; the [TypeError] (or [OverflowError]) is not
    a [ValueError], so no clause of either call catches it. *)
Lemma cross_depth_2d_py2 (d : nat) (x_1 y_1 x_2 y_2 : value) (d1 d2 : nat) :
  exists e,
    cross_depth (S (S d)) Py2 (mkVector [x_1; y_1] d1) (mkVector [x_2; y_2] d2)
    = Raise e
    /\ arith_class (exn_cls e) = true.
Proof.
  destruct (embedded_first_coordinate y_1 y_2) as [[c msg] [He Hc]].
  exists (mkExn c msg). split; [|exact Hc].
  cbn -[py_mul py_sub py_neg].
  unfold bind at 1. unfold bind in He.
  destruct (py_mul y_1 (VStr "0")) as [a|e1]; cbn -[py_mul py_sub py_neg].
  - destruct (py_mul y_2 (VStr "0")) as [b|e2]; cbn -[py_mul py_sub py_neg].
    + rewrite He. destruct c; try discriminate; reflexivity.
    + injection He as ->. destruct c; try discriminate; reflexivity.
  - injection He as ->. destruct c; try discriminate; reflexivity.
Qed.

Lemma cross_depth_2d_py3 (d : nat) (x_1 y_1 x_2 y_2 : value) (d1 d2 : nat) :
  cross_depth (S d) Py3 (mkVector [x_1; y_1] d1) (mkVector [x_2; y_2] d2)
  = Raise (mkExn ValueError "not enough values to unpack (expected 3, got 2)").
Proof. reflexivity. Qed.

(** C1: [cross] on two 2-dimensional vectors never returns a vector.  The
    operands are embedded with the string ['0'] as third coordinate, not the
    number zero, so under Python 2 the nested call raises from the arithmetic
    ([cross((1,0), (0,1))] raises the [TypeError] of [str - str]); under
    Python 3 the text of the unpacking error matches no clause and the
    [ValueError] is raised again.  On 3-dimensional operands the method
    does return the cross product. *)
Theorem cross_2d_never_returns :
  (forall ver x_1 y_1 x_2 y_2 d1 d2,
      exists e,
        cross ver (mkVector [x_1; y_1] d1) (mkVector [x_2; y_2] d2) = Raise e)
  /\ cross Py2 (ints [1; 0]) (ints [0; 1])
     = Raise (mkExn TypeError
                "unsupported operand type(s) for -: 'str' and 'str'")
  /\ cross Py3 (ints [1; 0]) (ints [0; 1])
     = Raise (mkExn ValueError
                "not enough values to unpack (expected 3, got 2)")
  /\ (forall ver, cross ver (ints [1; 0; 0]) (ints [0; 1; 0])
                  = Return (ints [0; 0; 1])).
Proof.
  split; [|split; [|split]].
  - intros ver x_1 y_1 x_2 y_2 d1 d2. unfold cross.
    rewrite recursion_limit_eq. destruct ver.
    + destruct (cross_depth_2d_py2 (S 997) x_1 y_1 x_2 y_2 d1 d2) as [e [He _]].
      exists e. exact He.
    + rewrite cross_depth_2d_py3. eexists. reflexivity.
  - vm_compute. reflexivity.
  - vm_compute. reflexivity.
  - intros []; vm_compute; reflexivity.
Qed.

(** Under Python 2, three nested calls are enough for every pair of
    non-empty operands of which one has neither 2 nor 3 coordinates. *)
Lemma cross_depth_unsupported (d : nat) (a b : Vector) :
  coordinates a <> [] -> coordinates b <> [] ->
  (List.length (coordinates a) <> 2%nat /\ List.length (coordinates a) <> 3%nat)
  \/ (List.length (coordinates b) <> 2%nat
      /\ List.length (coordinates b) <> 3%nat) ->
  cross_depth (S (S (S d))) Py2 a b = Raise unsupported_dimension_error.
Proof.
  destruct a as [[|a1 [|a2 [|a3 [|a4 la]]]] da];
    destruct b as [[|b1 [|b2 [|b3 [|b4 lb]]]] db];
    simpl coordinates; intros Ha Hb H;
    try congruence;
    try reflexivity;
    simpl in H; exfalso; destruct H as [[H2 H3]|[H2 H3]]; congruence.
Qed.

(** Under Python 3 the interpreter words the unpacking errors differently,
    no comparison of [cross] succeeds, and the [ValueError] of the
    interpreter reaches the caller. *)
Lemma cross_py3_reraises (a b : Vector) :
  List.length (coordinates a) <> 3%nat
  \/ List.length (coordinates b) <> 3%nat ->
  exists n, cross Py3 a b = Raise (unpack3_error Py3 n) /\ n <> 3%nat.
Proof.
  unfold cross. rewrite recursion_limit_eq.
  destruct a as [[|a1 [|a2 [|a3 [|a4 la]]]] da];
    destruct b as [[|b1 [|b2 [|b3 [|b4 lb]]]] db];
    simpl coordinates; simpl List.length; intros H;
    try (exfalso; destruct H; congruence);
    try (exists 0%nat; split; [reflexivity|discriminate]);
    try (exists 1%nat; split; [reflexivity|discriminate]);
    try (exists 2%nat; split; [reflexivity|discriminate]);
    try (exists 4%nat; split; [reflexivity|discriminate]).
Qed.

(** C7, as the class has it: for non-empty operands of which one has
    neither 2 nor 3 coordinates, [cross] (run by the Python 2 interpreter,
    whose unpacking messages the method compares with) raises the plain
    [Exception] whose message is the constant
    [ONLY_DEFINED_IN_TWO_THREE_DIMS_MSG], spelt with a capital O; that
    exception is of kind [UnsupportedDimension]. *)
Theorem cross_unsupported_dimension (a b : Vector) :
  coordinates a <> [] -> coordinates b <> [] ->
  (List.length (coordinates a) <> 2%nat /\ List.length (coordinates a) <> 3%nat)
  \/ (List.length (coordinates b) <> 2%nat
      /\ List.length (coordinates b) <> 3%nat) ->
  cross Py2 a b
  = Raise (mkExn Exception
             "Only two or three dimensional vectors can be processed")
  /\ kind_of (mkExn Exception
                "Only two or three dimensional vectors can be processed")
     = Some UnsupportedDimension.
Proof.
  intros Ha Hb H. split; [|reflexivity].
  unfold cross. rewrite recursion_limit_eq.
  now apply cross_depth_unsupported.
Qed.

Lemma cross_unsupported_dimension_witness :
  cross Py2 (ints [1; 0; 0; 0]) (ints [0; 1; 0; 0])
  = Raise (mkExn Exception
             "Only two or three dimensional vectors can be processed")
  /\ cross Py2 (ints [1; 0]) (ints [7])
     = Raise (mkExn Exception
                "Only two or three dimensional vectors can be processed").
Proof.
  split.
  - apply (cross_unsupported_dimension (ints [1; 0; 0; 0]) (ints [0; 1; 0; 0]));
      simpl; [discriminate | discriminate | left; split; discriminate].
  - apply (cross_unsupported_dimension (ints [1; 0]) (ints [7]));
      simpl; [discriminate | discriminate | right; split; discriminate].
Defined.

(** C7 as stated fails on the message: the exception [cross] raises for two
    4-dimensional operands does not carry the text of the claim, which
    starts with a small o. *)
Lemma cross_message_is_capitalised :
  exists e,
    cross Py2 (ints [1; 0; 0; 0]) (ints [0; 1; 0; 0]) = Raise e
    /\ kind_of e = Some UnsupportedDimension
    /\ exn_str e <> "only two or three dimensional vectors can be processed".
Proof.
  eexists. split; [vm_compute; reflexivity|]. split; [reflexivity|].
  simpl. discriminate.
Qed.

(* ================================================================= *)
(** ** Which exceptions the runtime operations raise *)

Lemma raises_only_return {A : Type} (P : exn_class -> bool) (a : A) :
  raises_only P (Return a).
Proof. intros e H. discriminate. Qed.

Lemma raises_only_bind {A B : Type} (P : exn_class -> bool)
      (c : result A) (k : A -> result B) :
  raises_only P c -> (forall a, raises_only P (k a)) ->
  raises_only P (x <- c ;; k x).
Proof.
  intros Hc Hk e. destruct c as [a|e']; simpl.
  - apply Hk.
  - intros H. injection H as <-. apply Hc. reflexivity.
Qed.

Lemma raises_only_weaken {A : Type} (P Q : exn_class -> bool) (c : result A) :
  (forall k, P k = true -> Q k = true) -> raises_only P c -> raises_only Q c.
Proof. intros HPQ Hc e He. apply HPQ, Hc, He. Qed.

Lemma raises_only_mapM {A B : Type} (P : exn_class -> bool)
      (f : A -> result B) (l : list A) :
  (forall x, raises_only P (f x)) -> raises_only P (mapM f l).
Proof.
  intros Hf. induction l as [|x l IH]; simpl.
  - apply raises_only_return.
  - apply raises_only_bind; [apply Hf|]. intros y.
    apply raises_only_bind; [exact IH|]. intros ys. apply raises_only_return.
Qed.

Lemma float_of_int_raises (z : Z) : raises_only arith_class (float_of_int z).
Proof.
  intros e. unfold float_of_int.
  destruct (binary_normalize prec emax z 0 false); intros H;
    inversion H; reflexivity.
Qed.

Ltac raises_arith :=
  repeat first
    [ apply raises_only_return
    | apply raises_only_bind; [apply float_of_int_raises | intros ?]
    | (intros ? H; inversion H; reflexivity) ].

Lemma py_add_raises (a b : value) : raises_only arith_class (py_add a b).
Proof. destruct a, b; simpl; raises_arith. Qed.

Lemma py_sub_raises (a b : value) : raises_only arith_class (py_sub a b).
Proof. destruct a, b; simpl; raises_arith. Qed.

Lemma py_repeat_raises (s : string) (n : Z) :
  raises_only arith_class (py_repeat s n).
Proof.
  unfold py_repeat.
  destruct ((sys_maxsize <? n) || (n <? - sys_maxsize - 1)); raises_arith.
Qed.

Lemma py_mul_raises (a b : value) : raises_only arith_class (py_mul a b).
Proof.
  destruct a, b; simpl; try apply py_repeat_raises; raises_arith.
Qed.

Lemma py_pow2_raises (a : value) : raises_only arith_class (py_pow2 a).
Proof.
  destruct a as [z|f|s]; simpl; raises_arith.
  apply raises_only_bind; [|intros; apply raises_only_return].
  destruct f; simpl; raises_arith.
  destruct (is_infinite _); raises_arith.
Qed.

Lemma sum_from_raises (l : list value) (acc : value) :
  raises_only arith_class (sum_from acc l).
Proof.
  revert acc. induction l as [|x l IH]; intros acc; simpl.
  - apply raises_only_return.
  - apply raises_only_bind; [apply py_add_raises|]. intros acc'. apply IH.
Qed.

Lemma arith_is_runtime (k : exn_class) :
  arith_class k = true -> runtime_class k = true.
Proof. destruct k; simpl; congruence. Qed.

Lemma math_sqrt_raises (v : value) : raises_only runtime_class (math_sqrt v).
Proof.
  unfold math_sqrt. apply raises_only_bind.
  - destruct v; simpl.
    + eapply raises_only_weaken; [apply arith_is_runtime|].
      apply float_of_int_raises.
    + apply raises_only_return.
    + intros e H; inversion H; reflexivity.
  - intros x. destruct (is_nan (fsqrt x) && negb (is_nan x)).
    + intros e H; inversion H; reflexivity.
    + apply raises_only_return.
Qed.

Lemma magnitude_raises (v : Vector) : raises_only runtime_class (magnitude v).
Proof.
  unfold magnitude. apply raises_only_bind.
  - eapply raises_only_weaken; [apply arith_is_runtime|].
    apply raises_only_mapM, py_pow2_raises.
  - intros squares. apply raises_only_bind.
    + eapply raises_only_weaken; [apply arith_is_runtime|].
      apply sum_from_raises.
    + intros s. apply math_sqrt_raises.
Qed.

Lemma init_tuple_raises (t : list value) :
  raises_only runtime_class (__init__ (PTuple t)).
Proof.
  destruct t as [|x t]; intros e H; [inversion H; reflexivity|discriminate].
Qed.

Lemma mul_raises (v : Vector) (times : value) :
  raises_only runtime_class (__mul__ v times).
Proof.
  unfold __mul__. apply raises_only_bind.
  - eapply raises_only_weaken; [apply arith_is_runtime|].
    apply raises_only_mapM. intros x. apply py_mul_raises.
  - intros t. apply init_tuple_raises.
Qed.

(** A handler that re-labels one class leaves a body alone that never
    raises it. *)
Lemma runtime_not_zero_division (e : exn) :
  runtime_class (exn_cls e) = true -> isinstance e ZeroDivisionError = false.
Proof. destruct e as [[] msg]; simpl; congruence. Qed.

(* ================================================================= *)
(** ** Magnitude and normalization *)

Lemma normalized_of_magnitude (v : Vector) (m : spec_float) :
  magnitude v = Return m ->
  normalized v
  = if feq_zero m then Raise zero_vector_error
    else __mul__ v (VFloat (fdiv fone m)).
Proof.
  intros Hm. unfold normalized, float_truediv. rewrite Hm. cbn [bind].
  destruct (feq_zero m); cbn [bind]; [reflexivity|].
  destruct (__mul__ v (VFloat (fdiv fone m))) as [u|e] eqn:Hu;
    cbn [try_except]; [reflexivity|].
  rewrite runtime_not_zero_division; [reflexivity|].
  eapply mul_raises. exact Hu.
Qed.

Lemma normalized_magnitude_raises (v : Vector) (e : exn) :
  magnitude v = Raise e -> normalized v = Raise e.
Proof.
  intros Hm. unfold normalized. rewrite Hm. cbn [bind try_except].
  rewrite runtime_not_zero_division; [reflexivity|].
  eapply magnitude_raises. exact Hm.
Qed.

(** C4: [normalized] raises [Exception('Cannot normalize the zero
    vector')], the exception of kind [ZeroVectorError], exactly when
    [magnitude] returns a float that compares equal to zero (no tolerance is
    involved); when [magnitude] returns any other float [m], it is
    [self * (1. / m)]. *)
Theorem normalized_zero_iff (v : Vector) :
  (normalized v = Raise (mkExn Exception "Cannot normalize the zero vector")
   <-> exists m, magnitude v = Return m /\ feq_zero m = true)
  /\ (forall m, magnitude v = Return m -> feq_zero m = false ->
                normalized v = __mul__ v (VFloat (fdiv fone m)))
  /\ kind_of (mkExn Exception "Cannot normalize the zero vector")
     = Some ZeroVectorError.
Proof.
  split; [|split; [|reflexivity]].
  - split.
    + intros Hn. destruct (magnitude v) as [m|e] eqn:Hm.
      * exists m. split; [reflexivity|].
        rewrite (normalized_of_magnitude v m Hm) in Hn.
        destruct (feq_zero m); [reflexivity|].
        exfalso. apply mul_raises in Hn. discriminate.
      * exfalso. rewrite (normalized_magnitude_raises v e Hm) in Hn.
        injection Hn as ->. apply magnitude_raises in Hm. discriminate.
    + intros [m [Hm Hz]]. rewrite (normalized_of_magnitude v m Hm), Hz.
      reflexivity.
  - intros m Hm Hz. rewrite (normalized_of_magnitude v m Hm), Hz. reflexivity.
Qed.

Lemma normalized_zero_iff_witness :
  normalized (ints [0; 0])
  = Raise (mkExn Exception "Cannot normalize the zero vector")
  /\ normalized (ints [2; 0]) = Return (floats [fone; fzero]).
Proof.
  split.
  - apply (proj1 (normalized_zero_iff (ints [0; 0]))).
    exists fzero. split; reflexivity.
  - rewrite (proj1 (proj2 (normalized_zero_iff (ints [2; 0])))
               (S754_finite false 4503599627370496 (-51)));
      reflexivity.
Defined.

(** The test is on the magnitude itself: the vector (2^-48, 0.) is zero
    for [is_zero] with its default tolerance, and is normalized all the
    same. *)
Example normalized_below_tolerance :
  is_zero (floats [S754_finite false 4503599627370496 (-100); fzero])
          default_tolerance = Return true
  /\ normalized (floats [S754_finite false 4503599627370496 (-100); fzero])
     = Return (floats [fone; fzero]).
Proof. split; vm_compute; reflexivity. Qed.

(* ================================================================= *)
(** ** Projections onto a zero basis *)

(** What the square of a zero coordinate is: the int [0] or the float [0.0]. *)
Lemma pow2_zero_coordinate (c : value) :
  zero_coordinate c = true ->
  py_pow2 c = Return (VInt 0) \/ py_pow2 c = Return (VFloat fzero).
Proof.
  destruct c as [z|[s|s| |s m e]|s]; simpl; try discriminate.
  - intros Hz. apply Z.eqb_eq in Hz. subst. left. reflexivity.
  - intros _. right. reflexivity.
Qed.

Lemma sum_squares_zero (l : list value) (acc : value) :
  forallb zero_coordinate l = true ->
  acc = VInt 0 \/ acc = VFloat fzero ->
  exists squares s,
    mapM py_pow2 l = Return squares
    /\ sum_from acc squares = Return s
    /\ (s = VInt 0 \/ s = VFloat fzero).
Proof.
  revert acc. induction l as [|c l IH]; intros acc Hl Hacc; simpl in *.
  - exists [], acc. repeat split; assumption.
  - apply andb_true_iff in Hl. destruct Hl as [Hc Hl].
    destruct (pow2_zero_coordinate c Hc) as [Hp|Hp]; rewrite Hp; simpl.
    + destruct (IH acc Hl Hacc) as (sq & s & Hsq & Hs & Hz).
      rewrite Hsq. simpl. exists (VInt 0 :: sq), s. split; [reflexivity|].
      split; [|exact Hz]. simpl.
      destruct Hacc as [-> | ->]; simpl; exact Hs.
    + destruct (IH (VFloat fzero) Hl (or_intror eq_refl))
        as (sq & s & Hsq & Hs & Hz).
      rewrite Hsq. simpl. exists (VFloat fzero :: sq), s.
      split; [reflexivity|]. split; [|exact Hz]. simpl.
      destruct Hacc as [-> | ->]; simpl; exact Hs.
Qed.

Lemma magnitude_zero_vector (v : Vector) :
  zero_vector v = true -> magnitude v = Return fzero.
Proof.
  intros Hz. unfold magnitude, py_sum.
  destruct (sum_squares_zero (coordinates v) (VInt 0) Hz (or_introl eq_refl))
    as (sq & s & Hsq & Hs & [-> | ->]);
    rewrite Hsq; simpl; rewrite Hs; reflexivity.
Qed.

Lemma normalized_zero_vector (v : Vector) :
  zero_vector v = true -> normalized v = Raise zero_vector_error.
Proof.
  intros Hz.
  rewrite (normalized_of_magnitude v fzero (magnitude_zero_vector v Hz)).
  reflexivity.
Qed.

(** C5: for a basis whose coordinates are all zero, and any [v],
    [component_parallel_to] raises [Exception('No unique parallel
    component')] and [component_orthogonal_to] raises [Exception('No unique
    orthogonal component')], the exceptions of the kinds
    [NoUniqueParallelComponent] and [NoUniqueOrthogonalComponent]; neither
    is the exception of the failed normalization. *)
Theorem components_of_zero_basis (v basis : Vector) :
  zero_vector basis = true ->
  component_parallel_to v basis
  = Raise (mkExn Exception "No unique parallel component")
  /\ component_orthogonal_to v basis
     = Raise (mkExn Exception "No unique orthogonal component")
  /\ kind_of (mkExn Exception "No unique parallel component")
     = Some NoUniqueParallelComponent
  /\ kind_of (mkExn Exception "No unique orthogonal component")
     = Some NoUniqueOrthogonalComponent
  /\ component_parallel_to v basis <> Raise zero_vector_error
  /\ component_orthogonal_to v basis <> Raise zero_vector_error.
Proof.
  intros Hz.
  assert (Hp : component_parallel_to v basis
               = Raise (mkExn Exception "No unique parallel component")).
  { unfold component_parallel_to.
    rewrite (normalized_zero_vector basis Hz). reflexivity. }
  assert (Ho : component_orthogonal_to v basis
               = Raise (mkExn Exception "No unique orthogonal component")).
  { unfold component_orthogonal_to. rewrite Hp. reflexivity. }
  rewrite Hp, Ho. repeat split; discriminate.
Qed.

Lemma components_of_zero_basis_witness :
  component_parallel_to (ints [3; 4]) (floats [fzero; S754_zero true])
  = Raise (mkExn Exception "No unique parallel component")
  /\ component_orthogonal_to (ints [3; 4]) (ints [0; 0])
     = Raise (mkExn Exception "No unique orthogonal component").
Proof.
  split.
  - apply (components_of_zero_basis
             (ints [3; 4]) (floats [fzero; S754_zero true]) eq_refl).
  - apply (components_of_zero_basis (ints [3; 4]) (ints [0; 0]) eq_refl).
Defined.

(* ================================================================= *)
(** ** Operands of different dimensions *)

Lemma combine_common_prefix {A B : Type} (l1 : list A) (l2 : list B) :
  combine l1 l2
  = combine (firstn (Nat.min (List.length l1) (List.length l2)) l1)
            (firstn (Nat.min (List.length l1) (List.length l2)) l2).
Proof.
  revert l2. induction l1 as [|x l1 IH]; intros [|y l2]; simpl;
    try reflexivity.
  f_equal. apply IH.
Qed.

Lemma mapM_Forall2 {A B : Type} (f : A -> result B) (Q : B -> Prop)
      (l : list A) :
  Forall (fun x => exists y, f x = Return y /\ Q y) l ->
  exists l', mapM f l = Return l' /\ Forall Q l'
             /\ Forall2 (fun x y => f x = Return y) l l'.
Proof.
  induction 1 as [|x l [y [Hy HQ]] _ [l' (Hl' & HQ' & H2)]]; simpl.
  - exists []. repeat constructor.
  - rewrite Hy, Hl'. simpl. exists (y :: l'). repeat constructor; assumption.
Qed.

Lemma Forall_combine {A B : Type} (P : A -> Prop) (Q : B -> Prop)
      (R : A * B -> Prop) (l1 : list A) (l2 : list B) :
  (forall x y, P x -> Q y -> R (x, y)) ->
  Forall P l1 -> Forall Q l2 -> Forall R (combine l1 l2).
Proof.
  intros HR H1. revert l2. induction H1 as [|x l1 Hx _ IH]; intros l2 H2;
    simpl; [constructor|].
  destruct H2 as [|y l2 Hy H2]; constructor; auto.
Qed.

Lemma forallb_Forall_true {A : Type} (p : A -> bool) (l : list A) :
  forallb p l = true -> Forall (fun x => p x = true) l.
Proof. intros H. apply Forall_forall. apply forallb_forall. exact H. Qed.

(** A sum of ints is an int, and a sum of floats started from the int [0]
    or from a float is a float: neither raises. *)
Lemma sum_from_ints (l : list value) (z : Z) :
  Forall (fun v => is_int v = true) l ->
  exists s, sum_from (VInt z) l = Return (VInt s).
Proof.
  intros H. revert z. induction H as [|[x|f|t] l Hx _ IH]; intros z;
    simpl in *; try discriminate.
  - exists z. reflexivity.
  - apply IH.
Qed.

Lemma sum_from_floats (l : list value) (acc : value) :
  Forall (fun v => is_float v = true) l ->
  acc = VInt 0 \/ is_float acc = true ->
  exists s, sum_from acc l = Return s /\ (s = VInt 0 \/ is_float s = true).
Proof.
  intros H. revert acc. induction H as [|[x|f|t] l Hx _ IH]; intros acc Hacc;
    simpl in *; try discriminate.
  - exists acc. split; [reflexivity|exact Hacc].
  - destruct Hacc as [-> | Hacc].
    + simpl. apply IH. right. reflexivity.
    + destruct acc as [z|g|t]; try discriminate. simpl. apply IH.
      right. reflexivity.
Qed.

Lemma Forall2_length_eq {A B : Type} (R : A -> B -> Prop) l1 l2 :
  Forall2 R l1 l2 -> List.length l2 = List.length l1.
Proof. induction 1; simpl; congruence. Qed.

Section Truncation.

Variables a b : Vector.
Hypothesis a_nonempty : coordinates a <> [].
Hypothesis b_nonempty : coordinates b <> [].
Hypothesis numbers : same_number_type a b = true.

Let n : nat :=
  Nat.min (List.length (coordinates a)) (List.length (coordinates b)).

Let pairs : list (value * value) := combine (coordinates a) (coordinates b).

Lemma pairs_length : List.length pairs = n.
Proof. apply length_combine. Qed.

Lemma pairs_nonempty : pairs <> [].
Proof.
  unfold pairs. destruct (coordinates a); [congruence|].
  destruct (coordinates b); [congruence|]. discriminate.
Qed.

Lemma pairs_same_type :
  Forall (fun p => is_int (fst p) = true /\ is_int (snd p) = true) pairs
  \/ Forall (fun p => is_float (fst p) = true /\ is_float (snd p) = true) pairs.
Proof.
  unfold same_number_type in numbers.
  apply orb_true_iff in numbers.
  destruct numbers as [H|H]; apply andb_true_iff in H; destruct H as [Ha Hb];
    [left|right];
    (eapply Forall_combine;
     [|apply forallb_Forall_true; exact Ha|apply forallb_Forall_true; exact Hb]);
    intros x y Hx Hy; split; assumption.
Qed.

(** An operator that is total on two ints and on two floats, and keeps the
    type, maps over the zipped coordinates without raising. *)
Lemma zip_with_total (op : value -> value -> result value) :
  (forall x y, exists z, op (VInt x) (VInt y) = Return (VInt z)) ->
  (forall x y, exists z, op (VFloat x) (VFloat y) = Return (VFloat z)) ->
  exists t,
    mapM (fun '(x, y) => op x y) pairs = Return t
    /\ List.length t = n
    /\ t <> []
    /\ Forall2 (fun '(x, y) c => op x y = Return c) pairs t
    /\ (Forall (fun v => is_int v = true) t
        \/ Forall (fun v => is_float v = true) t).
Proof.
  intros Hint Hfloat.
  assert (Hlen : forall t,
             Forall2 (fun '(x, y) c => op x y = Return c) pairs t ->
             List.length t = n /\ t <> []).
  { intros t H2. pose proof (Forall2_length_eq _ _ _ H2) as Hl.
    rewrite pairs_length in Hl. split; [exact Hl|].
    intros ->. apply pairs_nonempty. inversion H2. reflexivity. }
  destruct pairs_same_type as [H|H].
  - destruct (mapM_Forall2 (fun '(x, y) => op x y)
                (fun v => is_int v = true) pairs) as (t & Ht & HQ & H2).
    { eapply Forall_impl; [|exact H].
      intros [[x|x|x] [y|y|y]] [Hx Hy]; simpl in *; try discriminate.
      destruct (Hint x y) as [z Hz]. exists (VInt z). split; [exact Hz|].
      reflexivity. }
    assert (H2' : Forall2 (fun '(x, y) c => op x y = Return c) pairs t).
    { eapply Forall2_impl; [|exact H2]. intros [x y] c Hc. exact Hc. }
    exists t. destruct (Hlen t H2'). repeat split; auto.
  - destruct (mapM_Forall2 (fun '(x, y) => op x y)
                (fun v => is_float v = true) pairs) as (t & Ht & HQ & H2).
    { eapply Forall_impl; [|exact H].
      intros [[x|x|x] [y|y|y]] [Hx Hy]; simpl in *; try discriminate.
      destruct (Hfloat x y) as [z Hz]. exists (VFloat z). split; [exact Hz|].
      reflexivity. }
    assert (H2' : Forall2 (fun '(x, y) c => op x y = Return c) pairs t).
    { eapply Forall2_impl; [|exact H2]. intros [x y] c Hc. exact Hc. }
    exists t. destruct (Hlen t H2'). repeat split; auto.
Qed.

End Truncation.

Lemma add_total_on_numbers :
  (forall x y, exists z, py_add (VInt x) (VInt y) = Return (VInt z))
  /\ (forall x y, exists z, py_add (VFloat x) (VFloat y) = Return (VFloat z)).
Proof. split; intros x y; eexists; reflexivity. Qed.

Lemma sub_total_on_numbers :
  (forall x y, exists z, py_sub (VInt x) (VInt y) = Return (VInt z))
  /\ (forall x y, exists z, py_sub (VFloat x) (VFloat y) = Return (VFloat z)).
Proof. split; intros x y; eexists; reflexivity. Qed.

Lemma mul_total_on_numbers :
  (forall x y, exists z, py_mul (VInt x) (VInt y) = Return (VInt z))
  /\ (forall x y, exists z, py_mul (VFloat x) (VFloat y) = Return (VFloat z)).
Proof. split; intros x y; eexists; reflexivity. Qed.

Lemma add_prefix (n : nat) (a b : Vector) :
  n = Nat.min (List.length (coordinates a)) (List.length (coordinates b)) ->
  __add__ (prefix n a) (prefix n b) = __add__ a b
  /\ __sub__ (prefix n a) (prefix n b) = __sub__ a b
  /\ dot (prefix n a) (prefix n b) = dot a b.
Proof.
  intros ->. unfold __add__, __sub__, dot, prefix. simpl coordinates.
  rewrite <- combine_common_prefix. repeat split.
Qed.

Example truncated_sum :
  __add__ (ints [1; 2; 3]) (ints [10; 20]) = Return (ints [11; 22])
  /\ __sub__ (ints [1; 2; 3]) (ints [10; 20]) = Return (ints [-9; -18])
  /\ dot (ints [1; 2; 3]) (ints [10; 20]) = Return (VInt 50).
Proof. repeat split. Qed.

(* ================================================================= *)
(** ** Angles *)

Section Angles.

Variable libm_acos : spec_float -> spec_float.

(** No exception of [math.acos] carries the message [angle_with] looks
    for, so its handler raises it again unchanged. *)
Lemma math_acos_raises (d : value) (e : exn) :
  math_acos libm_acos d = Raise e ->
  String.eqb (exn_str e) CANNOT_NORMALIZE_ZERO_VECTOR_MSG = false.
Proof.
  unfold math_acos. destruct d as [z|f|s]; simpl.
  - unfold float_of_int.
    destruct (binary_normalize prec emax z 0 false) as [s|s| |s m x];
      cbn [bind];
      try (intros H; inversion H; reflexivity);
      match goal with
      | |- context [is_nan ?x] => destruct (is_nan x)
      end;
      try (intros H; inversion H; reflexivity);
      match goal with
      | |- context [in_acos_domain ?x] => destruct (in_acos_domain x)
      end;
      intros H; inversion H; reflexivity.
  - destruct (is_nan f); [discriminate|].
    destruct (in_acos_domain f); intros H; inversion H; reflexivity.
  - intros H; inversion H; reflexivity.
Qed.

(** Once both operands are normalized, the angle in radians is [math.acos]
    of the dot product of the two unit vectors as it comes out of [dot]:
    nothing brings it back into [-1, 1], and a domain error of [math.acos]
    is the outcome of [angle_with]. *)
Lemma angle_with_is_acos (a b u1 u2 : Vector) (d : value) :
  normalized a = Return u1 -> normalized b = Return u2 ->
  dot u1 u2 = Return d ->
  angle_with libm_acos a b false = math_acos libm_acos d.
Proof.
  intros H1 H2 Hd. unfold angle_with. rewrite H1, H2. cbn [bind].
  rewrite Hd. cbn [bind].
  destruct (math_acos libm_acos d) as [t|e] eqn:Hacos; cbn [bind try_except].
  - reflexivity.
  - rewrite (math_acos_raises d e Hacos). reflexivity.
Qed.

Lemma math_acos_outside_domain (x : spec_float) :
  is_nan x = false -> in_acos_domain x = false ->
  math_acos libm_acos (VFloat x) = Raise math_domain_error.
Proof.
  intros Hn Hd. unfold math_acos. simpl. rewrite Hn, Hd. reflexivity.
Qed.

(** The unit vector along (1, 1, 1): each coordinate is the float
    [inv_sqrt3], and the three squares add up to the float after [1.]. *)
Lemma unit_diagonal :
  normalized (ints [1; 1; 1]) = Return (floats [inv_sqrt3; inv_sqrt3; inv_sqrt3])
  /\ dot (floats [inv_sqrt3; inv_sqrt3; inv_sqrt3])
         (floats [inv_sqrt3; inv_sqrt3; inv_sqrt3])
     = Return (VFloat one_plus_ulp).
Proof. split; vm_compute; reflexivity. Qed.

Lemma diagonal_not_zero :
  zero_vector (ints [1; 1; 1]) = false
  /\ is_zero (ints [1; 1; 1]) default_tolerance = Return false.
Proof. split; vm_compute; reflexivity. Qed.

End Angles.

(** C3: [angle_with] hands the dot product of the normalized operands to
    [math.acos] as it is; [math.acos] raises [ValueError('math domain
    error')] for an argument outside [-1, 1]; and there are non-zero vectors
    (the diagonal (1, 1, 1), taken twice) whose unit dot product is the
    float just above 1, for which [angle_with] raises that error instead of
    returning an angle. *)
Theorem angle_with_unguarded (libm_acos : spec_float -> spec_float) :
  (forall a b u1 u2 d,
      normalized a = Return u1 -> normalized b = Return u2 ->
      dot u1 u2 = Return d ->
      angle_with libm_acos a b false = math_acos libm_acos d)
  /\ (forall x, is_nan x = false -> in_acos_domain x = false ->
                math_acos libm_acos (VFloat x)
                = Raise (mkExn ValueError "math domain error"))
  /\ (exists a b u1 u2 d,
         zero_vector a = false /\ zero_vector b = false
         /\ is_zero a default_tolerance = Return false
         /\ is_zero b default_tolerance = Return false
         /\ normalized a = Return u1 /\ normalized b = Return u2
         /\ dot u1 u2 = Return (VFloat d)
         /\ SFltb fone d = true /\ d = one_plus_ulp
         /\ angle_with libm_acos a b false
            = Raise (mkExn ValueError "math domain error")).
Proof.
  split; [|split].
  - intros a b u1 u2 d. apply angle_with_is_acos.
  - apply math_acos_outside_domain.
  - destruct unit_diagonal as [Hn Hd]. destruct diagonal_not_zero as [Hz Hi].
    exists (ints [1; 1; 1]), (ints [1; 1; 1]),
      (floats [inv_sqrt3; inv_sqrt3; inv_sqrt3]),
      (floats [inv_sqrt3; inv_sqrt3; inv_sqrt3]), one_plus_ulp.
    split; [exact Hz|]. split; [exact Hz|].
    split; [exact Hi|]. split; [exact Hi|].
    split; [exact Hn|]. split; [exact Hn|].
    split; [exact Hd|].
    split; [vm_compute; reflexivity|]. split; [reflexivity|].
    rewrite (angle_with_is_acos libm_acos _ _ _ _ _ Hn Hn Hd).
    apply math_acos_outside_domain; vm_compute; reflexivity.
Qed.

Lemma angle_with_unguarded_witness :
  angle_with acos_sample (ints [1; 1; 1]) (ints [1; 1; 1]) false
  = math_acos acos_sample (VFloat one_plus_ulp)
  /\ math_acos acos_sample (VFloat one_plus_ulp)
     = Raise (mkExn ValueError "math domain error").
Proof.
  destruct unit_diagonal as [Hn Hd].
  split.
  - exact (proj1 (angle_with_unguarded acos_sample) _ _ _ _ _ Hn Hn Hd).
  - exact (proj1 (proj2 (angle_with_unguarded acos_sample))
             one_plus_ulp eq_refl eq_refl).
Defined.

(* ================================================================= *)
(** ** Parallelism *)

Section Parallel.

Variable libm_acos : spec_float -> spec_float.

(** [is_parallel_to] in terms of the outcomes of its operands, when both
    [is_zero] calls return. *)
Lemma is_parallel_to_cases (a b : Vector) (za zb : bool) :
  is_zero a default_tolerance = Return za ->
  is_zero b default_tolerance = Return zb ->
  is_parallel_to libm_acos a b
  = if za then Return true
    else if zb then Return true
    else t <- angle_with libm_acos a b false ;;
         Return (feq_zero t || SFeqb t pi).
Proof.
  intros Ha Hb. unfold is_parallel_to. rewrite Ha. cbn [bind].
  destruct za; [reflexivity|]. rewrite Hb. cbn [bind].
  destruct zb; [reflexivity|].
  destruct (angle_with libm_acos a b false) as [t|e]; cbn [bind];
    [|reflexivity].
  destruct (feq_zero t); reflexivity.
Qed.

Lemma units_of_2_0_and_5_0 :
  normalized (ints [2; 0]) = Return (floats [fone; fzero])
  /\ normalized (ints [5; 0]) = Return (floats [fone; fzero])
  /\ dot (floats [fone; fzero]) (floats [fone; fzero]) = Return (VFloat fone)
  /\ is_zero (ints [2; 0]) default_tolerance = Return false
  /\ is_zero (ints [5; 0]) default_tolerance = Return false.
Proof. repeat split; vm_compute; reflexivity. Qed.

Lemma units_of_1_0_and_0_1 :
  normalized (ints [1; 0]) = Return (floats [fone; fzero])
  /\ normalized (ints [0; 1]) = Return (floats [fzero; fone])
  /\ dot (floats [fone; fzero]) (floats [fzero; fone]) = Return (VFloat fzero)
  /\ is_zero (ints [1; 0]) default_tolerance = Return false
  /\ is_zero (ints [0; 1]) default_tolerance = Return false.
Proof. repeat split; vm_compute; reflexivity. Qed.

Lemma math_acos_in_domain (x : spec_float) :
  is_nan x = false -> in_acos_domain x = true ->
  math_acos libm_acos (VFloat x) = Return (libm_acos x).
Proof.
  intros Hn Hd. unfold math_acos. simpl. rewrite Hn, Hd. reflexivity.
Qed.

End Parallel.

(** C8: [is_parallel_to] returns [True] exactly when [is_zero] (default
    tolerance 1e-10) returns [True] for the first operand, or [False] for it
    and [True] for the second, or [False] for both and [angle_with] returns
    a float that compares equal to [0] or equal to [math.pi]; no tolerance
    enters the comparison of the angle.  When [is_zero] returns for both
    operands this is: one of them is zero by that test, or the angle is
    exactly [0] or exactly [math.pi].  With an arccosine that is exact at 1
    and gives the float [pi / 2] at 0, (2, 0) is parallel to (5, 0), and
    (1, 0) is not parallel to (0, 1). *)
Theorem is_parallel_to_iff (libm_acos : spec_float -> spec_float) :
  libm_acos fone = fzero -> libm_acos fzero = half_pi ->
  (forall a b,
      is_parallel_to libm_acos a b = Return true
      <-> is_zero a default_tolerance = Return true
          \/ (is_zero a default_tolerance = Return false
              /\ is_zero b default_tolerance = Return true)
          \/ (is_zero a default_tolerance = Return false
              /\ is_zero b default_tolerance = Return false
              /\ exists t, angle_with libm_acos a b false = Return t
                           /\ (SFeqb t fzero = true \/ SFeqb t pi = true)))
  /\ (forall a b za zb,
         is_zero a default_tolerance = Return za ->
         is_zero b default_tolerance = Return zb ->
         (is_parallel_to libm_acos a b = Return true
          <-> za = true \/ zb = true
              \/ exists t, angle_with libm_acos a b false = Return t
                           /\ (SFeqb t fzero = true \/ SFeqb t pi = true)))
  /\ is_parallel_to libm_acos (ints [2; 0]) (ints [5; 0]) = Return true
  /\ is_parallel_to libm_acos (ints [1; 0]) (ints [0; 1]) = Return false.
Proof.
  intros Hone Hzero.
  assert (Hiff : forall a b za zb,
             is_zero a default_tolerance = Return za ->
             is_zero b default_tolerance = Return zb ->
             (is_parallel_to libm_acos a b = Return true
              <-> za = true \/ zb = true
                  \/ exists t, angle_with libm_acos a b false = Return t
                               /\ (SFeqb t fzero = true
                                   \/ SFeqb t pi = true))).
  { intros a b za zb Ha Hb.
    rewrite (is_parallel_to_cases libm_acos a b za zb Ha Hb).
    destruct za; [split; auto|]. destruct zb; [split; auto|].
    destruct (angle_with libm_acos a b false) as [t|e]; cbn [bind].
    - unfold feq_zero. split.
      + intros H. injection H as H. apply orb_true_iff in H.
        right. right. exists t. split; [reflexivity|exact H].
      + intros [H|[H|[t' [Ht H]]]]; try discriminate.
        injection Ht as <-. f_equal. apply orb_true_iff. exact H.
    - split; [discriminate|].
      intros [H|[H|[t' [Ht H]]]]; discriminate. }
  split; [|split; [exact Hiff|split]].
  - intros a b.
    destruct (is_zero a default_tolerance) as [za|ea] eqn:Ha.
    + destruct (is_zero b default_tolerance) as [zb|eb] eqn:Hb.
      * rewrite (Hiff a b za zb Ha Hb). split.
        -- intros [->|[->|H]].
           ++ left. reflexivity.
           ++ destruct za; [left; reflexivity|right; left; split; reflexivity].
           ++ destruct za; [left; reflexivity|].
              destruct zb; [right; left; split; reflexivity|].
              right. right. split; [reflexivity|]. split; [reflexivity|exact H].
        -- intros [H|[[H1 H2]|[H1 [H2 H]]]].
           ++ injection H as ->. left. reflexivity.
           ++ injection H2 as ->. right. left. reflexivity.
           ++ right. right. exact H.
      * unfold is_parallel_to. rewrite Ha, Hb. cbn [bind].
        destruct za; split.
        -- intros _. left. reflexivity.
        -- intros _. reflexivity.
        -- discriminate.
        -- intros [H|[[_ H]|[_ [H _]]]]; discriminate.
    + unfold is_parallel_to. rewrite Ha. cbn [bind]. split; [discriminate|].
      intros [H|[[H _]|[H _]]]; discriminate.
  - destruct units_of_2_0_and_5_0 as (H2 & H5 & Hd & Z2 & Z5).
    rewrite (is_parallel_to_cases libm_acos _ _ _ _ Z2 Z5).
    rewrite (angle_with_is_acos libm_acos _ _ _ _ _ H2 H5 Hd).
    rewrite math_acos_in_domain by reflexivity.
    rewrite Hone. reflexivity.
  - destruct units_of_1_0_and_0_1 as (H1 & H0 & Hd & Z1 & Z0).
    rewrite (is_parallel_to_cases libm_acos _ _ _ _ Z1 Z0).
    rewrite (angle_with_is_acos libm_acos _ _ _ _ _ H1 H0 Hd).
    rewrite math_acos_in_domain by reflexivity.
    rewrite Hzero. reflexivity.
Qed.

Lemma is_parallel_to_iff_witness :
  acos_sample fone = fzero /\ acos_sample fzero = half_pi
  /\ is_parallel_to acos_sample (ints [2; 0]) (ints [5; 0]) = Return true
  /\ is_parallel_to acos_sample (ints [1; 0]) (ints [0; 1]) = Return false
  /\ (is_parallel_to acos_sample (ints [0; 0]) (ints [0; 1]) = Return true
      <-> true = true \/ false = true
          \/ exists t,
               angle_with acos_sample (ints [0; 0]) (ints [0; 1]) false
               = Return t
               /\ (SFeqb t fzero = true \/ SFeqb t pi = true)).
Proof.
  assert (H1 : acos_sample fone = fzero) by reflexivity.
  assert (H0 : acos_sample fzero = half_pi) by reflexivity.
  destruct (is_parallel_to_iff acos_sample H1 H0) as (_ & Hiff & Hp & Hn).
  split; [exact H1|]. split; [exact H0|].
  split; [exact Hp|]. split; [exact Hn|].
  apply Hiff; vm_compute; reflexivity.
Defined.

(* ================================================================= *)
(** ** Parallel and orthogonal components *)

Lemma mapM_inv {A B : Type} (f : A -> result B) (l : list A) (t : list B) :
  mapM f l = Return t -> Forall2 (fun x y => f x = Return y) l t.
Proof.
  revert t. induction l as [|x l IH]; intros t; simpl.
  - intros H. injection H as <-. constructor.
  - destruct (f x) as [y|e] eqn:Hy; simpl; [|discriminate].
    destruct (mapM f l) as [ys|e]; simpl; [|discriminate].
    intros H. injection H as <-. constructor; [exact Hy|]. apply IH.
    reflexivity.
Qed.

Lemma init_tuple_inv (t : list value) (u : Vector) :
  __init__ (PTuple t) = Return u -> u = vec t /\ t <> [].
Proof.
  destruct t as [|x t]; [discriminate|]. intros H. injection H as <-.
  split; [reflexivity|discriminate].
Qed.

Lemma mul_by_float_inv (c y : value) (q : spec_float) :
  py_mul c (VFloat q) = Return y -> is_float y = true.
Proof.
  destruct c as [z|f|s]; simpl; try discriminate.
  - destruct (float_of_int z); simpl; [|discriminate].
    intros H. injection H as <-. reflexivity.
  - intros H. injection H as <-. reflexivity.
Qed.

(** A normalized vector holds floats, as many as the vector it comes from. *)
Lemma normalized_floats (basis u : Vector) :
  normalized basis = Return u ->
  Forall (fun c => is_float c = true) (coordinates u)
  /\ List.length (coordinates u) = List.length (coordinates basis).
Proof.
  intros Hn. destruct (magnitude basis) as [m|e] eqn:Hm.
  - rewrite (normalized_of_magnitude basis m Hm) in Hn.
    destruct (feq_zero m); [discriminate|].
    unfold __mul__ in Hn.
    destruct (mapM _ (coordinates basis)) as [t|e] eqn:Ht; [|discriminate].
    cbn [bind] in Hn. apply init_tuple_inv in Hn. destruct Hn as [-> _].
    apply mapM_inv in Ht. simpl. split.
    + clear Hm. induction Ht as [|c y l t Hy _ IH]; constructor.
      * eapply mul_by_float_inv. exact Hy.
      * exact IH.
    + eapply Forall2_length_eq. exact Ht.
  - rewrite (normalized_magnitude_raises basis e Hm) in Hn. discriminate.
Qed.

(** Element-wise operations on lists of floats. *)
Lemma zip_floats (op : value -> value -> result value)
      (l1 l2 : list value) :
  (forall x y, exists z, op (VFloat x) (VFloat y) = Return (VFloat z)) ->
  Forall (fun c => is_float c = true) l1 ->
  Forall (fun c => is_float c = true) l2 ->
  exists t,
    mapM (fun '(x, y) => op x y) (combine l1 l2) = Return t
    /\ Forall (fun c => is_float c = true) t
    /\ Forall2 (fun '(x, y) c => op x y = Return c) (combine l1 l2) t
    /\ List.length t = Nat.min (List.length l1) (List.length l2).
Proof.
  intros Hop H1 H2.
  destruct (mapM_Forall2 (fun '(x, y) => op x y)
              (fun c => is_float c = true) (combine l1 l2))
    as (t & Ht & HQ & HF).
  { eapply (Forall_combine _ _ _ l1 l2); [|exact H1|exact H2].
    intros [x|x|x] [y|y|y] Hx Hy; simpl in *; try discriminate.
    destruct (Hop x y) as [z Hz]. exists (VFloat z). split; [exact Hz|].
    reflexivity. }
  exists t. split; [exact Ht|]. split; [exact HQ|].
  assert (HF' : Forall2 (fun '(x, y) c => op x y = Return c) (combine l1 l2) t).
  { eapply Forall2_impl; [|exact HF]. intros [x y] c Hc. exact Hc. }
  split; [exact HF'|].
  rewrite (Forall2_length_eq _ _ _ HF'). apply length_combine.
Qed.

Lemma scale_floats (w : value) (l : list value) :
  w = VInt 0 \/ is_float w = true ->
  Forall (fun c => is_float c = true) l ->
  exists t,
    mapM (fun c => py_mul c w) l = Return t
    /\ Forall (fun c => is_float c = true) t
    /\ List.length t = List.length l.
Proof.
  intros Hw Hl.
  destruct (mapM_Forall2 (fun c => py_mul c w)
              (fun c => is_float c = true) l) as (t & Ht & HQ & HF).
  { eapply Forall_impl; [|exact Hl].
    intros [x|x|x] Hx; simpl in Hx; try discriminate.
    destruct Hw as [-> | Hw].
    - eexists. split; reflexivity.
    - destruct w as [z|g|s]; try discriminate. eexists. split; reflexivity. }
  exists t. split; [exact Ht|]. split; [exact HQ|].
  eapply Forall2_length_eq. exact HF.
Qed.

(** [p + (v - p)], coordinate by coordinate. *)
Lemma recombine_zip (v p d s : list value) :
  Forall2 (fun '(x, y) c => py_sub x y = Return c) (combine v p) d ->
  Forall2 (fun '(x, y) c => py_add x y = Return c) (combine p d) s ->
  Forall2 (fun pv c => recombine pv = Return c) (combine p v) s.
Proof.
  revert p d s. induction v as [|x v IH]; intros p d s Hd Hs.
  - simpl in Hd. inversion Hd; subst.
    destruct p; simpl in *; inversion Hs; constructor.
  - destruct p as [|y p]; simpl in *.
    + inversion Hs; subst. constructor.
    + inversion Hd as [|? c ? d' Hc Hd']; subst.
      simpl in Hs. inversion Hs as [|? e ? s' He Hs']; subst.
      constructor.
      * simpl. rewrite Hc. simpl. exact He.
      * eapply IH; eassumption.
Qed.

(** *** The rounding error of one float addition or subtraction

    Floats are counted in units of 2^-1074, the smallest positive float, so
    that every finite float is an integer and the error of an operation is
    a statement about integers. *)

(** The exponent of the format for a number of [x] binary digits in all:
    53 bits of mantissa, and no exponent below that of the subnormals. *)
Lemma fexp_unfold (x : Z) : fexp prec emax x = Z.max (x - 53) emin64.
Proof. reflexivity. Qed.

(** [digits2_pos p] is the number of bits of [p]. *)
Lemma digits2_pos_bounds (p : positive) :
  2 ^ (Z.pos (digits2_pos p) - 1) <= Z.pos p < 2 ^ Z.pos (digits2_pos p).
Proof.
  induction p as [p IH|p IH|]; cbn [digits2_pos].
  - rewrite Pos2Z.inj_succ, (Pos2Z.inj_xI p).
    replace (Z.succ (Z.pos (digits2_pos p)) - 1)
      with (Z.succ (Z.pos (digits2_pos p) - 1)) by lia.
    rewrite !Z.pow_succ_r by lia. lia.
  - rewrite Pos2Z.inj_succ, (Pos2Z.inj_xO p).
    replace (Z.succ (Z.pos (digits2_pos p)) - 1)
      with (Z.succ (Z.pos (digits2_pos p) - 1)) by lia.
    rewrite !Z.pow_succ_r by lia. lia.
  - simpl. lia.
Qed.

Lemma digits2_pos_unique (p : positive) (k : Z) :
  2 ^ (k - 1) <= Z.pos p < 2 ^ k -> Z.pos (digits2_pos p) = k.
Proof.
  intros [Hlo Hhi]. pose proof (digits2_pos_bounds p) as [Dlo Dhi].
  set (d := Z.pos (digits2_pos p)) in *.
  assert (Hd : 0 < d) by (unfold d; lia).
  assert (Hk : 0 < k).
  { destruct (Z_lt_le_dec 0 k) as [H|H]; [exact H|].
    destruct (Z.eq_dec k 0) as [->|Hk0].
    - simpl in Hhi. lia.
    - rewrite (Z.pow_neg_r 2 k) in Hhi by lia. lia. }
  destruct (Z.lt_trichotomy d k) as [H|[H|H]]; [|exact H|].
  - pose proof (Z.pow_le_mono_r 2 d (k - 1)). lia.
  - pose proof (Z.pow_le_mono_r 2 k (d - 1)). lia.
Qed.

(** One more shift keeps the state of the shifter in step with the
    mantissa it started from. *)
Lemma shr_1_inv (m : Z) (j : nat) (mrs : shr_record) :
  0 <= m -> shr_inv m j mrs -> shr_inv m (S j) (shr_1 mrs).
Proof.
  intros Hm H. destruct j as [|j0].
  - simpl in H. subst mrs. exists 0. change (Z.of_nat 0) with 0.
    change (Z.of_nat 1) with 1. rewrite Z.pow_0_r, Z.pow_1_r.
    destruct m as [|[q|q|]|q]; cbn [shr_1 shr_m shr_r shr_s orb];
      try rewrite (Pos2Z.inj_xI q); try rewrite (Pos2Z.inj_xO q); lia.
  - destruct mrs as [mm r s].
    destruct H as (low & Hlow & Hs & Hmm & Hmeq).
    cbn [shr_m shr_r shr_s] in *.
    unfold shr_inv. rewrite (Nat2Z.inj_succ (S j0)).
    rewrite Z.pow_succ_r by lia.
    rewrite (Nat2Z.inj_succ j0) in *. rewrite Z.pow_succ_r in * by lia.
    assert (HP : 0 < 2 ^ Z.of_nat j0) by (apply Z.pow_pos_nonneg; lia).
    set (P := 2 ^ Z.of_nat j0) in *.
    exists ((if r then P else 0) + low).
    destruct mm as [|[q|q|]|q]; cbn [shr_1 shr_m shr_r shr_s];
      try rewrite (Pos2Z.inj_xI q) in Hmeq; try rewrite (Pos2Z.inj_xO q) in Hmeq;
      destruct r, s; cbn [orb];
      (split; [lia|]); (split; [try (intros _; lia); try discriminate; try (intros; lia)|]);
      (split; [lia|]); lia.
Qed.

(** And so do [p] shifts. *)
Lemma iter_shr_1_inv (p : positive) :
  forall (m : Z) (j : nat) (mrs : shr_record),
    0 <= m -> shr_inv m j mrs ->
    shr_inv m (Pos.to_nat p + j) (iter_pos shr_1 p mrs).
Proof.
  induction p as [p IH|p IH|]; intros m j mrs Hm H; cbn [iter_pos].
  - replace (Pos.to_nat p~1 + j)%nat
      with (Pos.to_nat p + (Pos.to_nat p + S j))%nat by lia.
    apply IH; [exact Hm|]. apply IH; [exact Hm|].
    apply shr_1_inv; assumption.
  - replace (Pos.to_nat p~0 + j)%nat
      with (Pos.to_nat p + (Pos.to_nat p + j))%nat by lia.
    apply IH; [exact Hm|]. apply IH; assumption.
  - apply shr_1_inv; assumption.
Qed.

(** Rounding to nearest even after [S j0] shifts: the rounded mantissa is
    within half a unit of the last place that is kept. *)
Lemma round_nearest_even_error (m : Z) (j0 : nat) (mrs : shr_record) :
  shr_inv m (S j0) mrs ->
  let m' := round_nearest_even (shr_m mrs) (loc_of_shr_record mrs) in
  2 ^ Z.of_nat (S j0) * (m' - 1) <= m < 2 ^ Z.of_nat (S j0) * (m' + 1)
  /\ 0 <= m'
  /\ 2 * Z.abs (2 ^ Z.of_nat (S j0) * m' - m) <= 2 ^ Z.of_nat (S j0).
Proof.
  intros H. destruct mrs as [mm r s].
  destruct H as (low & Hlow & Hs & Hmm & Hmeq).
  cbn [shr_m shr_r shr_s] in *.
  rewrite (Nat2Z.inj_succ j0) in *. rewrite Z.pow_succ_r in * by lia.
  assert (HP : 0 < 2 ^ Z.of_nat j0) by (apply Z.pow_pos_nonneg; lia).
  set (P := 2 ^ Z.of_nat j0) in *.
  destruct r, s; cbn [loc_of_shr_record round_nearest_even].
  - nia.
  - rewrite (Hs eq_refl) in *. destruct (Z.even mm); nia.
  - nia.
  - rewrite (Hs eq_refl) in *. nia.
Qed.

(** [shr] on an exact mantissa: nothing happens for a shift count that is
    not positive, and [n] shifts otherwise. *)
Lemma shr_exact_cases (m e n : Z) :
  0 <= m ->
  (n <= 0
   /\ shr (Build_shr_record m false false) e n
      = (Build_shr_record m false false, e))
  \/ (0 < n
      /\ exists mrs j0,
           Z.of_nat (S j0) = n
           /\ shr (Build_shr_record m false false) e n = (mrs, e + n)
           /\ shr_inv m (S j0) mrs).
Proof.
  intros Hm. destruct n as [|p|p].
  - left. split; [lia|reflexivity].
  - right. split; [lia|].
    exists (iter_pos shr_1 p (Build_shr_record m false false)),
      (Nat.pred (Pos.to_nat p)).
    split; [lia|]. split; [reflexivity|].
    replace (S (Nat.pred (Pos.to_nat p))) with (Pos.to_nat p + 0)%nat by lia.
    apply iter_shr_1_inv; [exact Hm|reflexivity].
  - left. split; [lia|reflexivity].
Qed.

(** The exponent after [shr]. *)
Lemma shr_exponent (mrs mrs' : shr_record) (e n e' : Z) :
  shr mrs e n = (mrs', e') -> e' = Z.max e (e + n).
Proof.
  destruct n as [|p|p]; simpl; intros H; injection H as _ <-; lia.
Qed.

(** No finite result of the rounding has an exponent below that of the
    subnormals. *)
Lemma binary_round_aux_exponent (sx s : bool) (mx ex : Z) (lx : location)
      (m : positive) (e : Z) :
  binary_round_aux prec emax sx mx ex lx = S754_finite s m e -> emin64 <= e.
Proof.
  unfold binary_round_aux.
  destruct (shr_fexp prec emax mx ex lx) as [mrs' e'].
  destruct (shr_fexp prec emax _ e' loc_Exact) as [mrs'' e''] eqn:H2.
  unfold shr_fexp in H2. apply shr_exponent in H2.
  rewrite fexp_unfold in H2.
  destruct (shr_m mrs''); [discriminate| |discriminate].
  destruct (e'' <=? emax - prec); [|discriminate].
  intros H. injection H as _ _ <-. lia.
Qed.

(** The rounding of an exact positive mantissa at an exponent that is not
    below that of the subnormals: an overflow to infinity, or a float
    within the relative error 2^-53 of the number rounded.  There is no
    underflow: such a number is a multiple of 2^-1074. *)
Lemma binary_round_aux_error (sx : bool) (mx : positive) (ex : Z) :
  emin64 <= ex ->
  binary_round_aux prec emax sx (Z.pos mx) ex loc_Exact = S754_infinity sx
  \/ exists m e,
       binary_round_aux prec emax sx (Z.pos mx) ex loc_Exact
       = S754_finite sx m e
       /\ ex <= e
       /\ 2 ^ 53 * Z.abs (Z.pos m * 2 ^ (e - ex) - Z.pos mx)
          <= Z.pos m * 2 ^ (e - ex).
Proof.
  intros Hex. unfold binary_round_aux, shr_fexp.
  cbn [shr_record_of_loc].
  change (Zdigits2 (Z.pos mx)) with (Z.pos (digits2_pos mx)).
  pose proof (digits2_pos_bounds mx) as Hd.
  set (d := Z.pos (digits2_pos mx)) in *.
  rewrite fexp_unfold.
  destruct (shr_exact_cases (Z.pos mx) ex (Z.max (d + ex - 53) emin64 - ex))
    as [[Hn ->]|(Hn & mrs & j0 & Hj & -> & Hinv)]; [lia| |].
  - cbn [shr_m loc_of_shr_record round_nearest_even].
    change (Zdigits2 (Z.pos mx)) with d. rewrite fexp_unfold.
    destruct (shr_exact_cases (Z.pos mx) ex (Z.max (d + ex - 53) emin64 - ex))
      as [[_ ->]|(Hn' & _)]; [lia| |lia].
    cbn [shr_m]. destruct (ex <=? emax - prec); [right|left; reflexivity].
    exists mx, ex. split; [reflexivity|]. split; [lia|].
    rewrite Z.sub_diag, Z.pow_0_r. lia.
  - destruct (round_nearest_even_error _ _ _ Hinv) as (Hb & Hm' & Herr).
    set (m' := round_nearest_even (shr_m mrs) (loc_of_shr_record mrs)) in *.
    rewrite Hj in *.
    set (n := Z.max (d + ex - 53) emin64 - ex) in *.
    assert (Hnd : n = d - 53) by lia.
    assert (HN : 0 < 2 ^ n) by (apply Z.pow_pos_nonneg; lia).
    assert (Hlo : 2 ^ (d - 1) = 2 ^ n * 2 ^ 52).
    { rewrite <- Z.pow_add_r by lia. f_equal. lia. }
    assert (Hhi : 2 ^ d = 2 ^ n * 2 ^ 53).
    { rewrite <- Z.pow_add_r by lia. f_equal. lia. }
    rewrite Hlo, Hhi in Hd. clear Hlo Hhi.
    set (N := 2 ^ n) in *.
    assert (Hm52 : 2 ^ 52 <= m' <= 2 ^ 53) by nia.
    destruct (Z.eq_dec m' (2 ^ 53)) as [Heq|Hne].
    + rewrite Heq.
      change (Zdigits2 (2 ^ 53)) with 54. rewrite fexp_unfold.
      replace (Z.max (54 + (ex + n) - 53) emin64 - (ex + n)) with 1 by lia.
      change (shr {| shr_m := 2 ^ 53; shr_r := false; shr_s := false |}
                  (ex + n) 1)
        with ({| shr_m := Z.pos 4503599627370496; shr_r := false;
                 shr_s := false |}, ex + n + 1).
      cbn [shr_m].
      destruct (ex + n + 1 <=? emax - prec); [right|left; reflexivity].
      exists 4503599627370496%positive, (ex + n + 1).
      split; [reflexivity|]. split; [lia|].
      replace (ex + n + 1 - ex) with (Z.succ n) by lia.
      rewrite Z.pow_succ_r by lia. fold N.
      change (2 ^ 53) with 9007199254740992 in *. lia.
    + destruct m' as [|q|q] eqn:Hq; [lia| |lia].
      change (Zdigits2 (Z.pos q)) with (Z.pos (digits2_pos q)).
      rewrite (digits2_pos_unique q 53) by (change (53 - 1) with 52; lia).
      rewrite fexp_unfold.
      replace (Z.max (53 + (ex + n) - 53) emin64 - (ex + n)) with 0 by lia.
      cbn [shr shr_m].
      destruct (ex + n <=? emax - prec); [right|left; reflexivity].
      exists q, (ex + n).
      split; [reflexivity|]. split; [lia|].
      replace (ex + n - ex) with n by lia. fold N.
      change (2 ^ 53) with 9007199254740992 in *.
      change (2 ^ 52) with 4503599627370496 in *.
      assert (4503599627370496 * N <= Z.pos q * N)
        by (apply Z.mul_le_mono_nonneg_r; lia).
      lia.
Qed.

(** Shifting a mantissa to a smaller exponent keeps the value. *)
Lemma iter_xO_value (d m : positive) :
  Z.pos (Pos.iter xO m d) = Z.pos m * 2 ^ Z.pos d.
Proof.
  change (Pos.iter xO m d) with (shift_pos d m).
  rewrite shift_pos_correct, Z.pow_pos_fold. lia.
Qed.

Lemma shl_align_value (mx : positive) (ex ez : Z) :
  snd (shl_align mx ex ez) = Z.min ex ez
  /\ Z.pos (fst (shl_align mx ex ez))
     = Z.pos mx * 2 ^ (ex - Z.min ex ez).
Proof.
  unfold shl_align. destruct (ez - ex) as [|p|p] eqn:H; cbn [fst snd].
  - split; [lia|]. replace (ex - Z.min ex ez) with 0 by lia. simpl. lia.
  - split; [lia|]. replace (ex - Z.min ex ez) with 0 by lia. simpl. lia.
  - split; [lia|]. rewrite iter_xO_value. f_equal. f_equal. lia.
Qed.

(** The value of a finite float, sign apart. *)
Lemma units_finite (s : bool) (m : positive) (e : Z) :
  units (S754_finite s m e)
  = (if s then -1 else 1) * (Z.pos m * 2 ^ (e - emin64)).
Proof. unfold units. destruct s; lia. Qed.

(** The same after the mantissa has been aligned, in units of 2^-1074. *)
Lemma binary_round_error (sx : bool) (mx : positive) (ex : Z) :
  emin64 <= ex ->
  binary_round prec emax sx mx ex = S754_infinity sx
  \/ exists m e,
       binary_round prec emax sx mx ex = S754_finite sx m e
       /\ emin64 <= e
       /\ 2 ^ 53 * Z.abs (units (S754_finite sx m e)
                          - units (S754_finite sx mx ex))
          <= Z.abs (units (S754_finite sx m e)).
Proof.
  intros Hex. unfold binary_round.
  destruct (shl_align_value mx ex
              (fexp prec emax (Z.pos (digits2_pos mx) + ex))) as [He Hm].
  destruct (shl_align mx ex _) as [mz ez]. cbn [fst snd] in He, Hm.
  rewrite fexp_unfold in He, Hm.
  set (e0 := Z.min ex (Z.max (Z.pos (digits2_pos mx) + ex - 53) emin64)) in *.
  assert (He0 : emin64 <= e0 <= ex) by lia.
  subst ez.
  destruct (binary_round_aux_error sx mz e0 (proj1 He0))
    as [H|(m & e & H & Hle & Herr)]; [left; exact H|right].
  exists m, e. split; [exact H|]. split; [lia|].
  rewrite !units_finite.
  replace (e - emin64) with ((e - e0) + (e0 - emin64)) by lia.
  replace (ex - emin64) with ((ex - e0) + (e0 - emin64)) by lia.
  rewrite !Z.pow_add_r by lia. rewrite Hm in Herr.
  assert (HU : 0 < 2 ^ (e0 - emin64)) by (apply Z.pow_pos_nonneg; lia).
  assert (HA : 0 <= 2 ^ (e - e0)) by (apply Z.pow_nonneg; lia).
  set (U := 2 ^ (e0 - emin64)) in *.
  set (A := Z.pos m * 2 ^ (e - e0)) in *.
  set (B := Z.pos mx * 2 ^ (ex - e0)) in *.
  assert (HA0 : 0 <= A) by (unfold A; lia).
  change (2 ^ 53) with 9007199254740992 in *.
  destruct sx.
  - replace (-1 * (Z.pos m * (2 ^ (e - e0) * U))
             - -1 * (Z.pos mx * (2 ^ (ex - e0) * U)))
      with (- ((A - B) * U)) by (unfold A, B; ring).
    replace (-1 * (Z.pos m * (2 ^ (e - e0) * U))) with (- (A * U))
      by (unfold A; ring).
    rewrite !Z.abs_opp, !Z.abs_mul, (Z.abs_eq U), (Z.abs_eq A) by lia. nia.
  - replace (1 * (Z.pos m * (2 ^ (e - e0) * U))
             - 1 * (Z.pos mx * (2 ^ (ex - e0) * U)))
      with ((A - B) * U) by (unfold A, B; ring).
    replace (1 * (Z.pos m * (2 ^ (e - e0) * U))) with (A * U)
      by (unfold A; ring).
    rewrite !Z.abs_mul, (Z.abs_eq U), (Z.abs_eq A) by lia. nia.
Qed.

(** The same for the signed mantissas that addition and subtraction
    round. *)
Lemma binary_normalize_error (z ez : Z) :
  emin64 <= ez ->
  is_finite (binary_normalize prec emax z ez false) = true ->
  representable (binary_normalize prec emax z ez false) = true
  /\ 2 ^ 53 * Z.abs (units (binary_normalize prec emax z ez false)
                     - z * 2 ^ (ez - emin64))
     <= Z.abs (units (binary_normalize prec emax z ez false)).
Proof.
  intros He. destruct z as [|p|p]; cbn [binary_normalize].
  - intros _. split; [reflexivity|]. simpl. lia.
  - destruct (binary_round_error false p ez He)
      as [->|(m & e & -> & Hle & Herr)]; [discriminate|].
    intros _. split; [apply Z.leb_le; exact Hle|exact Herr].
  - destruct (binary_round_error true p ez He)
      as [->|(m & e & -> & Hle & Herr)]; [discriminate|].
    intros _. split; [apply Z.leb_le; exact Hle|exact Herr].
Qed.

(** An operand aligned to the smaller of the two exponents keeps its
    value. *)
Lemma aligned_units (s : bool) (m : positive) (e ez : Z) :
  emin64 <= ez -> ez <= e ->
  cond_Zopp s (Z.pos (fst (shl_align m e ez))) * 2 ^ (ez - emin64)
  = units (S754_finite s m e).
Proof.
  intros H1 H2. destruct (shl_align_value m e ez) as [_ ->].
  rewrite units_finite. replace (Z.min e ez) with ez by lia.
  replace (e - emin64) with ((e - ez) + (ez - emin64)) by lia.
  rewrite Z.pow_add_r by lia. destruct s; cbn [cond_Zopp]; ring.
Qed.

(** An exact result is within any relative error. *)
Lemma exact_result (r a : Z) : r = a -> 2 ^ 53 * Z.abs (r - a) <= Z.abs r.
Proof. intros ->. rewrite Z.sub_diag. simpl Z.abs. lia. Qed.

(** Float addition: a finite sum of two floats is within the relative
    error 2^-53 of their exact sum. *)
Lemma fadd_error (x y : spec_float) :
  representable x = true -> representable y = true ->
  is_finite (fadd x y) = true ->
  representable (fadd x y) = true
  /\ 2 ^ 53 * Z.abs (units (fadd x y) - (units x + units y))
     <= Z.abs (units (fadd x y)).
Proof.
  intros Hx Hy.
  destruct x as [sx|sx| |sx mx ex], y as [sy|sy| |sy my ey];
    unfold fadd, SFadd; try discriminate.
  - intros _. destruct sx, sy; (split; [reflexivity|]);
      apply exact_result; reflexivity.
  - intros _. split; [exact Hy|]. apply exact_result. cbn [units]. lia.
  - destruct sx, sy; discriminate.
  - intros _. split; [exact Hx|]. apply exact_result. cbn [units]. lia.
  - cbn [representable] in Hx, Hy. apply Z.leb_le in Hx, Hy.
    cbv zeta. intros Hf.
    assert (Hez : emin64 <= Z.min ex ey) by lia.
    destruct (binary_normalize_error _ _ Hez Hf) as [Hr Herr].
    split; [exact Hr|].
    rewrite Z.mul_add_distr_r, !aligned_units in Herr by lia.
    exact Herr.
Qed.

(** Float subtraction, likewise. *)
Lemma fsub_error (x y : spec_float) :
  representable x = true -> representable y = true ->
  is_finite (fsub x y) = true ->
  representable (fsub x y) = true
  /\ 2 ^ 53 * Z.abs (units (fsub x y) - (units x - units y))
     <= Z.abs (units (fsub x y)).
Proof.
  intros Hx Hy.
  destruct x as [sx|sx| |sx mx ex], y as [sy|sy| |sy my ey];
    unfold fsub, SFsub; try discriminate.
  - intros _. destruct sx, sy; (split; [reflexivity|]);
      apply exact_result; reflexivity.
  - intros _. split; [exact Hy|]. apply exact_result.
    rewrite !units_finite. cbn [units]. destruct sy; cbn [negb]; lia.
  - destruct sx, sy; discriminate.
  - intros _. split; [exact Hx|]. apply exact_result. cbn [units]. lia.
  - cbn [representable] in Hx, Hy. apply Z.leb_le in Hx, Hy.
    cbv zeta. intros Hf.
    assert (Hez : emin64 <= Z.min ex ey) by lia.
    destruct (binary_normalize_error _ _ Hez Hf) as [Hr Herr].
    split; [exact Hr|].
    rewrite Z.mul_sub_distr_r, !aligned_units in Herr by lia.
    exact Herr.
Qed.

(** A finite sum has finite operands. *)
Lemma fadd_finite_operands (x y : spec_float) :
  is_finite (fadd x y) = true -> is_finite x = true /\ is_finite y = true.
Proof.
  destruct x as [sx|sx| |sx mx ex], y as [sy|sy| |sy my ey];
    unfold fadd, SFadd; try discriminate; try (split; reflexivity).
  destruct sx, sy; discriminate.
Qed.

(** Products and differences of floats have no exponent below that of the
    subnormals, and neither has a binary64 float. *)
Lemma fsub_representable (x y : spec_float) :
  representable x = true -> representable y = true ->
  representable (fsub x y) = true.
Proof.
  intros Hx Hy. destruct (is_finite (fsub x y)) eqn:Hf.
  - apply (fsub_error x y Hx Hy Hf).
  - destruct (fsub x y); try reflexivity; discriminate.
Qed.

Lemma fadd_representable (x y : spec_float) :
  representable x = true -> representable y = true ->
  representable (fadd x y) = true.
Proof.
  intros Hx Hy. destruct (is_finite (fadd x y)) eqn:Hf.
  - apply (fadd_error x y Hx Hy Hf).
  - destruct (fadd x y); try reflexivity; discriminate.
Qed.

Lemma fmul_representable (x y : spec_float) : representable (fmul x y) = true.
Proof.
  destruct x as [sx|sx| |sx mx ex], y as [sy|sy| |sy my ey];
    try reflexivity.
  unfold fmul, SFmul.
  destruct (binary_round_aux _ _ _ _ _ _) as [s|s| |s m e] eqn:H;
    try reflexivity.
  apply binary_round_aux_exponent in H. apply Z.leb_le. exact H.
Qed.

Lemma binary64_representable (f : spec_float) :
  valid_binary prec emax f = true -> representable f = true.
Proof.
  destruct f as [s|s| |s m e]; try reflexivity.
  unfold valid_binary, bounded, canonical_mantissa. intros H.
  apply andb_true_iff in H. destruct H as [H _]. apply Z.eqb_eq in H.
  rewrite fexp_unfold in H. apply Z.leb_le. lia.
Qed.

(** One coordinate: [p + (x - p)] is as close to [x] as two roundings
    allow. *)
Lemma recombine_error (x p : spec_float) :
  representable x = true -> representable p = true ->
  is_finite (fadd p (fsub x p)) = true ->
  2 ^ 53 * Z.abs (units (fadd p (fsub x p)) - units x)
  <= Z.abs (units (fsub x p)) + Z.abs (units (fadd p (fsub x p))).
Proof.
  intros Hx Hp Hf.
  destruct (fadd_finite_operands _ _ Hf) as [_ Ho].
  destruct (fsub_error x p Hx Hp Ho) as [Hro Ho_err].
  destruct (fadd_error p (fsub x p) Hp Hro Hf) as [_ Hs_err].
  change (2 ^ 53) with 9007199254740992 in *. lia.
Qed.

(** The coordinates of the parallel component are products of floats. *)
Lemma py_mul_float_representable (c w y : value) :
  is_float c = true -> py_mul c w = Return y ->
  exists f, y = VFloat f /\ representable f = true.
Proof.
  destruct c as [z|x|s]; try discriminate. intros _.
  destruct w as [z|f|s]; cbn [py_mul].
  - destruct (float_of_int z) as [fy|e]; cbn [bind]; [|discriminate].
    intros H. injection H as <-. eexists. split; [reflexivity|].
    apply fmul_representable.
  - intros H. injection H as <-. eexists. split; [reflexivity|].
    apply fmul_representable.
  - discriminate.
Qed.

(** The same along the coordinates. *)
Lemma recombined_within_rounding (lv : list value) :
  forall lp lo ls : list value,
    Forall (fun c => is_binary64 c = true) lv ->
    Forall (fun c => exists f, c = VFloat f /\ representable f = true) lp ->
    Forall2 (fun '(x, y) c => py_sub x y = Return c) (combine lv lp) lo ->
    Forall2 (fun pv c => recombine pv = Return c) (combine lp lv) ls ->
    Forall2 (fun '(v_i, o_i) s_i => within_rounding v_i o_i s_i)
            (combine lv lo) ls.
Proof.
  induction lv as [|x lv IH]; intros lp lo ls Hv Hp Ho Hs.
  - destruct lp; simpl in Hs; inversion Hs; constructor.
  - destruct lp as [|y lp].
    + simpl in Hs, Ho. inversion Hs; inversion Ho; constructor.
    + simpl in Hs, Ho.
      inversion Ho as [|? c ? lo' Hc Ho']; subst.
      inversion Hs as [|? e ? ls' He Hs']; subst.
      inversion Hv as [|? ? Hx Hv']; subst.
      inversion Hp as [|? ? (p & -> & Hrp) Hp']; subst.
      simpl. constructor; [|apply (IH lp); assumption].
      destruct x as [z|fx|s]; try discriminate.
      cbn [py_sub] in Hc. injection Hc as <-.
      cbn [recombine py_sub bind py_add] in He. injection He as <-.
      cbn [within_rounding].
      assert (Hrx : representable fx = true)
        by (apply binary64_representable; exact Hx).
      assert (Hro : representable (fsub fx p) = true)
        by (apply fsub_representable; assumption).
      split; [exact Hro|]. split; [apply fadd_representable; assumption|].
      intros Hf. apply recombine_error; assumption.
Qed.

Lemma scaled_representable (w : value) (l t : list value) :
  Forall (fun c => is_float c = true) l ->
  mapM (fun c => py_mul c w) l = Return t ->
  Forall (fun c => exists f, c = VFloat f /\ representable f = true) t.
Proof.
  intros Hl Ht. apply mapM_inv in Ht.
  induction Ht as [|c y l t Hy _ IH]; constructor.
  - inversion Hl; subst. eapply py_mul_float_representable; eassumption.
  - apply IH. inversion Hl; assumption.
Qed.

Lemma binary64_is_float (l : list value) :
  forallb is_binary64 l = true ->
  Forall (fun c => is_binary64 c = true) l
  /\ Forall (fun c => is_float c = true) l.
Proof.
  intros H. apply forallb_Forall_true in H. split; [exact H|].
  eapply Forall_impl; [|exact H].
  intros [z|f|s]; simpl; intros Hc; try discriminate. reflexivity.
Qed.

(** For a vector [v] of floats and a basis of the same dimension that
    [normalized] accepts, both components and their sum are returned with
    the dimension of [v]; the orthogonal one is [v - p] and the sum
    [p + (v - p)], coordinate by coordinate. *)
Lemma components_returned (v basis u : Vector) :
  coordinates v <> [] ->
  Forall (fun c => is_float c = true) (coordinates v) ->
  List.length (coordinates basis) = List.length (coordinates v) ->
  normalized basis = Return u ->
  exists p o s,
    component_parallel_to v basis = Return p
    /\ component_orthogonal_to v basis = Return o
    /\ __add__ p o = Return s
    /\ dimension p = List.length (coordinates v)
    /\ dimension o = List.length (coordinates v)
    /\ dimension s = List.length (coordinates v)
    /\ List.length (coordinates o) = List.length (coordinates v)
    /\ List.length (coordinates s) = List.length (coordinates v)
    /\ Forall (fun c => exists f, c = VFloat f /\ representable f = true)
              (coordinates p)
    /\ Forall2 (fun '(x, y) c => py_sub x y = Return c)
               (combine (coordinates v) (coordinates p)) (coordinates o)
    /\ Forall2 (fun pv c => recombine pv = Return c)
               (combine (coordinates p) (coordinates v)) (coordinates s).
Proof.
  intros Hne Hv Hlen Hu.
  destruct (normalized_floats basis u Hu) as [Hfu Hlu].
  destruct (zip_floats py_mul (coordinates v) (coordinates u)
              (proj2 mul_total_on_numbers) Hv Hfu)
    as (prods & Hprods & Hfp & _ & _).
  destruct (sum_from_floats prods (VInt 0) Hfp (or_introl eq_refl))
    as (w & Hw & Hwt).
  destruct (scale_floats w (coordinates u) Hwt Hfu) as (tp & Htp & Hfp' & Hlp).
  assert (Htp_len : List.length tp = List.length (coordinates v))
    by congruence.
  assert (Htp_ne : tp <> []).
  { intros ->. destruct (coordinates v); [congruence|discriminate]. }
  assert (Hp : component_parallel_to v basis = Return (vec tp)).
  { unfold component_parallel_to. rewrite Hu. cbn [bind]. unfold dot.
    rewrite Hprods. cbn [bind]. unfold py_sum. rewrite Hw. cbn [bind].
    unfold __mul__. rewrite Htp. cbn [bind].
    rewrite (init_nonempty_tuple tp Htp_ne). reflexivity. }
  destruct (zip_floats py_sub (coordinates v) tp
              (proj2 sub_total_on_numbers) Hv Hfp')
    as (td & Htd & Hfd & H2d & Hld).
  rewrite Htp_len, Nat.min_id in Hld.
  assert (Htd_ne : td <> []).
  { intros ->. destruct (coordinates v); [congruence|discriminate]. }
  assert (Ho : component_orthogonal_to v basis = Return (vec td)).
  { unfold component_orthogonal_to. rewrite Hp. cbn [bind]. unfold __sub__.
    simpl coordinates. rewrite Htd. cbn [bind].
    rewrite (init_nonempty_tuple td Htd_ne). reflexivity. }
  destruct (zip_floats py_add tp td (proj2 add_total_on_numbers) Hfp' Hfd)
    as (ts & Hts & _ & H2s & Hls).
  rewrite Htp_len, Hld, Nat.min_id in Hls.
  assert (Hts_ne : ts <> []).
  { intros ->. destruct (coordinates v); [congruence|discriminate]. }
  assert (Hs : __add__ (vec tp) (vec td) = Return (vec ts)).
  { unfold __add__. simpl coordinates. rewrite Hts. cbn [bind].
    apply init_nonempty_tuple. exact Hts_ne. }
  exists (vec tp), (vec td), (vec ts). simpl.
  repeat split; try assumption.
  - exact (scaled_representable w (coordinates u) tp Hfu Htp).
  - eapply recombine_zip; eassumption.
Qed.



(** On (3., 4.) and the basis (1, 0) every operation is exact and the
    components add up to the vector itself. *)
Example components_of_3_4 :
  component_parallel_to (floats [f3; f4]) (ints [1; 0])
  = Return (floats [f3; fzero])
  /\ component_orthogonal_to (floats [f3; f4]) (ints [1; 0])
     = Return (floats [fzero; f4])
  /\ __add__ (floats [f3; fzero]) (floats [fzero; f4])
     = Return (floats [f3; f4]).
Proof. repeat split; vm_compute; reflexivity. Qed.


(** Without any overflow a small coordinate is absorbed: for (1., 1e17) and
    the basis (1., 1.) the components add up to (0., 1e17), one whole unit
    away from the vector in the first coordinate. *)
Example components_sum_absorbs_small_coordinate :
  exists p o,
    component_parallel_to (floats [fone; f1e17]) (floats [fone; fone])
    = Return p
    /\ component_orthogonal_to (floats [fone; f1e17]) (floats [fone; fone])
       = Return o
    /\ __add__ p o = Return (floats [fzero; f1e17])
    /\ vector_close default_tolerance (floats [fzero; f1e17])
                    (floats [fone; f1e17]) = false.
Proof.
  eexists. eexists.
  split; [vm_compute; reflexivity|]. split; [vm_compute; reflexivity|].
  split; vm_compute; reflexivity.
Qed.

(** A basis can also be non-zero and still be refused: the square of
    2^-648 underflows to zero, so the magnitude of (2^-648, 0.) is zero and
    the projection raises as for the zero vector; the square of 2^652
    overflows and the [OverflowError] of [**] reaches the caller. *)
Example components_of_extreme_basis :
  component_parallel_to (floats [f3; f4])
    (floats [S754_finite false 4503599627370496 (-700); fzero])
  = Raise (mkExn Exception "No unique parallel component")
  /\ component_parallel_to (floats [f3; f4])
       (floats [S754_finite false 4503599627370496 600; fzero])
     = Raise (mkExn OverflowError "(34, 'Numerical result out of range')").
Proof. split; vm_compute; reflexivity. Qed.

(* ================================================================= *)
(** ** Which exceptions reach the caller *)

Lemma raises_exn_return {A : Type} (P : exn -> bool) (a : A) :
  raises_exn P (Return a).
Proof. intros e H. discriminate. Qed.

Lemma raises_exn_raise {A : Type} (P : exn -> bool) (e : exn) :
  P e = true -> raises_exn P (@Raise A e).
Proof. intros HP e' H. injection H as <-. exact HP. Qed.

Lemma raises_exn_bind {A B : Type} (P : exn -> bool)
      (c : result A) (k : A -> result B) :
  raises_exn P c -> (forall a, raises_exn P (k a)) ->
  raises_exn P (x <- c ;; k x).
Proof.
  intros Hc Hk e. destruct c as [a|e']; simpl.
  - apply Hk.
  - intros H. injection H as <-. apply Hc. reflexivity.
Qed.

Lemma raises_exn_mapM {A B : Type} (P : exn -> bool)
      (f : A -> result B) (l : list A) :
  (forall x, raises_exn P (f x)) -> raises_exn P (mapM f l).
Proof.
  intros Hf. induction l as [|x l IH]; simpl.
  - apply raises_exn_return.
  - apply raises_exn_bind; [apply Hf|]. intros y.
    apply raises_exn_bind; [exact IH|]. intros ys. apply raises_exn_return.
Qed.

Lemma float_of_int_runtime (z : Z) : raises_exn from_runtime (float_of_int z).
Proof.
  intros e. unfold float_of_int.
  destruct (binary_normalize prec emax z 0 false); intros H;
    inversion H; reflexivity.
Qed.

Ltac runtime_exn :=
  repeat first
    [ apply raises_exn_return
    | apply raises_exn_raise; reflexivity
    | apply raises_exn_bind; [apply float_of_int_runtime | intros ?] ].

Lemma py_add_runtime (a b : value) : raises_exn from_runtime (py_add a b).
Proof. destruct a, b; simpl; runtime_exn. Qed.

Lemma py_sub_runtime (a b : value) : raises_exn from_runtime (py_sub a b).
Proof. destruct a, b; simpl; runtime_exn. Qed.

Lemma py_repeat_runtime (s : string) (n : Z) :
  raises_exn from_runtime (py_repeat s n).
Proof.
  unfold py_repeat.
  destruct ((sys_maxsize <? n) || (n <? - sys_maxsize - 1)); runtime_exn.
Qed.

Lemma py_mul_runtime (a b : value) : raises_exn from_runtime (py_mul a b).
Proof.
  destruct a, b; simpl; try apply py_repeat_runtime; runtime_exn.
Qed.

Lemma py_pow2_runtime (a : value) : raises_exn from_runtime (py_pow2 a).
Proof.
  destruct a as [z|f|s]; simpl; runtime_exn.
  apply raises_exn_bind; [|intros; apply raises_exn_return].
  destruct f; simpl; runtime_exn.
  destruct (is_infinite _); runtime_exn.
Qed.

Lemma sum_from_runtime (l : list value) (acc : value) :
  raises_exn from_runtime (sum_from acc l).
Proof.
  revert acc. induction l as [|x l IH]; intros acc; simpl.
  - apply raises_exn_return.
  - apply raises_exn_bind; [apply py_add_runtime|]. intros acc'. apply IH.
Qed.

Lemma as_double_runtime (v : value) : raises_exn from_runtime (as_double v).
Proof.
  destruct v; simpl; [apply float_of_int_runtime| |]; runtime_exn.
Qed.

Lemma math_sqrt_runtime (v : value) : raises_exn from_runtime (math_sqrt v).
Proof.
  unfold math_sqrt. apply raises_exn_bind; [apply as_double_runtime|].
  intros x. destruct (is_nan (fsqrt x) && negb (is_nan x)); runtime_exn.
Qed.

Lemma magnitude_runtime (v : Vector) : raises_exn from_runtime (magnitude v).
Proof.
  unfold magnitude. apply raises_exn_bind.
  - apply raises_exn_mapM, py_pow2_runtime.
  - intros squares. apply raises_exn_bind; [apply sum_from_runtime|].
    intros s. apply math_sqrt_runtime.
Qed.

Lemma init_tuple_runtime (t : list value) :
  raises_exn from_runtime (__init__ (PTuple t)).
Proof.
  destruct t as [|x t]; intros e H; [inversion H; reflexivity|discriminate].
Qed.

Lemma mul_runtime (v : Vector) (times : value) :
  raises_exn from_runtime (__mul__ v times).
Proof.
  unfold __mul__. apply raises_exn_bind.
  - apply raises_exn_mapM. intros x. apply py_mul_runtime.
  - intros t. apply init_tuple_runtime.
Qed.

Lemma sub_runtime (a b : Vector) : raises_exn from_runtime (__sub__ a b).
Proof.
  unfold __sub__. apply raises_exn_bind.
  - apply raises_exn_mapM. intros [x y]. apply py_sub_runtime.
  - intros t. apply init_tuple_runtime.
Qed.

Lemma dot_runtime (a b : Vector) : raises_exn from_runtime (dot a b).
Proof.
  unfold dot. apply raises_exn_bind.
  - apply raises_exn_mapM. intros [x y]. apply py_mul_runtime.
  - intros t. apply sum_from_runtime.
Qed.

Lemma math_acos_runtime (libm_acos : spec_float -> spec_float) (d : value) :
  raises_exn from_runtime (math_acos libm_acos d).
Proof.
  unfold math_acos. apply raises_exn_bind; [apply as_double_runtime|].
  intros x. destruct (is_nan x); [apply raises_exn_return|].
  destruct (in_acos_domain x); runtime_exn.
Qed.

(** What a runtime exception is not, and how the handlers treat it. *)
Lemma from_runtime_inv (e : exn) :
  from_runtime e = true ->
  String.eqb (exn_str e) CANNOT_NORMALIZE_ZERO_VECTOR_MSG = false
  /\ String.eqb (exn_str e) NO_UNIQUE_PARALLEL_COMPONENT_MSG = false
  /\ isinstance e ZeroDivisionError = false
  /\ exn_cls e <> Exception.
Proof.
  unfold from_runtime. intros H.
  apply andb_true_iff in H. destruct H as [H H2].
  apply andb_true_iff in H. destruct H as [H0 H1].
  apply negb_true_iff in H1, H2.
  repeat split; try assumption.
  - apply runtime_not_zero_division. exact H0.
  - intros Hc. rewrite Hc in H0. discriminate.
Qed.

(** [normalized] raises the zero-vector exception, for a magnitude equal to
    zero, or hands on an exception of the runtime. *)
Lemma normalized_raise_cases (v : Vector) (e : exn) :
  normalized v = Raise e ->
  (e = zero_vector_error
   /\ exists m, magnitude v = Return m /\ feq_zero m = true)
  \/ from_runtime e = true.
Proof.
  intros Hn. destruct (magnitude v) as [m|e'] eqn:Hm.
  - rewrite (normalized_of_magnitude v m Hm) in Hn.
    destruct (feq_zero m) eqn:Hz.
    + injection Hn as <-. left. split; [reflexivity|]. exists m. auto.
    + right. eapply mul_runtime. exact Hn.
  - rewrite (normalized_magnitude_raises v e' Hm) in Hn. injection Hn as <-.
    right. eapply magnitude_runtime. exact Hm.
Qed.

Lemma normalized_zero_error (v : Vector) :
  normalized v = Raise zero_vector_error
  <-> exists m, magnitude v = Return m /\ feq_zero m = true.
Proof.
  split.
  - intros Hn. destruct (normalized_raise_cases v _ Hn) as [[_ H]|H];
      [exact H|discriminate].
  - intros [m [Hm Hz]]. rewrite (normalized_of_magnitude v m Hm), Hz.
    reflexivity.
Qed.

Section ZeroVectorErrors.

Variable libm_acos : spec_float -> spec_float.

Lemma relabel_runtime {A : Type} (body : result A) (msg : string)
      (other : exn) (e : exn) :
  raises_exn from_runtime body ->
  (msg = CANNOT_NORMALIZE_ZERO_VECTOR_MSG
   \/ msg = NO_UNIQUE_PARALLEL_COMPONENT_MSG) ->
  try_except body
    (fun e => if String.eqb (exn_str e) msg then Raise other else Raise e)
  = Raise e ->
  from_runtime e = true.
Proof.
  intros Hb Hmsg. destruct body as [a|e']; cbn [try_except]; [discriminate|].
  pose proof (Hb e' eq_refl) as He'.
  destruct (from_runtime_inv e' He') as (H1 & H2 & _).
  destruct Hmsg as [-> | ->]; [rewrite H1|rewrite H2];
    intros H; injection H as <-; exact He'.
Qed.

Lemma angle_with_raise_cases (a b : Vector) (deg : bool) (e : exn) :
  angle_with libm_acos a b deg = Raise e ->
  (e = zero_angle_error
   /\ (normalized a = Raise zero_vector_error
       \/ exists u, normalized a = Return u
                    /\ normalized b = Raise zero_vector_error))
  \/ from_runtime e = true.
Proof.
  unfold angle_with.
  destruct (normalized a) as [u1|e1] eqn:H1; cbn [bind].
  - destruct (normalized b) as [u2|e2] eqn:H2; cbn [bind].
    + intros H. right. revert H. apply relabel_runtime; [|left; reflexivity].
      apply raises_exn_bind; [apply dot_runtime|]. intros d.
      apply raises_exn_bind; [apply math_acos_runtime|]. intros t.
      destruct deg; [|apply raises_exn_return].
      apply raises_exn_bind; [|intros; apply raises_exn_return].
      intros e' He'. discriminate.
    + cbn [try_except].
      destruct (normalized_raise_cases b e2 H2) as [[-> _]|Hr].
      * intros H. injection H as <-. left. split; [reflexivity|].
        right. exists u1. split; reflexivity.
      * destruct (from_runtime_inv e2 Hr) as (Hm & _). rewrite Hm.
        intros H. injection H as <-. right. exact Hr.
  - cbn [try_except].
    destruct (normalized_raise_cases a e1 H1) as [[-> _]|Hr].
    + intros H. injection H as <-. left. split; [reflexivity|].
      left. reflexivity.
    + destruct (from_runtime_inv e1 Hr) as (Hm & _). rewrite Hm.
      intros H. injection H as <-. right. exact Hr.
Qed.

Lemma component_parallel_raise_cases (v basis : Vector) (e : exn) :
  component_parallel_to v basis = Raise e ->
  (e = no_parallel_error /\ normalized basis = Raise zero_vector_error)
  \/ from_runtime e = true.
Proof.
  unfold component_parallel_to.
  destruct (normalized basis) as [u|e1] eqn:H1; cbn [bind].
  - intros H. right. revert H. apply relabel_runtime; [|left; reflexivity].
    apply raises_exn_bind; [apply dot_runtime|]. intros w. apply mul_runtime.
  - cbn [try_except].
    destruct (normalized_raise_cases basis e1 H1) as [[-> _]|Hr].
    + intros H. injection H as <-. left. split; reflexivity.
    + destruct (from_runtime_inv e1 Hr) as (Hm & _). rewrite Hm.
      intros H. injection H as <-. right. exact Hr.
Qed.

Lemma component_orthogonal_raise_cases (v basis : Vector) (e : exn) :
  component_orthogonal_to v basis = Raise e ->
  (e = no_orthogonal_error /\ normalized basis = Raise zero_vector_error)
  \/ from_runtime e = true.
Proof.
  unfold component_orthogonal_to.
  destruct (component_parallel_to v basis) as [p|e1] eqn:H1; cbn [bind].
  - intros H. right. revert H. apply relabel_runtime; [|right; reflexivity].
    apply sub_runtime.
  - cbn [try_except].
    destruct (component_parallel_raise_cases v basis e1 H1) as [[-> Hn]|Hr].
    + intros H. injection H as <-. left. split; [reflexivity|exact Hn].
    + destruct (from_runtime_inv e1 Hr) as (_ & Hm & _). rewrite Hm.
      intros H. injection H as <-. right. exact Hr.
Qed.

(** A magnitude that compares equal to zero is below the default
    tolerance. *)
Lemma zero_is_below_tolerance (m : spec_float) :
  feq_zero m = true -> SFltb m default_tolerance = true.
Proof. destruct m as [s|s| |s p x]; try destruct s; intros H;
         try discriminate; reflexivity. Qed.

Lemma not_zero_normalizes (v : Vector) :
  is_zero v default_tolerance = Return false ->
  normalized v <> Raise zero_vector_error.
Proof.
  unfold is_zero. intros Hz Hn.
  apply normalized_zero_error in Hn. destruct Hn as [m [Hm Hf]].
  rewrite Hm in Hz. cbn [bind] in Hz.
  rewrite (zero_is_below_tolerance m Hf) in Hz. discriminate.
Qed.

End ZeroVectorErrors.

(** X: [angle_with] raises [Exception('Cannot compute an angle with the
    zero vector')] exactly when [magnitude] returns a float equal to zero
    for the first operand, or the first operand is normalized and
    [magnitude] returns a float equal to zero for the second; this holds
    in radians and in degrees. *)
Theorem angle_with_zero_vector_iff
        (libm_acos : spec_float -> spec_float) (a b : Vector) (deg : bool) :
  angle_with libm_acos a b deg
  = Raise (mkExn Exception "Cannot compute an angle with the zero vector")
  <-> (exists m, magnitude a = Return m /\ feq_zero m = true)
      \/ (exists u m, normalized a = Return u
                      /\ magnitude b = Return m /\ feq_zero m = true).
Proof.
  split.
  - intros H. destruct (angle_with_raise_cases libm_acos a b deg _ H)
      as [[_ [Ha|[u [Hu Hb]]]]|Hr].
    + left. apply normalized_zero_error. exact Ha.
    + right. apply normalized_zero_error in Hb. destruct Hb as [m Hm].
      exists u, m. split; [exact Hu|exact Hm].
    + discriminate.
  - intros [Ha|[u [m [Hu Hb]]]].
    + apply normalized_zero_error in Ha. unfold angle_with. rewrite Ha.
      reflexivity.
    + assert (Hn : normalized b = Raise zero_vector_error)
        by (apply normalized_zero_error; exists m; exact Hb).
      unfold angle_with. rewrite Hu, Hn. reflexivity.
Qed.

Lemma angle_with_zero_vector_iff_witness :
  angle_with acos_sample (ints [0; 0]) (ints [1; 0]) false
  = Raise (mkExn Exception "Cannot compute an angle with the zero vector")
  /\ angle_with acos_sample (ints [1; 0]) (floats [fzero; S754_zero true]) true
     = Raise (mkExn Exception "Cannot compute an angle with the zero vector").
Proof.
  split.
  - apply (proj2 (angle_with_zero_vector_iff acos_sample
                    (ints [0; 0]) (ints [1; 0]) false)).
    left. exists fzero. split; reflexivity.
  - apply (proj2 (angle_with_zero_vector_iff acos_sample
                    (ints [1; 0]) (floats [fzero; S754_zero true]) true)).
    right. exists (floats [fone; fzero]), fzero.
    split; [vm_compute; reflexivity|]. split; reflexivity.
Defined.

(** X: [component_parallel_to] raises [Exception('No unique parallel
    component')], and [component_orthogonal_to] raises [Exception('No unique
    orthogonal component')], exactly when [magnitude] returns a float equal
    to zero for the basis, whatever the projected vector is; every other
    exception of the two methods is a [TypeError], [OverflowError] or
    [ValueError] of the runtime. *)
Theorem no_unique_component_iff (v basis : Vector) :
  (component_parallel_to v basis
   = Raise (mkExn Exception "No unique parallel component")
   <-> exists m, magnitude basis = Return m /\ feq_zero m = true)
  /\ (component_orthogonal_to v basis
      = Raise (mkExn Exception "No unique orthogonal component")
      <-> exists m, magnitude basis = Return m /\ feq_zero m = true)
  /\ (forall e, component_parallel_to v basis = Raise e ->
                e = mkExn Exception "No unique parallel component"
                \/ runtime_class (exn_cls e) = true)
  /\ (forall e, component_orthogonal_to v basis = Raise e ->
                e = mkExn Exception "No unique orthogonal component"
                \/ runtime_class (exn_cls e) = true).
Proof.
  assert (Hrt : forall e, from_runtime e = true ->
                          runtime_class (exn_cls e) = true).
  { intros e H. unfold from_runtime in H.
    apply andb_true_iff in H. destruct H as [H _].
    apply andb_true_iff in H. destruct H as [H _]. exact H. }
  split; [|split; [|split]].
  - split.
    + intros H. destruct (component_parallel_raise_cases v basis _ H)
        as [[_ Hn]|Hr]; [|discriminate].
      apply normalized_zero_error. exact Hn.
    + intros Hm. apply normalized_zero_error in Hm.
      unfold component_parallel_to. rewrite Hm. reflexivity.
  - split.
    + intros H. destruct (component_orthogonal_raise_cases v basis _ H)
        as [[_ Hn]|Hr]; [|discriminate].
      apply normalized_zero_error. exact Hn.
    + intros Hm. apply normalized_zero_error in Hm.
      unfold component_orthogonal_to, component_parallel_to. rewrite Hm.
      reflexivity.
  - intros e H. destruct (component_parallel_raise_cases v basis e H)
      as [[-> _]|Hr]; [left; reflexivity|right; apply Hrt; exact Hr].
  - intros e H. destruct (component_orthogonal_raise_cases v basis e H)
      as [[-> _]|Hr]; [left; reflexivity|right; apply Hrt; exact Hr].
Qed.

Lemma no_unique_component_iff_witness :
  component_parallel_to (floats [f3; f4])
    (floats [S754_finite false 4503599627370496 (-700); fzero])
  = Raise (mkExn Exception "No unique parallel component").
Proof.
  apply (proj1 (no_unique_component_iff (floats [f3; f4])
                  (floats [S754_finite false 4503599627370496 (-700); fzero]))).
  exists fzero. split; vm_compute; reflexivity.
Defined.

(** X: [is_parallel_to] never raises a zero-vector exception: an operand of
    magnitude zero is caught by [is_zero] before an angle is computed, so
    whatever the method raises is a [TypeError], [OverflowError] or
    [ValueError] of the runtime (as the domain error of [math.acos]). *)
Theorem is_parallel_to_raises_runtime_only
        (libm_acos : spec_float -> spec_float) (a b : Vector) (e : exn) :
  is_parallel_to libm_acos a b = Raise e ->
  runtime_class (exn_cls e) = true
  /\ e <> mkExn Exception "Cannot compute an angle with the zero vector"
  /\ e <> mkExn Exception "Cannot normalize the zero vector".
Proof.
  intros H.
  assert (Hr : from_runtime e = true).
  { revert H. unfold is_parallel_to.
    destruct (is_zero a default_tolerance) as [za|ea] eqn:Ha; cbn [bind].
    2:{ intros H. injection H as <-. unfold is_zero in Ha.
        destruct (magnitude a) as [m|e'] eqn:Hm; [discriminate|].
        injection Ha as <-. eapply magnitude_runtime. exact Hm. }
    destruct za; [discriminate|].
    destruct (is_zero b default_tolerance) as [zb|eb] eqn:Hb; cbn [bind].
    2:{ intros H. injection H as <-. unfold is_zero in Hb.
        destruct (magnitude b) as [m|e'] eqn:Hm; [discriminate|].
        injection Hb as <-. eapply magnitude_runtime. exact Hm. }
    destruct zb; [discriminate|].
    assert (Hang : forall e', angle_with libm_acos a b false = Raise e' ->
                              from_runtime e' = true).
    { intros e' He'.
      destruct (angle_with_raise_cases libm_acos a b false e' He')
        as [[_ [Hza|[u [_ Hzb]]]]|Hr]; [| |exact Hr].
      - exfalso. exact (not_zero_normalizes a Ha Hza).
      - exfalso. exact (not_zero_normalizes b Hb Hzb). }
    destruct (angle_with libm_acos a b false) as [t|e'] eqn:Ht; cbn [bind].
    - destruct (feq_zero t); discriminate.
    - intros H. injection H as <-. apply Hang. reflexivity. }
  destruct (from_runtime_inv e Hr) as (_ & _ & _ & Hc).
  unfold from_runtime in Hr.
  apply andb_true_iff in Hr. destruct Hr as [Hr _].
  apply andb_true_iff in Hr. destruct Hr as [Hr _].
  split; [exact Hr|]. split; intros ->; apply Hc; reflexivity.
Qed.

(** The vector (1, 1, 1) is not even parallel to itself: the call raises the
    domain error of [math.acos]. *)
Lemma is_parallel_to_raises_runtime_only_witness :
  is_parallel_to acos_sample (ints [1; 1; 1]) (ints [1; 1; 1])
  = Raise (mkExn ValueError "math domain error")
  /\ runtime_class ValueError = true.
Proof.
  assert (H : is_parallel_to acos_sample (ints [1; 1; 1]) (ints [1; 1; 1])
              = Raise (mkExn ValueError "math domain error"))
    by (vm_compute; reflexivity).
  split; [exact H|].
  exact (proj1 (is_parallel_to_raises_runtime_only acos_sample _ _ _ H)).
Defined.

(* ================================================================= *)
(** ** The magnitude is the root of a sum that is not negative *)

Lemma binary_round_aux_sign (sx : bool) (mx ex : Z) (lx : location) :
  binary_round_aux prec emax sx mx ex lx = S754_nan
  \/ binary_round_aux prec emax sx mx ex lx = S754_zero sx
  \/ binary_round_aux prec emax sx mx ex lx = S754_infinity sx
  \/ exists m e, binary_round_aux prec emax sx mx ex lx = S754_finite sx m e.
Proof.
  unfold binary_round_aux.
  destruct (shr_fexp prec emax mx ex lx) as [mrs' e'].
  destruct (shr_fexp prec emax _ e' loc_Exact) as [mrs'' e''].
  destruct (shr_m mrs'') as [|m|m].
  - right. left. reflexivity.
  - destruct (e'' <=? emax - prec).
    + right. right. right. exists m, e''. reflexivity.
    + right. right. left. reflexivity.
  - left. reflexivity.
Qed.

Lemma shr_1_nonneg (mrs : shr_record) :
  0 <= shr_m mrs -> 0 <= shr_m (shr_1 mrs).
Proof.
  destruct mrs as [m r s]. simpl.
  destruct m as [|[p|p|]|[p|p|]]; simpl; lia.
Qed.

Lemma iter_shr_1_nonneg (p : positive) (mrs : shr_record) :
  0 <= shr_m mrs -> 0 <= shr_m (iter_pos shr_1 p mrs).
Proof.
  revert mrs. induction p as [p IH|p IH|]; intros mrs H; simpl.
  - apply IH, IH, shr_1_nonneg, H.
  - apply IH, IH, H.
  - apply shr_1_nonneg, H.
Qed.

Lemma shr_fexp_nonneg (m e : Z) (l : location) :
  0 <= m -> 0 <= shr_m (fst (shr_fexp prec emax m e l)).
Proof.
  intros H. unfold shr_fexp, shr.
  assert (H0 : 0 <= shr_m (shr_record_of_loc m l))
    by (destruct l as [|[]]; simpl; exact H).
  destruct (fexp prec emax (Zdigits2 m + e) - e) as [|p|p]; simpl;
    try exact H0.
  apply iter_shr_1_nonneg, H0.
Qed.

Lemma round_nearest_even_nonneg (m : Z) (l : location) :
  0 <= m -> 0 <= round_nearest_even m l.
Proof.
  intros H. destruct l as [|[]]; simpl; try lia.
  destruct (Z.even m); lia.
Qed.

(** Rounding a mantissa that is not negative never gives NaN. *)
Lemma binary_round_aux_not_nan (sx : bool) (mx ex : Z) (lx : location) :
  0 <= mx -> is_nan (binary_round_aux prec emax sx mx ex lx) = false.
Proof.
  intros H. unfold binary_round_aux.
  pose proof (shr_fexp_nonneg mx ex lx H) as H1.
  destruct (shr_fexp prec emax mx ex lx) as [mrs' e']. simpl in H1.
  pose proof (shr_fexp_nonneg _ e' loc_Exact
                (round_nearest_even_nonneg _ (loc_of_shr_record mrs') H1))
    as H2.
  destruct (shr_fexp prec emax _ e' loc_Exact) as [mrs'' e'']. simpl in H2.
  destruct (shr_m mrs'') as [|m|m]; try reflexivity.
  - destruct (e'' <=? emax - prec); reflexivity.
  - lia.
Qed.

Lemma sqrtrem_nonneg (n : Z) : 0 <= fst (Z.sqrtrem n).
Proof.
  destruct n as [|p|p]; simpl; try lia.
  destruct (Pos.sqrtrem p) as [s [|r|]]; simpl; lia.
Qed.

(** The root of a float is never below zero, and it is NaN only for NaN,
    minus infinity and the negative numbers. *)
Lemma fsqrt_not_negative (x : spec_float) : not_negative (fsqrt x) = true.
Proof.
  destruct x as [s|[|]| |[|] m e]; try reflexivity.
  unfold fsqrt, SFsqrt.
  destruct (SFsqrt_core_binary prec emax (Z.pos m) e) as [[mz ez] lz].
  destruct (binary_round_aux_sign false mz ez lz) as [H|[H|[H|[m' [e' H]]]]];
    rewrite H; reflexivity.
Qed.

Lemma fsqrt_defined (x : spec_float) :
  not_negative x = true -> is_nan x = false -> is_nan (fsqrt x) = false.
Proof.
  destruct x as [s|[|]| |[|] m e]; try discriminate; try reflexivity.
  intros _ _. unfold fsqrt, SFsqrt, SFsqrt_core_binary.
  pose proof (sqrtrem_nonneg
                match e - 2 * Z.min (fexp prec emax
                                       (Z.div2 (Zdigits2 (Z.pos m) + e + 1)))
                                    (Z.div2 e) with
                | 0 => Z.pos m
                | Z.pos _ =>
                    Z.shiftl (Z.pos m)
                      (e - 2 * Z.min (fexp prec emax
                                        (Z.div2 (Zdigits2 (Z.pos m) + e + 1)))
                                     (Z.div2 e))
                | Z.neg _ => 0
                end) as Hq.
  cbv zeta.
  destruct (Z.sqrtrem _) as [q r]. simpl in Hq.
  apply binary_round_aux_not_nan. exact Hq.
Qed.

Lemma binary_round_aux_not_negative (mx ex : Z) (lx : location) :
  not_negative (binary_round_aux prec emax false mx ex lx) = true.
Proof.
  destruct (binary_round_aux_sign false mx ex lx) as [H|[H|[H|[m [e H]]]]];
    rewrite H; reflexivity.
Qed.

Lemma binary_round_not_negative (m : positive) (e : Z) :
  not_negative (binary_round prec emax false m e) = true.
Proof.
  unfold binary_round. destruct (shl_align m e _) as [mz ez].
  apply binary_round_aux_not_negative.
Qed.

Lemma float_of_int_not_negative (z : Z) (f : spec_float) :
  0 <= z -> float_of_int z = Return f -> not_negative f = true.
Proof.
  intros Hz. unfold float_of_int.
  destruct z as [|p|p]; [| |lia].
  - simpl. intros H. injection H as <-. reflexivity.
  - unfold binary_normalize.
    pose proof (binary_round_not_negative p 0) as Hr.
    destruct (binary_round prec emax false p 0); try discriminate;
      intros H; injection H as <-; exact Hr.
Qed.

Lemma fadd_not_negative (x y : spec_float) :
  not_negative x = true -> not_negative y = true ->
  not_negative (fadd x y) = true.
Proof.
  destruct x as [sx|[|]| |[|] mx ex]; try discriminate;
    destruct y as [sy|[|]| |[|] my ey]; try discriminate;
    intros _ _; try reflexivity.
  - destruct sx, sy; reflexivity.
  - unfold fadd, SFadd, cond_Zopp, binary_normalize.
    rewrite <- Pos2Z.inj_add.
    apply binary_round_not_negative.
Qed.

Lemma py_add_not_negative (a b c : value) :
  not_negative_value a = true -> not_negative_value b = true ->
  py_add a b = Return c -> not_negative_value c = true.
Proof.
  destruct a as [x|x|x]; try discriminate;
    destruct b as [y|y|y]; try discriminate; simpl; intros Ha Hb.
  - intros H. injection H as <-. simpl.
    apply Z.leb_le in Ha, Hb. apply Z.leb_le. lia.
  - destruct (float_of_int x) as [fx|e] eqn:Hx; [|discriminate].
    simpl. intros H. injection H as <-. simpl.
    apply fadd_not_negative; [|exact Hb].
    apply (float_of_int_not_negative x); [apply Z.leb_le; exact Ha|exact Hx].
  - destruct (float_of_int y) as [fy|e] eqn:Hy; [|discriminate].
    simpl. intros H. injection H as <-. simpl.
    apply fadd_not_negative; [exact Ha|].
    apply (float_of_int_not_negative y); [apply Z.leb_le; exact Hb|exact Hy].
  - intros H. injection H as <-. simpl. apply fadd_not_negative; assumption.
Qed.

Lemma py_pow2_not_negative (a c : value) :
  py_pow2 a = Return c -> not_negative_value c = true.
Proof.
  destruct a as [z|f|s]; [| |discriminate].
  - unfold py_pow2. intros H. injection H as <-.
    unfold not_negative_value. apply Z.leb_le.
    change (0 <= z ^ 2). rewrite Z.pow_2_r. apply Z.square_nonneg.
  - simpl. destruct f as [s|s| |s m e]; simpl;
      try (intros H; injection H as <-; reflexivity).
    destruct (is_infinite _) eqn:Hi; simpl; [discriminate|].
    intros H. injection H as <-. simpl.
    unfold fmul, SFmul. apply binary_round_aux_not_negative.
Qed.

Lemma sum_from_not_negative (l : list value) (acc s : value) :
  Forall (fun c => not_negative_value c = true) l ->
  not_negative_value acc = true ->
  sum_from acc l = Return s -> not_negative_value s = true.
Proof.
  intros Hl. revert acc.
  induction Hl as [|c l Hc _ IH]; intros acc Hacc; cbn [sum_from].
  - intros H. injection H as <-. exact Hacc.
  - destruct (py_add acc c) as [acc'|e] eqn:Hadd; cbn [bind];
      [|intros H; discriminate H].
    apply IH. exact (py_add_not_negative acc c acc' Hacc Hc Hadd).
Qed.

Lemma squares_not_negative (l squares : list value) :
  mapM py_pow2 l = Return squares ->
  Forall (fun c => not_negative_value c = true) squares.
Proof.
  intros H. apply mapM_inv in H.
  induction H as [|x y l t Hy _ IH]; constructor; [|exact IH].
  eapply py_pow2_not_negative. exact Hy.
Qed.

(** [math.sqrt] of a value that is not negative raises only what the
    conversion of its argument raises. *)
Lemma math_sqrt_not_negative (v : value) :
  not_negative_value v = true -> raises_only arith_class (math_sqrt v).
Proof.
  intros Hv e. unfold math_sqrt.
  destruct (as_double v) as [x|e'] eqn:Hx; cbn [bind].
  - assert (Hnn : not_negative x = true).
    { destruct v as [z|f|s]; simpl in *; [| |discriminate].
      - apply (float_of_int_not_negative z); [apply Z.leb_le; exact Hv|exact Hx].
      - injection Hx as <-. exact Hv. }
    destruct (is_nan (fsqrt x) && negb (is_nan x)) eqn:Hn; [|discriminate].
    exfalso. apply andb_true_iff in Hn. destruct Hn as [Hr Hxn].
    apply negb_true_iff in Hxn.
    rewrite (fsqrt_defined x Hnn Hxn) in Hr. discriminate.
  - intros H. injection H as <-.
    destruct v as [z|f|s]; simpl in *; [|discriminate|discriminate].
    eapply float_of_int_raises. exact Hx.
Qed.

Lemma not_negative_not_below_zero (m : spec_float) :
  not_negative m = true -> SFltb m fzero = false.
Proof. destruct m as [s|[|]| |[|] p e]; try discriminate; reflexivity. Qed.

Lemma magnitude_result_not_negative (v : Vector) (m : spec_float) :
  magnitude v = Return m -> not_negative m = true.
Proof.
  unfold magnitude.
  destruct (mapM py_pow2 (coordinates v)) as [squares|e1]; cbn [bind];
    [|discriminate].
  destruct (py_sum squares) as [s|e2]; cbn [bind]; [|discriminate].
  unfold math_sqrt. destruct (as_double s) as [x|e3]; cbn [bind];
    [|discriminate].
  destruct (is_nan (fsqrt x) && negb (is_nan x)); [discriminate|].
  intros H. injection H as <-. apply fsqrt_not_negative.
Qed.

(** X: [magnitude] never fails on the square root: the squares and their
    sum are never negative, so the only exceptions are the [TypeError] of a
    coordinate that is not a number and the [OverflowError] of a square or
    of an int too large for a float; [ValueError('math domain error')] does
    not occur.  A returned magnitude is never below zero. *)
Theorem magnitude_never_domain_error (v : Vector) :
  (forall e, magnitude v = Raise e ->
             (exn_cls e = TypeError \/ exn_cls e = OverflowError)
             /\ e <> mkExn ValueError "math domain error")
  /\ (forall m, magnitude v = Return m ->
                not_negative m = true /\ SFltb m fzero = false).
Proof.
  split.
  - intros e He.
    assert (Hc : arith_class (exn_cls e) = true).
    { revert He. unfold magnitude.
      destruct (mapM py_pow2 (coordinates v)) as [squares|e1] eqn:Hsq;
        cbn [bind].
      - destruct (py_sum squares) as [s|e2] eqn:Hs; cbn [bind].
        + apply math_sqrt_not_negative.
          eapply (sum_from_not_negative squares (VInt 0));
            [eapply squares_not_negative; exact Hsq|reflexivity|exact Hs].
        + intros H. injection H as <-. eapply sum_from_raises. exact Hs.
      - intros H. injection H as <-.
        eapply (raises_only_mapM arith_class py_pow2); [|exact Hsq].
        apply py_pow2_raises. }
    destruct e as [[] msg]; simpl in Hc; try discriminate.
    + split; [left; reflexivity|discriminate].
    + split; [right; reflexivity|discriminate].
  - intros m Hm.
    pose proof (magnitude_result_not_negative v m Hm) as Hn.
    split; [exact Hn|apply not_negative_not_below_zero; exact Hn].
Qed.

Lemma magnitude_never_domain_error_witness :
  magnitude (floats [S754_finite false 4503599627370496 600; fzero])
  = Raise (mkExn OverflowError "(34, 'Numerical result out of range')")
  /\ magnitude (floats [f3; f4])
     = Return (S754_finite false 5629499534213120 (-50))
  /\ SFltb (S754_finite false 5629499534213120 (-50)) fzero = false.
Proof.
  assert (H1 : magnitude (floats [S754_finite false 4503599627370496 600; fzero])
               = Raise (mkExn OverflowError
                          "(34, 'Numerical result out of range')"))
    by (vm_compute; reflexivity).
  assert (H2 : magnitude (floats [f3; f4])
               = Return (S754_finite false 5629499534213120 (-50)))
    by (vm_compute; reflexivity).
  split; [exact H1|]. split; [exact H2|].
  apply (proj2 (magnitude_never_domain_error (floats [f3; f4])) _ H2).
Defined.

(* ================================================================= *)
(** ** The cross product of 3-dimensional operands *)

Lemma py_neg_raises (a : value) : raises_only arith_class (py_neg a).
Proof. destruct a; simpl; raises_arith. Qed.

Lemma bind_return_inv {A B : Type} (c : result A) (k : A -> result B) (b : B) :
  (x <- c ;; k x) = Return b -> exists a, c = Return a /\ k a = Return b.
Proof.
  destruct c as [a|e]; simpl; [|discriminate]. intros H. exists a. auto.
Qed.

(** On two operands of three coordinates nothing is caught: the call is the
    evaluation of the three coordinates, in order. *)
Lemma cross_depth_3d (d : nat) (ver : pyversion)
      (x_1 y_1 z_1 x_2 y_2 z_2 : value) (d1 d2 : nat) :
  cross_depth (S d) ver (mkVector [x_1; y_1; z_1] d1)
              (mkVector [x_2; y_2; z_2] d2)
  = (c1 <- (a <- py_mul y_1 z_2 ;; b <- py_mul y_2 z_1 ;; py_sub a b) ;;
     c2 <- (a <- py_mul x_1 z_2 ;; b <- py_mul x_2 z_1 ;;
            d <- py_sub a b ;; py_neg d) ;;
     c3 <- (a <- py_mul x_1 y_2 ;; b <- py_mul x_2 y_1 ;; py_sub a b) ;;
     Return (mkVector [c1; c2; c3] 3)).
Proof.
  cbn -[py_mul py_sub py_neg].
  match goal with
  | |- try_except ?body _ = _ =>
      assert (Hb : raises_only arith_class body);
      [|destruct body as [c|e]; cbn [try_except]; [reflexivity|]]
  end.
  - repeat first
      [ apply raises_only_return
      | apply py_mul_raises | apply py_sub_raises | apply py_neg_raises
      | apply raises_only_bind; [|intros ?] ].
  - pose proof (Hb e eq_refl) as Hc.
    destruct e as [[] msg]; simpl in Hc; try discriminate; reflexivity.
Qed.

Lemma cross_depth_3d_raises (d : nat) (ver : pyversion)
      (x_1 y_1 z_1 x_2 y_2 z_2 : value) (d1 d2 : nat) :
  raises_only arith_class
    (cross_depth (S d) ver (mkVector [x_1; y_1; z_1] d1)
                 (mkVector [x_2; y_2; z_2] d2)).
Proof.
  rewrite cross_depth_3d.
  repeat first
    [ apply raises_only_return
    | apply py_mul_raises | apply py_sub_raises | apply py_neg_raises
    | apply raises_only_bind; [|intros ?] ].
Qed.

Lemma cross_depth_3d_returns (d : nat) (ver : pyversion)
      (x_1 y_1 z_1 x_2 y_2 z_2 : value) (d1 d2 : nat) (c : Vector) :
  cross_depth (S d) ver (mkVector [x_1; y_1; z_1] d1)
              (mkVector [x_2; y_2; z_2] d2) = Return c ->
  exists c1 c2 c3, c = mkVector [c1; c2; c3] 3.
Proof.
  rewrite cross_depth_3d. intros H.
  apply bind_return_inv in H. destruct H as (c1 & _ & H).
  apply bind_return_inv in H. destruct H as (c2 & _ & H).
  apply bind_return_inv in H. destruct H as (c3 & _ & H).
  injection H as <-. exists c1, c2, c3. reflexivity.
Qed.

Lemma cross_return_shape (ver : pyversion) (a b c : Vector) :
  cross ver a b = Return c ->
  List.length (coordinates a) = 3%nat
  /\ List.length (coordinates b) = 3%nat
  /\ List.length (coordinates c) = 3%nat /\ dimension c = 3%nat.
Proof.
  unfold cross. rewrite recursion_limit_eq.
  destruct a as [[|a1 [|a2 [|a3 [|a4 la]]]] da];
    destruct b as [[|b1 [|b2 [|b3 [|b4 lb]]]] db];
    try (destruct ver; cbn -[py_mul py_sub py_neg]; discriminate).
  - destruct ver.
    + destruct (cross_depth_2d_py2 (S 997) a1 a2 b1 b2 da db) as [e [He _]].
      rewrite He. discriminate.
    + rewrite cross_depth_2d_py3. discriminate.
  - intros H. apply cross_depth_3d_returns in H.
    destruct H as (c1 & c2 & c3 & ->). repeat split.
Qed.

(** X: [cross] returns a vector only when both operands have exactly three
    coordinates, under either interpreter; the vector it returns has three
    coordinates and dimension 3.  In particular no call with a
    2-dimensional operand returns. *)
Theorem cross_returns_only_3d (ver : pyversion) (a b c : Vector) :
  cross ver a b = Return c ->
  List.length (coordinates a) = 3%nat
  /\ List.length (coordinates b) = 3%nat
  /\ List.length (coordinates c) = 3%nat /\ dimension c = 3%nat.
Proof. apply cross_return_shape. Qed.

Lemma cross_returns_only_3d_witness :
  List.length (coordinates (ints [1; 0; 0])) = 3%nat
  /\ List.length (coordinates (ints [0; 1; 0])) = 3%nat
  /\ List.length (coordinates (ints [0; 0; 1])) = 3%nat
  /\ dimension (ints [0; 0; 1]) = 3%nat.
Proof.
  apply (cross_returns_only_3d Py2 (ints [1; 0; 0]) (ints [0; 1; 0])
           (ints [0; 0; 1])).
  vm_compute. reflexivity.
Defined.

(** X: under Python 2, for operands that have coordinates, [cross] raises
    [Exception('Only two or three dimensional vectors can be processed')]
    exactly when the operands are neither both 3-dimensional nor both
    2-dimensional: also for one 2-dimensional and one 3-dimensional
    operand. *)
Theorem cross_unsupported_iff (a b : Vector) :
  coordinates a <> [] -> coordinates b <> [] ->
  (cross Py2 a b
   = Raise (mkExn Exception
              "Only two or three dimensional vectors can be processed")
   <-> ~ (List.length (coordinates a) = 3%nat
          /\ List.length (coordinates b) = 3%nat)
       /\ ~ (List.length (coordinates a) = 2%nat
             /\ List.length (coordinates b) = 2%nat)).
Proof.
  unfold cross. rewrite recursion_limit_eq.
  destruct a as [[|a1 [|a2 [|a3 [|a4 la]]]] da];
    destruct b as [[|b1 [|b2 [|b3 [|b4 lb]]]] db];
    simpl coordinates; intros Ha Hb; try congruence;
    try (split; [intros _; split; intros [H1 H2]; discriminate
                |intros _; reflexivity]).
  - split.
    + intros H.
      destruct (cross_depth_2d_py2 (S 997) a1 a2 b1 b2 da db) as [e [He Hc]].
      rewrite He in H. injection H as ->. discriminate.
    + intros [_ H]. exfalso. apply H. split; reflexivity.
  - split.
    + intros H. apply cross_depth_3d_raises in H. discriminate.
    + intros [H _]. exfalso. apply H. split; reflexivity.
Qed.

Lemma cross_unsupported_iff_witness :
  cross Py2 (ints [1; 0]) (ints [0; 1; 0])
  = Raise (mkExn Exception
             "Only two or three dimensional vectors can be processed")
  /\ cross Py2 (ints [1; 0; 0]) (ints [0; 1])
     = Raise (mkExn Exception
                "Only two or three dimensional vectors can be processed").
Proof.
  split.
  - apply (proj2 (cross_unsupported_iff (ints [1; 0]) (ints [0; 1; 0])
                    ltac:(discriminate) ltac:(discriminate))).
    split; intros [H1 H2]; discriminate.
  - apply (proj2 (cross_unsupported_iff (ints [1; 0; 0]) (ints [0; 1])
                    ltac:(discriminate) ltac:(discriminate))).
    split; intros [H1 H2]; discriminate.
Defined.

Lemma cross_ints (ver : pyversion) (a1 a2 a3 b1 b2 b3 : Z) :
  cross ver (ints [a1; a2; a3]) (ints [b1; b2; b3])
  = Return (ints [a2 * b3 - b2 * a3; - (a1 * b3 - b1 * a3); a1 * b2 - b1 * a2]).
Proof.
  unfold cross. rewrite recursion_limit_eq. unfold ints, vec. simpl map.
  simpl List.length. rewrite cross_depth_3d. reflexivity.
Qed.

Lemma dot_ints3 (a1 a2 a3 b1 b2 b3 : Z) :
  dot (ints [a1; a2; a3]) (ints [b1; b2; b3])
  = Return (VInt (a1 * b1 + a2 * b2 + a3 * b3)).
Proof. unfold dot, py_sum. simpl. apply f_equal. apply f_equal. ring. Qed.

Lemma ints_eq (l1 l2 : list Z) : l1 = l2 -> ints l1 = ints l2.
Proof. intros ->. reflexivity. Qed.

(** X: on 3-dimensional vectors of ints, [cross] returns the vector of the
    three 2x2 determinants, computed exactly; its dot product with each
    operand is the int [0], so [is_orthogonal_to] holds for it and either
    operand, and [cross] with the operands exchanged returns the opposite
    vector: the two results add up to (0, 0, 0). *)
Theorem cross_ints_orthogonal (ver : pyversion) (a1 a2 a3 b1 b2 b3 : Z) :
  exists c,
    cross ver (ints [a1; a2; a3]) (ints [b1; b2; b3]) = Return c
    /\ c = ints [a2 * b3 - b2 * a3; - (a1 * b3 - b1 * a3); a1 * b2 - b1 * a2]
    /\ dot (ints [a1; a2; a3]) c = Return (VInt 0)
    /\ dot (ints [b1; b2; b3]) c = Return (VInt 0)
    /\ is_orthogonal_to (ints [a1; a2; a3]) c default_tolerance = Return true
    /\ is_orthogonal_to (ints [b1; b2; b3]) c default_tolerance = Return true
    /\ (c' <- cross ver (ints [b1; b2; b3]) (ints [a1; a2; a3]) ;;
        __add__ c c') = Return (ints [0; 0; 0]).
Proof.
  eexists. split; [apply cross_ints|]. split; [reflexivity|].
  assert (Ha : dot (ints [a1; a2; a3])
                   (ints [a2 * b3 - b2 * a3; - (a1 * b3 - b1 * a3);
                          a1 * b2 - b1 * a2]) = Return (VInt 0)).
  { rewrite dot_ints3. apply f_equal. apply f_equal. ring. }
  assert (Hb : dot (ints [b1; b2; b3])
                   (ints [a2 * b3 - b2 * a3; - (a1 * b3 - b1 * a3);
                          a1 * b2 - b1 * a2]) = Return (VInt 0)).
  { rewrite dot_ints3. apply f_equal. apply f_equal. ring. }
  split; [exact Ha|]. split; [exact Hb|].
  split; [unfold is_orthogonal_to; rewrite Ha; reflexivity|].
  split; [unfold is_orthogonal_to; rewrite Hb; reflexivity|].
  rewrite cross_ints. cbn [bind]. unfold __add__, ints. simpl.
  rewrite init_nonempty_tuple by discriminate.
  apply f_equal. unfold vec. simpl.
  apply (f_equal (fun l => mkVector l 3)).
  repeat (f_equal; try ring).
Qed.

Lemma magnitude_opp_ints (l : list Z) :
  magnitude (ints (map Z.opp l)) = magnitude (ints l).
Proof.
  unfold magnitude, ints, vec. simpl coordinates.
  assert (H : mapM py_pow2 (map VInt (map Z.opp l))
              = mapM py_pow2 (map VInt l)).
  { induction l as [|z l IH]; [reflexivity|].
    simpl map. cbn [mapM]. rewrite IH. unfold py_pow2 at 1 3.
    replace ((- z) ^ 2) with (z ^ 2) by ring. reflexivity. }
  rewrite H. reflexivity.
Qed.

(** X: on 3-dimensional vectors of ints the area of the parallelogram does
    not depend on the order of the operands, and it is [0.] (as the area of
    the triangle is) when one operand is an integer multiple of the
    other. *)
Theorem area_of_int_vectors (ver : pyversion) (a1 a2 a3 b1 b2 b3 k : Z) :
  area_of_parallelogram_with ver (ints [a1; a2; a3]) (ints [b1; b2; b3])
  = area_of_parallelogram_with ver (ints [b1; b2; b3]) (ints [a1; a2; a3])
  /\ area_of_parallelogram_with ver (ints [a1; a2; a3])
                                (ints [k * a1; k * a2; k * a3])
     = Return fzero
  /\ area_of_triangle_with ver (ints [a1; a2; a3])
                           (ints [k * a1; k * a2; k * a3])
     = Return fzero.
Proof.
  assert (Hz : area_of_parallelogram_with ver (ints [a1; a2; a3])
                 (ints [k * a1; k * a2; k * a3]) = Return fzero).
  { unfold area_of_parallelogram_with. rewrite cross_ints. cbn [bind].
    replace (ints [a2 * (k * a3) - k * a2 * a3;
                   - (a1 * (k * a3) - k * a1 * a3);
                   a1 * (k * a2) - k * a1 * a2]) with (ints [0; 0; 0]).
    - vm_compute. reflexivity.
    - apply ints_eq. repeat (f_equal; try ring). }
  split; [|split; [exact Hz|]].
  - unfold area_of_parallelogram_with. rewrite !cross_ints. cbn [bind].
    rewrite <- (magnitude_opp_ints [b2 * a3 - a2 * b3; - (b1 * a3 - a1 * b3);
                                    b1 * a2 - a1 * b2]).
    f_equal. apply ints_eq. simpl map. repeat (f_equal; try ring).
  - unfold area_of_triangle_with. rewrite Hz. vm_compute. reflexivity.
Qed.

(* ================================================================= *)
(** ** The instances the methods return *)

Lemma init_returns (o : pyobj) (v : Vector) :
  __init__ o = Return v ->
  truthy o = true
  /\ tuple o = Return (coordinates v)
  /\ dimension v = List.length (coordinates v).
Proof.
  unfold __init__. destruct (truthy o) eqn:Ht; cbn [negb];
    [|discriminate].
  destruct o as [|b|[z|f|s]|l|l|l]; try discriminate; cbn;
    intros H; injection H as <-; repeat split; reflexivity.
Qed.

Lemma init_sequence_returns (o : pyobj) (v : Vector) :
  (forall l, o <> PIter l) -> __init__ o = Return v -> well_formed v.
Proof.
  intros Ho H. destruct (init_returns o v H) as (Ht & Hc & Hd).
  split; [|exact Hd]. intros He. rewrite He in Hc.
  destruct o as [|b|[z|f|s]|l|l|l]; try discriminate.
  - destruct s; [discriminate|]. discriminate.
  - destruct l; discriminate.
  - destruct l; discriminate.
  - elim (Ho l). reflexivity.
Qed.

Lemma init_tuple_returns (t : list value) (v : Vector) :
  __init__ (PTuple t) = Return v -> well_formed v /\ coordinates v = t.
Proof.
  intros H. apply init_tuple_inv in H. destruct H as [-> Hne].
  split; [split; [exact Hne|reflexivity]|reflexivity].
Qed.

Lemma zip_returns (op : value -> value -> result value) (a b v : Vector) :
  (t <- mapM (fun '(x, y) => op x y)
             (combine (coordinates a) (coordinates b)) ;;
   __init__ (PTuple t)) = Return v ->
  well_formed v
  /\ List.length (coordinates v)
     = Nat.min (List.length (coordinates a)) (List.length (coordinates b)).
Proof.
  intros H. apply bind_return_inv in H. destruct H as (t & Ht & Hv).
  destruct (init_tuple_returns _ _ Hv) as [Hw Hc]. split; [exact Hw|].
  rewrite Hc.
  apply mapM_inv in Ht. rewrite (Forall2_length_eq _ _ _ Ht).
  apply length_combine.
Qed.

Lemma mul_returns (v u : Vector) (times : value) :
  __mul__ v times = Return u ->
  well_formed u
  /\ List.length (coordinates u) = List.length (coordinates v).
Proof.
  intros H. apply bind_return_inv in H. destruct H as (t & Ht & Hv).
  destruct (init_tuple_returns _ _ Hv) as [Hw Hc]. split; [exact Hw|].
  rewrite Hc.
  apply mapM_inv in Ht. apply (Forall2_length_eq _ _ _ Ht).
Qed.

Lemma normalized_returns (v u : Vector) :
  normalized v = Return u ->
  well_formed u
  /\ List.length (coordinates u) = List.length (coordinates v).
Proof.
  intros Hn. destruct (magnitude v) as [m|e] eqn:Hm.
  - rewrite (normalized_of_magnitude v m Hm) in Hn.
    destruct (feq_zero m); [discriminate|]. eapply mul_returns. exact Hn.
  - rewrite (normalized_magnitude_raises v e Hm) in Hn. discriminate.
Qed.

Lemma component_parallel_returns (v basis p : Vector) :
  component_parallel_to v basis = Return p ->
  well_formed p
  /\ List.length (coordinates p) = List.length (coordinates basis).
Proof.
  unfold component_parallel_to.
  destruct (normalized basis) as [u|e] eqn:Hu; cbn [bind try_except].
  - destruct (dot v u) as [w|e]; cbn [bind try_except].
    + destruct (__mul__ u w) as [q|e] eqn:Hq; cbn [try_except].
      * intros H. injection H as <-.
        destruct (mul_returns u q w Hq) as [Hw Hl]. split; [exact Hw|].
        rewrite Hl. apply (normalized_returns basis u Hu).
      * destruct (String.eqb _ _); discriminate.
    + destruct (String.eqb _ _); discriminate.
  - destruct (String.eqb _ _); discriminate.
Qed.

Lemma component_orthogonal_returns (v basis o : Vector) :
  component_orthogonal_to v basis = Return o ->
  well_formed o
  /\ List.length (coordinates o)
     = Nat.min (List.length (coordinates v)) (List.length (coordinates basis)).
Proof.
  unfold component_orthogonal_to.
  destruct (component_parallel_to v basis) as [p|e] eqn:Hp;
    cbn [bind try_except].
  - destruct (__sub__ v p) as [q|e] eqn:Hq; cbn [try_except].
    + intros H. injection H as <-.
      destruct (zip_returns py_sub v p q Hq) as [Hw Hl]. split; [exact Hw|].
      rewrite Hl. f_equal. apply (component_parallel_returns v basis p Hp).
    + destruct (String.eqb _ _); discriminate.
  - destruct (String.eqb _ _); discriminate.
Qed.

(** X: the constructor returns for a true argument that [tuple] accepts,
    with the elements [tuple] gives as coordinates and their number as
    [dimension].  A tuple, a list or a string so gives an instance with at
    least one coordinate; an iterator or generator that yields nothing is
    true all the same, passes the test for emptiness and gives an instance
    without coordinates, of dimension 0.  Every instance that [+], [-],
    [*], [normalized], the two components and [cross] return has at least
    one coordinate and their number as [dimension], whatever the operands
    are. *)
Theorem returned_vectors_well_formed :
  (forall o v, __init__ o = Return v ->
               truthy o = true
               /\ tuple o = Return (coordinates v)
               /\ dimension v = List.length (coordinates v))
  /\ (forall o t, truthy o = true -> tuple o = Return t ->
                  __init__ o = Return (mkVector t (List.length t)))
  /\ (forall l v, __init__ (PTuple l) = Return v -> well_formed v)
  /\ (forall l v, __init__ (PList l) = Return v -> well_formed v)
  /\ (forall s v, __init__ (PScalar (VStr s)) = Return v -> well_formed v)
  /\ __init__ (PIter []) = Return (mkVector [] 0)
  /\ (forall a b v, __add__ a b = Return v -> well_formed v)
  /\ (forall a b v, __sub__ a b = Return v -> well_formed v)
  /\ (forall a t v, __mul__ a t = Return v -> well_formed v)
  /\ (forall a v, normalized a = Return v -> well_formed v)
  /\ (forall a b v, component_parallel_to a b = Return v -> well_formed v)
  /\ (forall a b v, component_orthogonal_to a b = Return v -> well_formed v)
  /\ (forall ver a b v, cross ver a b = Return v -> well_formed v).
Proof.
  split; [exact init_returns|].
  split; [intros o t Ho Ht; unfold __init__; now rewrite Ho, Ht|].
  split; [intros l v; apply init_sequence_returns; discriminate|].
  split; [intros l v; apply init_sequence_returns; discriminate|].
  split; [intros s v; apply init_sequence_returns; discriminate|].
  split; [reflexivity|].
  repeat split.
    + apply (zip_returns py_add a b v H).
    + apply (zip_returns py_add a b v H).
    + apply (zip_returns py_sub a b v H).
    + apply (zip_returns py_sub a b v H).
    + apply (mul_returns a v t H).
    + apply (mul_returns a v t H).
    + apply (normalized_returns a v H).
    + apply (normalized_returns a v H).
    + apply (component_parallel_returns a b v H).
    + apply (component_parallel_returns a b v H).
    + apply (component_orthogonal_returns a b v H).
    + apply (component_orthogonal_returns a b v H).
    + destruct (cross_return_shape ver a b v H) as (_ & _ & Hl & _).
      intros Hc. rewrite Hc in Hl. discriminate.
    + destruct (cross_return_shape ver a b v H) as (_ & _ & Hl & Hd).
      congruence.
Qed.

Lemma returned_vectors_well_formed_witness :
  well_formed (floats [fone; fzero])
  /\ dimension (vec [VStr "a"; VStr "b"]) = 2%nat.
Proof.
  destruct returned_vectors_well_formed
    as (Hi & _ & _ & _ & _ & _ & _ & _ & _ & Hn & _).
  split.
  - apply (Hn (ints [2; 0])). vm_compute. reflexivity.
  - apply (Hi (PScalar (VStr "ab"))). reflexivity.
Defined.

(** X: the dimensions of the results, whenever a method returns and
    whatever the coordinates are: [*] and [normalized] keep the number of
    coordinates; [+] and [-] give the smaller of the two numbers; the
    parallel component has as many coordinates as the basis (not as the
    projected vector), and the orthogonal component the smaller number of
    the two. *)
Theorem dimensions_of_results (a b v : Vector) :
  (forall t, __mul__ a t = Return v ->
             List.length (coordinates v) = List.length (coordinates a))
  /\ (normalized a = Return v ->
      List.length (coordinates v) = List.length (coordinates a))
  /\ (__add__ a b = Return v ->
      List.length (coordinates v)
      = Nat.min (List.length (coordinates a)) (List.length (coordinates b)))
  /\ (__sub__ a b = Return v ->
      List.length (coordinates v)
      = Nat.min (List.length (coordinates a)) (List.length (coordinates b)))
  /\ (component_parallel_to a b = Return v ->
      List.length (coordinates v) = List.length (coordinates b))
  /\ (component_orthogonal_to a b = Return v ->
      List.length (coordinates v)
      = Nat.min (List.length (coordinates a)) (List.length (coordinates b))).
Proof.
  split; [|split; [|split; [|split; [|split]]]].
  - intros t H. apply (mul_returns a v t H).
  - intros H. apply (normalized_returns a v H).
  - intros H. apply (zip_returns py_add a b v H).
  - intros H. apply (zip_returns py_sub a b v H).
  - intros H. apply (component_parallel_returns a b v H).
  - intros H. apply (component_orthogonal_returns a b v H).
Qed.

Lemma dimensions_of_results_witness :
  List.length (coordinates (floats [fone; fzero]))
  = List.length (coordinates (ints [1; 0]))
  /\ component_parallel_to (ints [3; 4; 5]) (ints [1; 0])
     = Return (floats [f3; fzero]).
Proof.
  assert (H : component_parallel_to (ints [3; 4; 5]) (ints [1; 0])
              = Return (floats [f3; fzero])) by (vm_compute; reflexivity).
  split; [|exact H].
  destruct (dimensions_of_results (ints [3; 4; 5]) (ints [1; 0])
              (floats [f3; fzero])) as (_ & _ & _ & _ & Hp & _).
  exact (Hp H).
Defined.

(* ================================================================= *)
(** ** Symmetry *)

Lemma fmul_comm (x y : spec_float) : fmul x y = fmul y x.
Proof.
  destruct x as [sx|sx| |sx mx ex], y as [sy|sy| |sy my ey]; simpl;
    try reflexivity; try (rewrite (xorb_comm sx sy); reflexivity).
  unfold fmul, SFmul.
  rewrite (xorb_comm sx sy), (Pos.mul_comm mx my), (Z.add_comm ex ey).
  reflexivity.
Qed.

Lemma fadd_comm (x y : spec_float) : fadd x y = fadd y x.
Proof.
  destruct x as [sx|sx| |sx mx ex], y as [sy|sy| |sy my ey]; simpl;
    try reflexivity; try (destruct sx, sy; reflexivity).
  unfold fadd, SFadd. rewrite (Z.min_comm ey ex).
  rewrite (Z.add_comm (cond_Zopp sy _)). reflexivity.
Qed.

(** [*] gives the same outcome, value or exception, in either order. *)
Lemma py_mul_comm (a b : value) : py_mul a b = py_mul b a.
Proof.
  destruct a as [x|x|s], b as [y|y|t]; simpl; try reflexivity.
  - rewrite Z.mul_comm. reflexivity.
  - destruct (float_of_int x); simpl; [rewrite fmul_comm|]; reflexivity.
  - destruct (float_of_int y); simpl; [rewrite fmul_comm|]; reflexivity.
  - rewrite fmul_comm. reflexivity.
Qed.

(** [+] on numbers gives the same outcome in either order. *)
Lemma py_add_comm (a b : value) :
  is_number a = true -> is_number b = true -> py_add a b = py_add b a.
Proof.
  destruct a as [x|x|s], b as [y|y|t]; simpl; try discriminate; intros _ _.
  - rewrite Z.add_comm. reflexivity.
  - destruct (float_of_int x); simpl; [rewrite fadd_comm|]; reflexivity.
  - destruct (float_of_int y); simpl; [rewrite fadd_comm|]; reflexivity.
  - rewrite fadd_comm. reflexivity.
Qed.

Lemma mapM_zip_swap (op : value -> value -> result value)
      (l1 l2 : list value) :
  (forall x y, In x l1 -> In y l2 -> op x y = op y x) ->
  mapM (fun '(x, y) => op x y) (combine l1 l2)
  = mapM (fun '(x, y) => op x y) (combine l2 l1).
Proof.
  revert l2. induction l1 as [|x l1 IH]; intros [|y l2] Hop;
    try reflexivity.
  simpl. rewrite (Hop x y) by (left; reflexivity).
  rewrite (IH l2); [reflexivity|].
  intros x' y' Hx Hy. apply Hop; right; assumption.
Qed.

Lemma dot_comm (a b : Vector) : dot a b = dot b a.
Proof.
  unfold dot. rewrite (mapM_zip_swap py_mul (coordinates a) (coordinates b)).
  - reflexivity.
  - intros x y _ _. apply py_mul_comm.
Qed.

(** X: [dot] does not depend on the order of its operands: it returns the
    same int or the same float (a NaN being a NaN, whatever its sign bit),
    or raises the same exception when the coordinates cannot be multiplied
    or added; hence [is_orthogonal_to] is symmetric as well, for every
    tolerance. *)
Theorem dot_is_commutative (a b : Vector) (tolerance : spec_float) :
  dot a b = dot b a
  /\ is_orthogonal_to a b tolerance = is_orthogonal_to b a tolerance.
Proof.
  split; [apply dot_comm|]. unfold is_orthogonal_to. rewrite dot_comm.
  reflexivity.
Qed.

(** X: [+] is commutative on vectors of numbers, in the value and in the
    exception raised (an int too large for a float). *)
Theorem add_is_commutative (a b : Vector) :
  forallb is_number (coordinates a) = true ->
  forallb is_number (coordinates b) = true ->
  __add__ a b = __add__ b a.
Proof.
  intros Ha Hb. unfold __add__.
  rewrite (mapM_zip_swap py_add (coordinates a) (coordinates b)).
  - reflexivity.
  - intros x y Hx Hy. apply py_add_comm.
    + rewrite forallb_forall in Ha. apply Ha. exact Hx.
    + rewrite forallb_forall in Hb. apply Hb. exact Hy.
Qed.

Lemma add_is_commutative_witness :
  __add__ (vec [VInt 1; VFloat fone]) (vec [VFloat f3; VInt 2; VInt 7])
  = __add__ (vec [VFloat f3; VInt 2; VInt 7]) (vec [VInt 1; VFloat fone]).
Proof.
  apply (add_is_commutative (vec [VInt 1; VFloat fone])
           (vec [VFloat f3; VInt 2; VInt 7])); reflexivity.
Defined.

(** Strings are the coordinates for which the order matters. *)
Example add_of_strings_is_not_commutative :
  __add__ (vec [VStr "a"]) (vec [VStr "b"]) = Return (vec [VStr "ab"])
  /\ __add__ (vec [VStr "b"]) (vec [VStr "a"]) = Return (vec [VStr "ba"]).
Proof. split; reflexivity. Qed.

(** X: when both operands can be normalized, [angle_with] gives the same
    outcome in either order, in radians and in degrees. *)
Theorem angle_with_is_symmetric
        (libm_acos : spec_float -> spec_float) (a b u1 u2 : Vector)
        (deg : bool) :
  normalized a = Return u1 -> normalized b = Return u2 ->
  angle_with libm_acos a b deg = angle_with libm_acos b a deg.
Proof.
  intros Ha Hb. unfold angle_with. rewrite Ha, Hb. cbn [bind].
  rewrite (dot_comm u1 u2). reflexivity.
Qed.

Lemma angle_with_is_symmetric_witness :
  angle_with acos_sample (ints [2; 0]) (ints [0; 1]) true
  = angle_with acos_sample (ints [0; 1]) (ints [2; 0]) true.
Proof.
  apply (angle_with_is_symmetric acos_sample (ints [2; 0]) (ints [0; 1])
           (floats [fone; fzero]) (floats [fzero; fone]));
    vm_compute; reflexivity.
Defined.

(* ================================================================= *)
(** ** Degrees *)

Lemma degrees_per_radian_eq :
  float_truediv f180 pi = Return degrees_per_radian.
Proof. vm_compute. reflexivity. Qed.

(** X: with [in_degrees=True], [angle_with] raises exactly what it raises
    in radians, and otherwise returns the angle in radians multiplied, as
    floats, by [180. / pi] (57.29577951308232). *)
Theorem angle_in_degrees
        (libm_acos : spec_float -> spec_float) (a b : Vector) :
  angle_with libm_acos a b true
  = (t <- angle_with libm_acos a b false ;;
     Return (fmul t degrees_per_radian)).
Proof.
  unfold angle_with. rewrite degrees_per_radian_eq.
  destruct (normalized a) as [u1|e1]; cbn [bind try_except].
  - destruct (normalized b) as [u2|e2]; cbn [bind try_except].
    + destruct (dot u1 u2) as [d|e3]; cbn [bind try_except].
      * destruct (math_acos libm_acos d) as [t|e4]; cbn [bind try_except];
          [reflexivity|].
        destruct (String.eqb _ _); reflexivity.
      * destruct (String.eqb _ _); reflexivity.
    + destruct (String.eqb _ _); reflexivity.
  - destruct (String.eqb _ _); reflexivity.
Qed.

(* ================================================================= *)
(** ** Adding and taking away *)

Lemma add_ints (la lb : list Z) :
  la <> [] -> lb <> [] ->
  __add__ (ints la) (ints lb)
  = Return (ints (map (fun p => fst p + snd p) (combine la lb))).
Proof.
  intros Ha Hb. unfold __add__, ints, vec. simpl coordinates.
  assert (H : forall l1 l2,
             mapM (fun '(x, y) => py_add x y)
                  (combine (map VInt l1) (map VInt l2))
             = Return (map VInt (map (fun p => fst p + snd p)
                                     (combine l1 l2)))).
  { induction l1 as [|x l1 IH]; intros [|y l2]; try reflexivity.
    simpl. rewrite IH. reflexivity. }
  rewrite H. cbn [bind]. apply init_nonempty_tuple.
  destruct la; [congruence|]. destruct lb; [congruence|]. discriminate.
Qed.

Lemma sub_ints (la lb : list Z) :
  la <> [] -> lb <> [] ->
  __sub__ (ints la) (ints lb)
  = Return (ints (map (fun p => fst p - snd p) (combine la lb))).
Proof.
  intros Ha Hb. unfold __sub__, ints, vec. simpl coordinates.
  assert (H : forall l1 l2,
             mapM (fun '(x, y) => py_sub x y)
                  (combine (map VInt l1) (map VInt l2))
             = Return (map VInt (map (fun p => fst p - snd p)
                                     (combine l1 l2)))).
  { induction l1 as [|x l1 IH]; intros [|y l2]; try reflexivity.
    simpl. rewrite IH. reflexivity. }
  rewrite H. cbn [bind]. apply init_nonempty_tuple.
  destruct la; [congruence|]. destruct lb; [congruence|]. discriminate.
Qed.

Lemma add_then_sub (la lb : list Z) :
  map (fun p => fst p - snd p)
      (combine (map (fun p => fst p + snd p) (combine la lb)) lb)
  = firstn (List.length lb) la.
Proof.
  revert lb. induction la as [|x la IH]; intros [|y lb]; try reflexivity.
  simpl. rewrite IH. f_equal. lia.
Qed.

(** X: on vectors of ints, taking [b] away from [a + b] gives back [a]
    exactly when [a] is not longer than [b]; when it is longer, what comes
    back is [a] cut to the dimension of [b], without any error. *)
Theorem add_then_subtract (la lb : list Z) :
  la <> [] -> lb <> [] ->
  (s <- __add__ (ints la) (ints lb) ;; __sub__ s (ints lb))
  = Return (ints (firstn (List.length lb) la))
  /\ ((List.length la <= List.length lb)%nat ->
      (s <- __add__ (ints la) (ints lb) ;; __sub__ s (ints lb))
      = Return (ints la)).
Proof.
  intros Ha Hb.
  assert (H : (s <- __add__ (ints la) (ints lb) ;; __sub__ s (ints lb))
              = Return (ints (firstn (List.length lb) la))).
  { rewrite (add_ints la lb Ha Hb). cbn [bind].
    rewrite sub_ints; [|destruct la; [congruence|];
                         destruct lb; [congruence|]; discriminate|exact Hb].
    rewrite add_then_sub. reflexivity. }
  split; [exact H|]. intros Hl. rewrite H.
  rewrite firstn_all2 by exact Hl. reflexivity.
Qed.

Lemma add_then_subtract_witness :
  (s <- __add__ (ints [1; 2; 3]) (ints [10; 20]) ;; __sub__ s (ints [10; 20]))
  = Return (ints [1; 2])
  /\ (s <- __add__ (ints [1; 2]) (ints [10; 20; 30]) ;;
      __sub__ s (ints [10; 20; 30]))
     = Return (ints [1; 2]).
Proof.
  split.
  - apply (proj1 (add_then_subtract [1; 2; 3] [10; 20]
                    ltac:(discriminate) ltac:(discriminate))).
  - apply (proj2 (add_then_subtract [1; 2] [10; 20; 30]
                    ltac:(discriminate) ltac:(discriminate))).
    simpl. lia.
Defined.

(* ================================================================= *)
(** ** The zero vector is parallel to everything *)

Lemma is_zero_zero_vector (v : Vector) :
  zero_vector v = true -> is_zero v default_tolerance = Return true.
Proof.
  intros Hz. unfold is_zero. rewrite (magnitude_zero_vector v Hz).
  reflexivity.
Qed.

(** X: a vector whose coordinates are all zero is parallel to every vector.
    As first operand it is so whatever the other operand holds, which is not
    even looked at; as second operand it is so as soon as [is_zero] returns
    for the first.  No angle is computed in either case. *)
Theorem zero_vector_is_parallel
        (libm_acos : spec_float -> spec_float) (z : Vector) :
  zero_vector z = true ->
  (forall b, is_parallel_to libm_acos z b = Return true)
  /\ (forall a za, is_zero a default_tolerance = Return za ->
                   is_parallel_to libm_acos a z = Return true).
Proof.
  intros Hz. pose proof (is_zero_zero_vector z Hz) as Hzero. split.
  - intros b. unfold is_parallel_to. rewrite Hzero. reflexivity.
  - intros a za Ha.
    rewrite (is_parallel_to_cases libm_acos a z za true Ha Hzero).
    destruct za; reflexivity.
Qed.

Lemma zero_vector_is_parallel_witness :
  is_parallel_to acos_sample (ints [0; 0]) (vec [VStr "a"]) = Return true
  /\ is_parallel_to acos_sample (ints [1; 1; 1]) (floats [fzero; fzero])
     = Return true.
Proof.
  destruct (zero_vector_is_parallel acos_sample (ints [0; 0]) eq_refl)
    as [H1 _].
  destruct (zero_vector_is_parallel acos_sample (floats [fzero; fzero]) eq_refl)
    as [_ H2].
  split; [apply H1|].
  apply (H2 (ints [1; 1; 1]) false). vm_compute. reflexivity.
Defined.

(* ================================================================= *)
(** ** Areas *)

Lemma halving (x : spec_float) : float_div_int x 2 = Return (fdiv x f2).
Proof. reflexivity. Qed.

(** X: [area_of_parallelogram_with] returns only for two operands of three
    coordinates each (the promotion of 2-dimensional operands never
    succeeds); the area it returns is never below zero, and
    [area_of_triangle_with] then returns that area divided by [2.], the
    division adding no failure of its own. *)
Theorem areas_only_3d (ver : pyversion) (a b : Vector) (m : spec_float) :
  area_of_parallelogram_with ver a b = Return m ->
  List.length (coordinates a) = 3%nat
  /\ List.length (coordinates b) = 3%nat
  /\ SFltb m fzero = false
  /\ area_of_triangle_with ver a b = Return (fdiv m f2).
Proof.
  intros H. pose proof H as H'. unfold area_of_parallelogram_with in H'.
  apply bind_return_inv in H'. destruct H' as (c & Hc & Hm).
  destruct (cross_return_shape ver a b c Hc) as (Ha & Hb & _).
  split; [exact Ha|]. split; [exact Hb|]. split.
  - apply not_negative_not_below_zero.
    apply (magnitude_result_not_negative c m Hm).
  - unfold area_of_triangle_with. rewrite H. cbn [bind]. apply halving.
Qed.

Lemma areas_only_3d_witness :
  area_of_parallelogram_with Py2 (ints [1; 0; 0]) (ints [0; 1; 0])
  = Return fone
  /\ area_of_triangle_with Py2 (ints [1; 0; 0]) (ints [0; 1; 0])
     = Return (fdiv fone f2).
Proof.
  assert (H : area_of_parallelogram_with Py2 (ints [1; 0; 0]) (ints [0; 1; 0])
              = Return fone) by (vm_compute; reflexivity).
  split; [exact H|].
  apply (areas_only_3d Py2 (ints [1; 0; 0]) (ints [0; 1; 0]) fone H).
Defined.

(* ================================================================= *)
(** ** Vectors of ints are handled exactly *)

Lemma sum_from_ints_exact (l : list Z) (acc : Z) :
  sum_from (VInt acc) (map VInt l) = Return (VInt (fold_left Z.add l acc)).
Proof.
  revert acc. induction l as [|z l IH]; intros acc; [reflexivity|].
  simpl. apply IH.
Qed.

Lemma mul_pairs_ints (la lb : list Z) :
  mapM (fun '(x, y) => py_mul x y) (combine (map VInt la) (map VInt lb))
  = Return (map VInt (map (fun p => fst p * snd p) (combine la lb))).
Proof.
  revert lb. induction la as [|x la IH]; intros [|y lb]; try reflexivity.
  simpl. rewrite IH. reflexivity.
Qed.

Lemma dot_ints (la lb : list Z) :
  dot (ints la) (ints lb)
  = Return (VInt (fold_left Z.add
                    (map (fun p => fst p * snd p) (combine la lb)) 0)).
Proof.
  unfold dot, ints, vec, py_sum. simpl coordinates.
  rewrite mul_pairs_ints. cbn [bind]. apply sum_from_ints_exact.
Qed.

(** Below the default tolerance there is one int that is not negative. *)
Lemma below_default_tolerance (z : Z) :
  0 <= z -> int_lt_float z default_tolerance = (z =? 0).
Proof.
  intros Hz. unfold int_lt_float, default_tolerance.
  change (0 <=? -86) with false. cbv iota.
  change (- -86) with 86.
  destruct (Z.eqb_spec z 0) as [->|Hn].
  - reflexivity.
  - apply Z.ltb_ge.
    assert (H : 7737125245533627 <= 1 * 2 ^ 86) by (vm_compute; discriminate).
    assert (Hp : 0 < 2 ^ 86) by reflexivity.
    nia.
Qed.

(** X: on vectors of ints [dot] is the exact integer sum of the products
    over the zipped coordinates and never raises, and [is_orthogonal_to]
    with the default tolerance is exact orthogonality: it returns [True]
    precisely when that sum is [0], because the int is compared with the
    float [1e-10] as an exact number. *)
Theorem ints_are_exact (la lb : list Z) :
  dot (ints la) (ints lb)
  = Return (VInt (fold_left Z.add
                    (map (fun p => fst p * snd p) (combine la lb)) 0))
  /\ is_orthogonal_to (ints la) (ints lb) default_tolerance
     = Return (fold_left Z.add
                 (map (fun p => fst p * snd p) (combine la lb)) 0 =? 0).
Proof.
  split; [apply dot_ints|].
  unfold is_orthogonal_to. rewrite dot_ints. cbn [bind py_abs py_lt_float].
  rewrite below_default_tolerance by apply Z.abs_nonneg.
  f_equal.
  generalize (fold_left Z.add
                (map (fun p => fst p * snd p) (combine la lb)) 0).
  intros d. destruct (Z.eqb_spec (Z.abs d) 0) as [H|H];
    destruct (Z.eqb_spec d 0) as [H'|H']; try reflexivity; lia.
Qed.

(* ================================================================= *)
(** ** Operands of different dimensions, ints and floats mixed *)

Lemma raises_only_mapM_Forall {A B : Type} (P : exn_class -> bool)
      (f : A -> result B) (l : list A) :
  Forall (fun x => raises_only P (f x)) l -> raises_only P (mapM f l).
Proof.
  induction 1 as [|x l Hx _ IH]; simpl.
  - apply raises_only_return.
  - apply raises_only_bind; [exact Hx|]. intros y.
    apply raises_only_bind; [exact IH|]. intros ys. apply raises_only_return.
Qed.

Lemma float_of_int_overflow (z : Z) : raises_only is_overflow (float_of_int z).
Proof.
  intros e. unfold float_of_int.
  destruct (binary_normalize prec emax z 0 false); intros H;
    inversion H; reflexivity.
Qed.

Ltac overflow_only :=
  repeat first
    [ apply raises_only_return
    | apply raises_only_bind; [apply float_of_int_overflow | intros ?] ].

(** On numbers the three operators raise nothing but the [OverflowError]
    of an int that no float can hold, and their value is a number. *)
Lemma numbers_add (a b : value) :
  is_number a = true -> is_number b = true ->
  raises_only is_overflow (py_add a b)
  /\ forall c, py_add a b = Return c -> is_number c = true.
Proof.
  destruct a as [x|x|x]; try discriminate;
    destruct b as [y|y|y]; try discriminate; intros _ _; simpl;
    (split; [overflow_only|]); intros c;
    try (destruct (float_of_int _); simpl; [|discriminate]);
    intros H; injection H as <-; reflexivity.
Qed.

Lemma numbers_sub (a b : value) :
  is_number a = true -> is_number b = true ->
  raises_only is_overflow (py_sub a b)
  /\ forall c, py_sub a b = Return c -> is_number c = true.
Proof.
  destruct a as [x|x|x]; try discriminate;
    destruct b as [y|y|y]; try discriminate; intros _ _; simpl;
    (split; [overflow_only|]); intros c;
    try (destruct (float_of_int _); simpl; [|discriminate]);
    intros H; injection H as <-; reflexivity.
Qed.

Lemma numbers_mul (a b : value) :
  is_number a = true -> is_number b = true ->
  raises_only is_overflow (py_mul a b)
  /\ forall c, py_mul a b = Return c -> is_number c = true.
Proof.
  destruct a as [x|x|x]; try discriminate;
    destruct b as [y|y|y]; try discriminate; intros _ _; simpl;
    (split; [overflow_only|]); intros c;
    try (destruct (float_of_int _); simpl; [|discriminate]);
    intros H; injection H as <-; reflexivity.
Qed.

Lemma numbers_sum (l : list value) (acc : value) :
  Forall (fun c => is_number c = true) l -> is_number acc = true ->
  raises_only is_overflow (sum_from acc l).
Proof.
  intros Hl. revert acc.
  induction Hl as [|c l Hc _ IH]; intros acc Hacc; cbn [sum_from].
  - apply raises_only_return.
  - destruct (numbers_add acc c Hacc Hc) as [Hr Hn]. intros e.
    destruct (py_add acc c) as [acc'|e'] eqn:Hadd; cbn [bind].
    + apply IH. apply Hn. reflexivity.
    + intros H. injection H as <-. apply Hr. reflexivity.
Qed.

Section MixedOperands.

Variables a b : Vector.
Hypothesis a_nonempty : coordinates a <> [].
Hypothesis b_nonempty : coordinates b <> [].
Hypothesis a_numbers : forallb is_number (coordinates a) = true.
Hypothesis b_numbers : forallb is_number (coordinates b) = true.

Lemma zipped_numbers :
  Forall (fun p => is_number (fst p) = true /\ is_number (snd p) = true)
         (combine (coordinates a) (coordinates b)).
Proof.
  eapply Forall_combine;
    [|apply forallb_Forall_true; exact a_numbers
     |apply forallb_Forall_true; exact b_numbers].
  intros x y Hx Hy. split; assumption.
Qed.

(** An operator that, on numbers, raises only the [OverflowError] maps over
    the zipped coordinates raising only that, and the tuple it leaves is
    not empty. *)
Lemma zip_numbers (op : value -> value -> result value) :
  (forall x y, is_number x = true -> is_number y = true ->
               raises_only is_overflow (op x y)
               /\ forall c, op x y = Return c -> is_number c = true) ->
  raises_only is_overflow
    (mapM (fun '(x, y) => op x y) (combine (coordinates a) (coordinates b)))
  /\ forall t,
      mapM (fun '(x, y) => op x y) (combine (coordinates a) (coordinates b))
      = Return t ->
      t <> []
      /\ Forall (fun c => is_number c = true) t
      /\ Forall2 (fun '(x, y) c => op x y = Return c)
                 (combine (coordinates a) (coordinates b)) t.
Proof.
  intros Hop. split.
  - apply raises_only_mapM_Forall.
    eapply Forall_impl; [|exact zipped_numbers].
    intros [x y] [Hx Hy]. apply (Hop x y Hx Hy).
  - intros t Ht. apply mapM_inv in Ht.
    assert (H2 : Forall2 (fun '(x, y) c => op x y = Return c)
                         (combine (coordinates a) (coordinates b)) t).
    { eapply Forall2_impl; [|exact Ht]. intros [x y] c Hc. exact Hc. }
    split; [|split; [|exact H2]].
    + intros ->. inversion H2 as [Hnil|]. 
      destruct (coordinates a); [congruence|].
      destruct (coordinates b); [congruence|]. discriminate.
    + pose proof zipped_numbers as Hz. clear Ht.
      induction H2 as [|[x y] c l t Hc _ IH]; constructor.
      * inversion Hz as [|? ? [Hx Hy] _]; subst.
        apply (proj2 (Hop x y Hx Hy) c Hc).
      * apply IH. inversion Hz; assumption.
Qed.

Lemma zip_numbers_raises (op : value -> value -> result value) (e : exn) :
  (forall x y, is_number x = true -> is_number y = true ->
               raises_only is_overflow (op x y)
               /\ forall c, op x y = Return c -> is_number c = true) ->
  (t <- mapM (fun '(x, y) => op x y)
             (combine (coordinates a) (coordinates b)) ;;
   __init__ (PTuple t)) = Raise e ->
  exn_cls e = OverflowError.
Proof.
  intros Hop. destruct (zip_numbers op Hop) as [Hr Ht].
  destruct (mapM _ (combine (coordinates a) (coordinates b))) as [t|e'] eqn:Hm;
    cbn [bind].
  - destruct (Ht t eq_refl) as (Hne & _).
    rewrite (init_nonempty_tuple t Hne). discriminate.
  - intros H. injection H as <-. pose proof (Hr e' eq_refl) as Hc.
    destruct (exn_cls e'); try discriminate. reflexivity.
Qed.

Lemma dot_numbers_raises (e : exn) :
  dot a b = Raise e -> exn_cls e = OverflowError.
Proof.
  unfold dot. destruct (zip_numbers py_mul numbers_mul) as [Hr Ht].
  destruct (mapM _ (combine (coordinates a) (coordinates b))) as [t|e'] eqn:Hm;
    cbn [bind]; intros H.
  - destruct (Ht t eq_refl) as (_ & Hn & _).
    pose proof (numbers_sum t (VInt 0) Hn eq_refl e H) as Hc.
    destruct (exn_cls e); try discriminate. reflexivity.
  - injection H as <-. pose proof (Hr e' eq_refl) as Hc.
    destruct (exn_cls e'); try discriminate. reflexivity.
Qed.

End MixedOperands.

Lemma zip_returns_elementwise (op : value -> value -> result value)
      (a b v : Vector) :
  (t <- mapM (fun '(x, y) => op x y)
             (combine (coordinates a) (coordinates b)) ;;
   __init__ (PTuple t)) = Return v ->
  dimension v
  = Nat.min (List.length (coordinates a)) (List.length (coordinates b))
  /\ List.length (coordinates v)
     = Nat.min (List.length (coordinates a)) (List.length (coordinates b))
  /\ Forall2 (fun '(x, y) c => op x y = Return c)
             (combine (coordinates a) (coordinates b)) (coordinates v).
Proof.
  intros H. destruct (zip_returns op a b v H) as [[_ Hd] Hl].
  split; [congruence|]. split; [exact Hl|].
  apply bind_return_inv in H. destruct H as (t & Ht & Hv).
  destruct (init_tuple_returns _ _ Hv) as [_ ->].
  apply mapM_inv in Ht.
  eapply Forall2_impl; [|exact Ht]. intros [x y] c Hc. exact Hc.
Qed.



